(** * BER dataset cleaning: a shallow embedding of [SourceCode.py]

    The script turns a tab-separated text file into a CSV file
    ([convert_txt_to_csv]), cleans a table of building energy ratings row
    by row ([cleaning_methodology]), decides with [filter_by_criteria]
    which rows are flagged, and writes the result chunk by chunk
    ([process_csv_file]).

    Modelling choices.
    - A row ([pd.Series]) is a finite map from column label to cell.
    - A cell is a number or a text.  Numbers are exact rationals: the
      decimal literals of the script and the decimal cells of the CSV file
      are compared as the numbers they denote.  Missing cells (NaN),
      infinite cells and binary rounding are outside the model.  So are
      Python's sums and products of texts ([+] joins two texts, [*]
      repeats a text an integer number of times): the sums and products
      of the script are followed on numbers, and no statement below is
      about a sum or a product with a text operand.
    - A CSV file is a list of lines of tokens.  [read_csv] types the
      columns of each chunk on their own, so the cell a token yields
      depends on the chunk it is read in.  A chunk is typed in one piece,
      as pandas does for chunks that fit its parsing buffer (some
      thousands of lines).
    - Files are kept under the name of the file, and a path is resolved to
      that name by a function [file_of], because two spellings of a path
      can name one file.
    - Python exceptions are values of [exn]; every function that indexes a
      row returns a [result].
    - The current year ([datetime.now().year]) is an argument. *)

From Stdlib Require Import QArith ZArith String List Lia Lqa.
From stdpp Require Import gmap strings list fin_maps.

Local Open Scope string_scope.

(** ** Cells, rows and exceptions *)

Inductive value : Type :=
| VNum (q : Q)
| VStr (s : string).

Abbreviation Series := (gmap string value).

Inductive exn : Type :=
| KeyError (label : string)
| IndexError
| TypeError
| ZeroDivisionError
| ValueError
| FileNotFoundError (path : string)
| FileAccessError (message : string).

Inductive result (A : Type) : Type :=
| Ok (a : A)
| Raise (e : exn).
Arguments Ok {A} a.
Arguments Raise {A} e.

#[global] Instance result_ret : MRet result := λ A a, Ok a.
#[global] Instance result_bind : MBind result := λ A B f m,
  match m with
  | Ok a => f a
  | Raise e => Raise e
  end.

Definition is_Ok {A} (m : result A) : bool :=
  match m with Ok _ => true | Raise _ => false end.

(** [data_row[label]] *)
Definition get (data_row : Series) (label : string) : result value :=
  match data_row !! label with
  | Some v => Ok v
  | None => Raise (KeyError label)
  end.

(** A cell that is compared with a number, or computed with: a text in
    an ordering comparison with a number raises [TypeError].  The
    arithmetic of the script is followed on numbers only. *)
Definition as_num (v : value) : result Q :=
  match v with
  | VNum q => Ok q
  | VStr _ => Raise TypeError
  end.

Definition getnum (data_row : Series) (label : string) : result Q :=
  v ← get data_row label; as_num v.

(** Python's [==] between a cell and a literal never raises. *)
Definition eq_num (v : value) (q : Q) : bool :=
  match v with
  | VNum x => Qeq_bool x q
  | VStr _ => false
  end.

Definition eq_str (v : value) (s : string) : bool :=
  match v with
  | VNum _ => false
  | VStr x => String.eqb x s
  end.

(** [label in data_row]: membership in the index of the Series. *)
Definition contains (data_row : Series) (label : string) : bool :=
  match data_row !! label with
  | Some _ => true
  | None => false
  end.

Definition Qlt_bool (x y : Q) : bool := negb (Qle_bool y x).

(** [l[i]] on a Python list. *)
Definition index {A} (l : list A) (i : nat) : result A :=
  match l !! i with
  | Some x => Ok x
  | None => Raise IndexError
  end.

(** [for x in xs: s = body(s, x)] *)
Fixpoint for_each {A S} (body : S → A → result S) (xs : list A) (s : S)
  : result S :=
  match xs with
  | [] => Ok s
  | x :: xs' => s' ← body s x; for_each body xs' s'
  end.

(** ** [add_desired_columns] *)

(** A bin edge: [float('-inf')], a number, or [float('inf')]. *)
Inductive edge : Type :=
| NegInf
| Fin (q : Q)
| PosInf.

(** [x > e] and [x <= e] for a number [x] and an edge [e]. *)
Definition gt_edge (x : Q) (e : edge) : bool :=
  match e with
  | NegInf => true
  | Fin q => Qlt_bool q x
  | PosInf => false
  end.

Definition le_edge (x : Q) (e : edge) : bool :=
  match e with
  | NegInf => false
  | Fin q => Qle_bool x q
  | PosInf => true
  end.

Definition bins : list edge :=
  [NegInf; Fin 1899; Fin 1929; Fin 1949; Fin 1966; Fin 1977; Fin 1982;
   Fin 1993; Fin 1999; Fin 2004; Fin 2009; PosInf].

Definition construction_period : list string :=
  ["A"; "B"; "C"; "D"; "E"; "F"; "G"; "H"; "I"; "J"; "K"].

(** The test of the loop at index [i]. *)
Definition in_bin (i : nat) (year : Q) : result bool :=
  lo ← index bins i;
  if gt_edge year lo then
    hi ← index bins (i + 1);
    Ok (le_edge year hi)
  else Ok false.

(** Addition 1: one pass of the loop over [range(len(bins)-1)]. *)
Definition age_band_body (data_row : Series) (i : nat) : result Series :=
  year ← getnum data_row "Year_of_Construction";
  hit ← in_bin i year;
  if (hit : bool) then
    letter ← index construction_period i;
    Ok (<["AgeBand" := VStr letter]> data_row)
  else Ok data_row.

Definition add_age_band (data_row : Series) : result Series :=
  for_each age_band_body (seq 0 (length bins - 1)) data_row.

(** Addition 2 *)
Definition add_thermal_era (data_row : Series) : result Series :=
  year ← getnum data_row "Year_of_Construction";
  Ok (<["ThermalEra" := VStr (if Qle_bool year 1977 then "Pre" else "Post")]>
        data_row).

(** Python's [/]: a zero divisor raises. *)
Definition divide (x y : Q) : result Q :=
  if Qeq_bool y 0 then Raise ZeroDivisionError else Ok (x / y)%Q.

(** Addition 3: the condition of the conditional expression is evaluated
    first, the quotient only when it holds. *)
Definition add_glazing_percent (data_row : Series) : result Series :=
  wall ← getnum data_row "WallArea";
  glazing ←
    (if Qlt_bool 0 wall then
       window ← getnum data_row "WindowArea";
       wall' ← getnum data_row "WallArea";
       divide window wall'
     else Ok 0%Q);
  Ok (<["GlazingPercent" := VNum glazing]> data_row).

(** Addition 4, on numbers *)
Definition add_volume (data_row : Series) : result Series :=
  area ← getnum data_row "GroundFloorArea(sq m)";
  h0 ← getnum data_row "GroundFloorHeight";
  h1 ← getnum data_row "FirstFloorHeight";
  h2 ← getnum data_row "SecondFloorHeight";
  h3 ← getnum data_row "ThirdFloorHeight";
  Ok (<["Volume" := VNum (area * (h0 + h1 + h2 + h3))%Q]> data_row).

Definition add_desired_columns (data_row : Series) : result Series :=
  data_row ← add_age_band data_row;
  data_row ← add_thermal_era data_row;
  data_row ← add_glazing_percent data_row;
  add_volume data_row.

(** ** [drop_unwanted_columns] *)

Definition startswith (s pre : string) : bool := String.prefix pre s.

(** [data_row.index.tolist()] *)
Definition labels (data_row : Series) : list string :=
  (map_to_list data_row).*1.

Definition columns_to_drop (data_row : Series) : list string :=
  ["FirstWallDescription"; "SecondWallDescription"; "ThirdWallDescription"]
  ++ filter (λ col, startswith col "Unnamed:" = true) (labels data_row).

Definition drop_unwanted_columns (data_row : Series) : Series :=
  filter (λ cell, cell.1 ∉ columns_to_drop data_row) data_row.

(** ** [correct_column_data] *)

(** [[1 for x in xs if test(x)]] *)
Fixpoint ones_where {A} (test : A → result bool) (xs : list A)
  : result (list Z) :=
  match xs with
  | [] => Ok []
  | x :: xs' =>
      hit ← test x;
      rest ← ones_where test xs';
      Ok (if (hit : bool) then 1%Z :: rest else rest)
  end.

Definition sum (l : list Z) : Z := foldr Z.add 0%Z l.

Definition upper_floor_heights : list string :=
  ["FirstFloorHeight"; "SecondFloorHeight"; "ThirdFloorHeight"].

Definition correct_column_data (data_row : Series) : result Series :=
  storeys ← getnum data_row "NoStoreys";
  if Qlt_bool storeys 4 then
    ones ← ones_where
              (λ height, h ← getnum data_row height; Ok (Qlt_bool 0 h))
              upper_floor_heights;
    Ok (<["NoStoreys" := VNum (inject_Z (1 + sum ones))]> data_row)
  else Ok data_row.

(** ** [filter_by_criteria] *)

(** [if not ok: exclude_row = True] *)
Definition flag_unless (ok : bool) (exclude_row : bool) : bool :=
  if negb ok then true else exclude_row.

(** The three shapes of range test in the function:
    [lo <= data_row[c] <= hi], [lo < data_row[c] <= hi] and
    [(lo <= data_row[c] <= hi) or data_row[c] == 0]. *)
Inductive range_check : Type :=
| Closed (lo : Q) (column : string) (hi : Q)
| LeftOpen (lo : Q) (column : string) (hi : Q)
| ClosedOrZero (lo : Q) (column : string) (hi : Q).
Arguments Closed lo%_Q column%_string hi%_Q.
Arguments LeftOpen lo%_Q column%_string hi%_Q.
Arguments ClosedOrZero lo%_Q column%_string hi%_Q.

Definition checked_column (c : range_check) : string :=
  match c with
  | Closed _ col _ | LeftOpen _ col _ | ClosedOrZero _ col _ => col
  end.

Definition in_range (c : range_check) (x : Q) : bool :=
  match c with
  | Closed lo _ hi => Qle_bool lo x && Qle_bool x hi
  | LeftOpen lo _ hi => Qlt_bool lo x && Qle_bool x hi
  | ClosedOrZero lo _ hi => (Qle_bool lo x && Qle_bool x hi) || Qeq_bool x 0
  end.

(** [if not (range test): exclude_row = True] *)
Definition apply_check (data_row : Series) (exclude_row : bool)
  (c : range_check) : result bool :=
  x ← getnum data_row (checked_column c);
  Ok (flag_unless (in_range c x) exclude_row).

(** Clause 1 - Year of Construction *)
Definition clause_1 (now_year : Z) (data_row : Series) (exclude_row : bool)
  : result bool :=
  year ← getnum data_row "Year_of_Construction";
  Ok (if Qlt_bool (inject_Z now_year) year then true else exclude_row).

(** Clause 2 - Ground Floor Height *)
Definition clause_2 (data_row : Series) (exclude_row : bool) : result bool :=
  apply_check data_row exclude_row (ClosedOrZero 2.30 "GroundFloorHeight" 3.46).

(** Clause 3 - Type of Rating.  The operand of [in] is the row itself. *)
Definition allowed_substrings : list string :=
  ["Final"; "Existing"; "Provisional"].

Definition clause_3 (data_row : Series) (exclude_row : bool) : bool :=
  flag_unless (existsb (λ allowed_substring, contains data_row allowed_substring)
                 allowed_substrings)
    exclude_row.

(** Clauses 4 and 5: zero, or one of two closed ranges. *)
Definition zero_or_two_ranges (lo1 hi1 lo2 hi2 x : Q) : bool :=
  Qeq_bool x 0
  || (Qle_bool lo1 x && Qle_bool x hi1)
  || (Qle_bool lo2 x && Qle_bool x hi2).

Definition clause_4 (data_row : Series) (exclude_row : bool) : result bool :=
  x ← getnum data_row "HSMainSystemEfficiency";
  Ok (flag_unless (zero_or_two_ranges 23.07 95.90 100 635.34 x) exclude_row).

Definition clause_5 (data_row : Series) (exclude_row : bool) : result bool :=
  x ← getnum data_row "WHMainSystemEff";
  Ok (flag_unless (zero_or_two_ranges 24 95.90 100 389.9 x) exclude_row).

(** Clauses 6 - 16: the cases of [match data_row['DwellingTypeDescr']], in
    the order and with the patterns of the source. *)
Definition dwelling_cases : list (string * list range_check) :=
  [("Semi-detached house",
    [Closed   11.27     "LivingAreaPercent"       35.16;
     Closed   53.19     "WallArea"                147.96;
     Closed   31.13     "FloorArea"               119.09;
     Closed   48.75     "GroundFloorArea(sq m)"   186.83;
     Closed   32.34     "RoofArea"                127.39;
     Closed   7.09      "WindowArea"              41.99;
     LeftOpen 0         "DoorArea"                5.86]);
   ("End of terrace house",
    [Closed   12.96     "LivingAreaPercent"       59.49;
     Closed   56.62     "WallArea"                155.61;
     Closed   29.97     "FloorArea"               104.74;
     Closed   58.68     "GroundFloorArea(sq m)"   190.49;
     Closed   29.99     "RoofArea"                108.82;
     Closed   5.66      "WindowArea"              34.82;
     Closed   1.54      "DoorArea"                17.97]);
   ("Detached house",
    [Closed   7.54      "LivingAreaPercent"       45.89;
     Closed   31.68     "WallArea"                336.19;
     Closed   28.87     "FloorArea"               255.60;
     Closed   52.24     "GroundFloorArea(sq m)"   422.20;
     Closed   30.08     "RoofArea"                290.85;
     Closed   5.61      "WindowArea"              83.48;
     LeftOpen 0         "DoorArea"                6.28]);
   ("Top-floor apartment",
    [Closed   (-0.23)   "LivingAreaPercent"       62.28;
     Closed   4.63      "WallArea"                139.35;
     Closed   0         "FloorArea"               0;
     Closed   18.29     "GroundFloorArea(sq m)"   153.06;
     Closed   12.16     "RoofArea"                126.58;
     Closed   2.02      "WindowArea"              38.71;
     LeftOpen 0         "DoorArea"                1.91]);
   ("Mid-terrace house",
    [Closed   13.03     "LivingAreaPercent"       72.13;
     Closed   29.24     "WallArea"                163.64;
     Closed   31.65     "FloorArea"               101.19;
     Closed   61.13     "GroundFloorArea(sq m)"   189.89;
     Closed   32.54     "RoofArea"                110.68;
     Closed   4.29      "WindowArea"              29.02;
     Closed   1.61      "DoorArea"                21.04]);
   ("Maisonette",
    [Closed   6.39      "LivingAreaPercent"       78.28;
     Closed   20.88     "WallArea"                255.43;
     Closed   (-3.65)   "FloorArea"               841.0;
     Closed   12.82     "GroundFloorArea(sq m)"   182.30;
     Closed   (-121.43) "RoofArea"                84.78;
     Closed   1.83      "WindowArea"              35.75;
     Closed   1.83      "DoorArea"                6.21]);
   ("House",
    [Closed   6.61      "LivingAreaPercent"       39.73;
     Closed   57.96     "WallArea"                392.64;
     Closed   (-8.56)   "FloorArea"               248.01;
     Closed   53.63     "GroundFloorArea(sq m)"   453.75;
     Closed   (-4.44)   "RoofArea"                284.29;
     Closed   5.44      "WindowArea"              78.07;
     LeftOpen 0         "DoorArea"                4.73]);
   ("Apartment",
    [Closed   43.39     "LivingAreaPercent"       57.59;
     Closed   0.03      "WallArea"                135.15;
     Closed   (-1.41)   "FloorArea"               1596.88;
     Closed   14.73     "GroundFloorArea(sq m)"   143.84;
     Closed   (-4.74)   "RoofArea"                725.23;
     Closed   1.72      "WindowArea"              47.62;
     Closed   1.78      "DoorArea"                2.02]);
   ("Ground-floor apartment",
    [Closed   3.72      "LivingAreaPercent"       64.30;
     Closed   (-5.79)   "WallArea"                113.86;
     Closed   2.23      "FloorArea"               107.71;
     Closed   14.74     "GroundFloorArea(sq m)"   125.67;
     Closed   (-0.19)   "RoofArea"                214.01;
     Closed   2.96      "WindowArea"              32.76;
     Closed   1.45      "DoorArea"                2.40]);
   ("Mid-floor apartment",
    [Closed   21.59     "LivingAreaPercent"       65.04;
     Closed   (-0.75)   "WallArea"                104.89;
     Closed   0         "FloorArea"               0;
     Closed   8.61      "GroundFloorArea(sq m)"   114.22;
     Closed   0         "RoofArea"                0;
     Closed   2.77      "WindowArea"              41.77;
     LeftOpen 0         "DoorArea"                1.91]);
   ("Basement Dwellinge",
    [Closed   (-4.70)   "LivingAreaPercent"       81.83;
     Closed   0.94      "WallArea"                148.01;
     Closed   (-12.76)  "FloorArea"               141.22;
     Closed   2.43      "GroundFloorArea(sq m)"   189.37;
     Closed   (-0.21)   "RoofArea"                238.13;
     Closed   (-0.28)   "WindowArea"              32.29;
     Closed   0.29      "DoorArea"                2.23])].

(** The seven columns every case checks. *)
Definition dwelling_columns : list string :=
  ["LivingAreaPercent"; "WallArea"; "FloorArea"; "GroundFloorArea(sq m)";
   "RoofArea"; "WindowArea"; "DoorArea"].

Definition clauses_6_16 (data_row : Series) (exclude_row : bool)
  : result bool :=
  descr ← get data_row "DwellingTypeDescr";
  match find (λ case, eq_str descr case.1) dwelling_cases with
  | Some (_, checks) => for_each (apply_check data_row) checks exclude_row
  | None => Ok exclude_row
  end.

(** Clauses 17, 18 - UValues per Thermal Era *)
Definition pre_checks : list range_check :=
  [ClosedOrZero 1.10 "UvalueDoor"   3.90;
   ClosedOrZero 1.18 "UValueWindow" 5.70;
   ClosedOrZero 0.13 "UValueRoof"   1.99;
   ClosedOrZero 0.16 "UValueFloor"  1.14;
   Closed       0.20 "UValueWall"   2.90].

Definition post_checks : list range_check :=
  [ClosedOrZero 0.83 "UvalueDoor"   3.54;
   ClosedOrZero 0.77 "UValueWindow" 4.80;
   ClosedOrZero 0.11 "UValueRoof"   0.68;
   ClosedOrZero 0.11 "UValueFloor"  1.14;
   Closed       0.14 "UValueWall"   1.72].

Definition clauses_17_18 (data_row : Series) (exclude_row : bool)
  : result bool :=
  era ← get data_row "ThermalEra";
  if eq_str era "Pre" then
    for_each (apply_check data_row) pre_checks exclude_row
  else
    era ← get data_row "ThermalEra";
    if eq_str era "Post" then
      for_each (apply_check data_row) post_checks exclude_row
    else Ok exclude_row.

Definition filter_by_criteria (now_year : Z) (data_row : Series)
  : result bool :=
  let exclude_row := false in
  exclude_row ← clause_1 now_year data_row exclude_row;
  exclude_row ← clause_2 data_row exclude_row;
  let exclude_row := clause_3 data_row exclude_row in
  exclude_row ← clause_4 data_row exclude_row;
  exclude_row ← clause_5 data_row exclude_row;
  exclude_row ← clauses_6_16 data_row exclude_row;
  exclude_row ← clauses_17_18 data_row exclude_row;
  Ok exclude_row.

(** ** [find_and_replace] *)

(** The two shapes of statement in the cases of [match data_row['AgeBand']]:
    [if (UValueWall == old) and (FirstWallType_Description == d):
       UValueWall = new]
    and [if (UValueRoof == old): UValueRoof = new]. *)
Inductive default_rule : Type :=
| WallRule (old : Q) (description : string) (new : Q)
| RoofRule (old new : Q).
Arguments WallRule old%_Q description%_string new%_Q.
Arguments RoofRule old%_Q new%_Q.

Definition apply_rule (data_row : Series) (rule : default_rule)
  : result Series :=
  match rule with
  | WallRule old description new =>
      wall ← get data_row "UValueWall";
      if eq_num wall old then
        d ← get data_row "FirstWallType_Description";
        if eq_str d description
        then Ok (<["UValueWall" := VNum new]> data_row)
        else Ok data_row
      else Ok data_row
  | RoofRule old new =>
      roof ← get data_row "UValueRoof";
      if eq_num roof old
      then Ok (<["UValueRoof" := VNum new]> data_row)
      else Ok data_row
  end.

Definition age_band_cases : list (string * list default_rule) :=
  [("A",
    [WallRule 2.10 "Unknown"                2.69;
     WallRule 2.10 "Stone"                  2.90;
     WallRule 1.64 "325mm Solid Brick"      1.55;
     RoofRule 2.30 0.71]);
   ("B",
    [WallRule 2.10 "Unknown"                1.75;
     WallRule 2.10 "Stone"                  3.28;
     WallRule 2.10 "225mm Solid brick"      1.75;
     WallRule 1.64 "325mm Solid Brick"      1.55;
     RoofRule 2.30 0.71]);
   ("C",
    [WallRule 2.10 "Unknown"                2.12;
     WallRule 2.10 "225mm Solid brick"      1.75;
     WallRule 1.78 "300mm Cavity"           1.20;
     WallRule 2.20 "Solid Mass Concrete"    2.12;
     RoofRule 2.30 0.71]);
   ("D",
    [WallRule 2.10 "Unknown"                2.69;
     WallRule 1.78 "300mm Cavity"           1.85;
     WallRule 2.20 "Solid Mass Concrete"    2.12;
     WallRule 2.40 "Concrete Hollow Block"  2.69;
     RoofRule 2.30 0.71]);
   ("E",
    [WallRule 2.10 "Unknown"                2.14;
     WallRule 1.78 "300mm Cavity"           1.54;
     WallRule 2.40 "Concrete Hollow Block"  2.14;
     RoofRule 2.30 0.71]);
   ("F",
    [WallRule 1.10 "Unknown"                1.83;
     WallRule 1.10 "300mm Cavity"           1.43;
     WallRule 0.60 "300mm Filled Cavity"    0.54;
     WallRule 1.10 "Concrete Hollow Block"  1.83;
     RoofRule 0.49 0.43]);
   ("G",
    [WallRule 0.60 "Unknown"                1.35;
     WallRule 0.60 "300mm Cavity"           1.35;
     WallRule 0.60 "300mm Filled Cavity"    0.54;
     WallRule 0.60 "Concrete Hollow Block"  1.72;
     RoofRule 0.49 0.43]);
   ("H",
    [WallRule 0.55 "Unknown"                0.39;
     WallRule 0.55 "300mm Filled Cavity"    0.39;
     WallRule 0.55 "Concrete Hollow Block"  0.54;
     WallRule 0.55 "Timber Frame"           0.40;
     RoofRule 0.40 0.28]);
   ("I",
    [WallRule 0.55 "Unknown"                0.28;
     WallRule 0.55 "300mm Filled Cavity"    0.29;
     WallRule 0.55 "Timber Frame"           0.35;
     RoofRule 0.36 0.28]);
   ("J",
    [WallRule 0.37 "Unknown"                0.27;
     WallRule 0.37 "300mm Filled Cavity"    0.27;
     WallRule 0.37 "Timber Frame"           0.30;
     RoofRule 0.25 0.21]);
   ("K",
    [WallRule 0.27 "Unknown"                0.27;
     WallRule 0.27 "300mm Filled Cavity"    0.21;
     WallRule 0.27 "Timber Frame"           0.27;
     RoofRule 0.25 0.21])].

Definition find_and_replace (data_row : Series) : result Series :=
  band ← get data_row "AgeBand";
  match find (λ case, eq_str band case.1) age_band_cases with
  | Some (_, rules) => for_each apply_rule rules data_row
  | None => Ok data_row
  end.

(** ** [cleaning_methodology] *)

Definition cleaning_methodology (data_row : Series) : result Series :=
  let data_row := drop_unwanted_columns data_row in
  data_row ← add_desired_columns data_row;
  data_row ← correct_column_data data_row;
  data_row ← find_and_replace data_row;
  Ok data_row.

(** ** [process_csv_file] *)

(** A cell of a CSV file as [read_csv] finds it: characters that spell a
    number, with that number, or characters that pandas keeps as a text.
    Cells that pandas reads as missing values (the empty cell among them)
    are outside the model. *)
Inductive token : Type :=
| Number (q : Q) (spelling : string)
| Word (s : string).

(** A data line of a CSV file: the token under each label of the header
    line. *)
Abbreviation Line := (gmap string token).

(** [read_csv] settles the type of a column for each chunk on its own.  A
    column is numeric in a chunk when every token the chunk has under its
    label spells a number; otherwise every cell of the column is, in that
    chunk, the text of its token. *)
Definition numeric_column (chunk : list Line) (label : string) : bool :=
  forallb (λ line, match line !! label with
                   | Some (Word _) => false
                   | _ => true
                   end) chunk.

Definition typed_cell (chunk : list Line) (label : string) (cell : token)
  : value :=
  match cell with
  | Number q spelling =>
      if numeric_column chunk label then VNum q else VStr spelling
  | Word s => VStr s
  end.

Definition typed_line (chunk : list Line) (line : Line) : Series :=
  map_imap (λ label cell, Some (typed_cell chunk label cell)) line.

(** A chunk ([pd.DataFrame]): rows in order, each with its index label.
    [read_csv] numbers the rows of the whole file 0, 1, 2, ... *)
Abbreviation DataFrame := (list (nat * Series)).

Definition typed_chunk (chunk : list (nat * Line)) : DataFrame :=
  (λ numbered, (numbered.1, typed_line chunk.*2 numbered.2)) <$> chunk.

Inductive write_mode : Type := ModeW | ModeA.

Inductive io_event : Type :=
| ReadCsv (path : string) (chunksize : nat)
| ToCsv (path : string) (mode : write_mode) (header : bool)
    (rows : list Series).

(** The files (their data lines) and the log of what was done to them. *)
Record world : Type := World {
  files : gmap string (list Line);
  log : list io_event
}.

(** [s.endswith(suffix)]: some tail of [s] is [suffix]. *)
Fixpoint endswith (s suffix : string) : bool :=
  String.eqb s suffix
  || match s with
     | EmptyString => false
     | String _ s' => endswith s' suffix
     end.

Fixpoint chunks_fuel {A} (fuel size : nat) (l : list A) : list (list A) :=
  match fuel with
  | O => []
  | S fuel' =>
      match l with
      | [] => []
      | _ => take size l :: chunks_fuel fuel' size (drop size l)
      end
  end.

(** Successive chunks of [size] rows; a table without rows gives one empty
    chunk. *)
Definition chunked {A} (size : nat) (l : list A) : list (list A) :=
  match l with
  | [] => [[]]
  | _ => chunks_fuel (length l) size l
  end.

Definition enumerate {A} (l : list A) : list (nat * A) :=
  zip (seq 0 (length l)) l.

(** [chunk.apply(f, axis = 1)] *)
Fixpoint apply_rows (f : Series → result Series) (chunk : DataFrame)
  : result DataFrame :=
  match chunk with
  | [] => Ok []
  | (id, data_row) :: rest =>
      data_row' ← f data_row;
      rest' ← apply_rows f rest;
      Ok ((id, data_row') :: rest')
  end.

(** [[id for id in chunk.index if test(chunk.loc[id])]] *)
Fixpoint ids_where (test : Series → result bool) (chunk : DataFrame)
  : result (list nat) :=
  match chunk with
  | [] => Ok []
  | (id, data_row) :: rest =>
      hit ← test data_row;
      ids ← ids_where test rest;
      Ok (if (hit : bool) then id :: ids else ids)
  end.

(** [chunk.filter(items = items, axis = 0)] *)
Definition filter_items (items : list nat) (chunk : DataFrame) : DataFrame :=
  filter (λ labelled, labelled.1 ∈ items) chunk.

Definition default_chunk_size : nat := 1000.

Section orchestrator.

(** The file a path names.  The files of a [world] are kept under the
    name of the file, so that two spellings of a path that name one file
    reach the same lines. *)
Variable file_of : string → string.

(** The characters [to_csv] writes for a number in a column of the frame
    it writes.  They depend on the type pandas has given the column, not
    on the script. *)
Variable number_format : list Series → string → Q → string.

(** [pd.read_csv(path, chunksize = chunk_size)].  The chunks are read here
    before the first of them is processed; pandas reads them one by one
    while the loop runs, which makes no difference as long as the loop
    does not write to the file it reads. *)
Definition read_csv (path : string) (chunk_size : nat) (w : world)
  : result (list DataFrame) * world :=
  if Nat.eqb chunk_size 0 then (Raise ValueError, w)
  else
    match files w !! file_of path with
    | None => (Raise (FileNotFoundError path), w)
    | Some lines =>
        (Ok (typed_chunk <$> chunked chunk_size (enumerate lines)),
         World (files w) (log w ++ [ReadCsv path chunk_size])%list)
    end.

(** The tokens [to_csv] writes for the cells of a row. *)
Definition written_token (frame : list Series) (label : string) (v : value)
  : token :=
  match v with
  | VNum q => Number q (number_format frame label q)
  | VStr s => Word s
  end.

Definition written_line (frame : list Series) (data_row : Series) : Line :=
  map_imap (λ label v, Some (written_token frame label v)) data_row.

(** [chunk.to_csv(path, mode, header, index = False)] *)
Definition to_csv (path : string) (mode : write_mode) (header : bool)
  (chunk : DataFrame) (w : world) : world :=
  let rows := chunk.*2 in
  let old := match mode with
             | ModeW => []
             | ModeA => default [] (files w !! file_of path)
             end in
  World (<[file_of path := (old ++ (written_line rows <$> rows))%list]>
           (files w))
        (log w ++ [ToCsv path mode header rows])%list.

(** The body of the loop over the chunks, with [first_write] threaded. *)
Fixpoint process_chunks (now_year : Z) (output_csv_file : string)
  (chunks : list DataFrame) (first_write : bool) (w : world)
  : result unit * world :=
  match chunks with
  | [] => (Ok (), w)
  | chunk :: rest =>
      match apply_rows cleaning_methodology chunk with
      | Raise e => (Raise e, w)
      | Ok chunk =>
          match ids_where (filter_by_criteria now_year) chunk with
          | Raise e => (Raise e, w)
          | Ok items =>
              let chunk := filter_items items chunk in
              let w := to_csv output_csv_file
                         (if first_write then ModeW else ModeA)
                         first_write chunk w in
              let first_write :=
                if first_write then false else first_write in
              process_chunks now_year output_csv_file rest first_write w
          end
      end
  end.

Definition process_csv_file (now_year : Z)
  (input_csv_file output_csv_file : string) (chunk_size : nat) (w : world)
  : result unit * world :=
  if negb (endswith input_csv_file ".csv")
     || negb (endswith output_csv_file ".csv")
  then (Raise (FileAccessError "This function only accepts filetype '.csv'"),
        w)
  else if String.eqb input_csv_file output_csv_file
  then (Raise (FileAccessError
          ("Same input and output file given. Because file read occurs in chunks data may be lost mid processing. "
           ++ "Use different input and output files.")), w)
  else
    match read_csv input_csv_file chunk_size w with
    | (Raise e, w) => (Raise e, w)
    | (Ok chunks, w) => process_chunks now_year output_csv_file chunks true w
    end.

End orchestrator.

(** ** What the specification says, for comparison with the code *)

(** A row conforms on a column when the cell is there and is a number. *)
Definition is_num (data_row : Series) (label : string) : bool :=
  match data_row !! label with
  | Some (VNum _) => true
  | _ => false
  end.

Definition num (data_row : Series) (label : string) : Q :=
  match data_row !! label with
  | Some (VNum q) => q
  | _ => 0%Q
  end.

(** The columns [filter_by_criteria] compares with numbers. *)
Definition validation_columns : list string :=
  ["Year_of_Construction"; "GroundFloorHeight"; "HSMainSystemEfficiency";
   "WHMainSystemEff"; "LivingAreaPercent"; "WallArea"; "FloorArea";
   "GroundFloorArea(sq m)"; "RoofArea"; "WindowArea"; "DoorArea";
   "UvalueDoor"; "UValueWindow"; "UValueRoof"; "UValueFloor"; "UValueWall"].

(** The row has every column [filter_by_criteria] reads: the numeric ones
    as numbers, the two categorical ones with some cell. *)
Definition validation_schema (data_row : Series) : bool :=
  forallb (is_num data_row) validation_columns
  && contains data_row "DwellingTypeDescr"
  && contains data_row "ThermalEra".

(** Age band by inclusive upper boundary, as the specification lists them. *)
Definition age_band_of_year (year : Q) : string :=
  if Qle_bool year 1899 then "A"
  else if Qle_bool year 1929 then "B"
  else if Qle_bool year 1949 then "C"
  else if Qle_bool year 1966 then "D"
  else if Qle_bool year 1977 then "E"
  else if Qle_bool year 1982 then "F"
  else if Qle_bool year 1993 then "G"
  else if Qle_bool year 1999 then "H"
  else if Qle_bool year 2004 then "I"
  else if Qle_bool year 2009 then "J"
  else "K".

(** Number of heights that are strictly positive. *)
Definition count_positive (heights : list Q) : Z :=
  Z.of_nat (length (filter (λ h, Qlt_bool 0 h = true) heights)).

(** A range check is violated by the cell of its column. *)
Definition out_of_range (data_row : Series) (c : range_check) : bool :=
  negb (in_range c (num data_row (checked_column c))).

(** The three rule groups of the Validation Engine, each as the disjunction
    of its violated rules. *)
Definition global_flag (now_year : Z) (data_row : Series) : bool :=
  Qlt_bool (inject_Z now_year) (num data_row "Year_of_Construction")
  || out_of_range data_row (ClosedOrZero 2.30 "GroundFloorHeight" 3.46)
  || negb (existsb (contains data_row) allowed_substrings)
  || negb (zero_or_two_ranges 23.07 95.90 100 635.34
             (num data_row "HSMainSystemEfficiency"))
  || negb (zero_or_two_ranges 24 95.90 100 389.9
             (num data_row "WHMainSystemEff")).

Definition category_flag (data_row : Series) : bool :=
  match data_row !! "DwellingTypeDescr" with
  | Some descr =>
      match find (λ case, eq_str descr case.1) dwelling_cases with
      | Some (_, checks) => existsb (out_of_range data_row) checks
      | None => false
      end
  | None => false
  end.

Definition era_flag (data_row : Series) : bool :=
  match data_row !! "ThermalEra" with
  | Some era =>
      if eq_str era "Pre" then existsb (out_of_range data_row) pre_checks
      else if eq_str era "Post"
           then existsb (out_of_range data_row) post_checks
           else false
  | None => false
  end.

(** The final decision of the Validation Engine: exclude when some rule
    group flags the row. *)
Definition excluded (now_year : Z) (data_row : Series) : bool :=
  global_flag now_year data_row || category_flag data_row
  || era_flag data_row.

(** The correction tables of the Default Correction Engine: first entry of
    the age band's rules that matches the description and the current
    value exactly. *)
Fixpoint wall_lookup (rules : list default_rule) (descr : value)
  (wall : value) : option Q :=
  match rules with
  | [] => None
  | WallRule old d new :: rest =>
      if eq_num wall old && eq_str descr d then Some new
      else wall_lookup rest descr wall
  | RoofRule _ _ :: rest => wall_lookup rest descr wall
  end.

Fixpoint roof_lookup (rules : list default_rule) (roof : value)
  : option Q :=
  match rules with
  | [] => None
  | RoofRule old new :: rest =>
      if eq_num roof old then Some new else roof_lookup rest roof
  | WallRule _ _ _ :: rest => roof_lookup rest roof
  end.

Definition rules_of_band (band : value) : list default_rule :=
  match find (λ case, eq_str band case.1) age_band_cases with
  | Some (_, rules) => rules
  | None => []
  end.

Definition wall_correction (band descr wall : value) : option Q :=
  wall_lookup (rules_of_band band) descr wall.

Definition roof_correction (band roof : value) : option Q :=
  roof_lookup (rules_of_band band) roof.

(** Replace a cell when the table has a correction. *)
Definition corrected (label : string) (correction : option Q)
  (data_row : Series) : Series :=
  match correction with
  | Some new => <[label := VNum new]> data_row
  | None => data_row
  end.

(** No rule of the list can fire on a value that an earlier rule of the
    list has just written. *)
Fixpoint no_cascade (rules : list default_rule) : bool :=
  match rules with
  | [] => true
  | WallRule _ d new :: rest =>
      match wall_lookup rest (VStr d) (VNum new) with
      | None => no_cascade rest
      | Some _ => false
      end
  | RoofRule _ new :: rest =>
      match roof_lookup rest (VNum new) with
      | None => no_cascade rest
      | Some _ => false
      end
  end.

(** A row goes through cleaning and validation without an exception. *)
Definition clean_and_flag (now_year : Z) (data_row : Series)
  : result (Series * bool) :=
  cleaned ← cleaning_methodology data_row;
  flag ← filter_by_criteria now_year cleaned;
  Ok (cleaned, flag).

(** The rows the script writes: the cleaned rows for which
    [filter_by_criteria] returns [True], in input order. *)
Definition written_rows (now_year : Z) (rows : list Series) : list Series :=
  flat_map (λ data_row,
              match clean_and_flag now_year data_row with
              | Ok (cleaned, true) => [cleaned]
              | _ => []
              end) rows.

(** The rows the specification asks for: the cleaned rows the Validation
    Engine does not exclude, in input order. *)
Definition surviving_rows (now_year : Z) (rows : list Series) : list Series :=
  flat_map (λ data_row,
              match clean_and_flag now_year data_row with
              | Ok (cleaned, false) => [cleaned]
              | _ => []
              end) rows.

(** The exceptions a single row can raise. *)
Definition row_error (e : exn) : Prop :=
  match e with
  | KeyError _ | IndexError | TypeError => True
  | _ => False
  end.

(** Every exception [m] can raise satisfies [P]. *)
Definition raises_in {A} (P : exn → Prop) (m : result A) : Prop :=
  ∀ e, m = Raise e → P e.

(** Every row of the table goes through without an exception. *)
Definition all_rows_ok (now_year : Z) (rows : list Series) : bool :=
  forallb (λ data_row, is_Ok (clean_and_flag now_year data_row)) rows.

(** The rows [read_csv] hands over for a chunk size, chunk after chunk. *)
Definition typed_rows (chunk_size : nat) (lines : list Line) : list Series :=
  (concat (typed_chunk <$> chunked chunk_size (enumerate lines))).*2.

(** A line read cell by cell: each token that spells a number as that
    number, every other token as its text. *)
Definition cell_value (cell : token) : value :=
  match cell with
  | Number q _ => VNum q
  | Word s => VStr s
  end.

Definition read_cells (line : Line) : Series := cell_value <$> line.

(** The lines of a CSV file have the labels of its header line. *)
Definition same_labels (lines : list Line) : bool :=
  match lines with
  | [] => true
  | line :: rest =>
      forallb (λ other : Line,
                 bool_decide ((map_to_list other).*1 = (map_to_list line).*1))
        rest
  end.

(** Every column of the table holds numbers only, or no number at all. *)
Definition uniformly_typed (lines : list Line) : bool :=
  forallb (λ line,
             forallb (λ cell,
                        match cell.2 with
                        | Number _ _ => numeric_column lines cell.1
                        | Word _ => true
                        end) (map_to_list line)) lines.

(** The outcome of a run and the data rows of a file after it, read cell
    by cell. *)
Definition run_ok (run : result unit * world) : bool := is_Ok run.1.

Definition file_after (run : result unit * world) (file : string)
  : option (list Series) :=
  match files run.2 !! file with
  | Some lines => Some (read_cells <$> lines)
  | None => None
  end.

(** ** Rows and files used in the examples *)

(** A raw row as the public dataset has them, with its rating type in the
    column [TypeofRating]. *)
Definition detached_1970 : Series :=
  list_to_map
    [("Year_of_Construction", VNum 1970); ("TypeofRating", VStr "Final");
     ("DwellingTypeDescr", VStr "Detached house"); ("NoStoreys", VNum 3);
     ("GroundFloorHeight", VNum 2.5); ("FirstFloorHeight", VNum 2.5);
     ("SecondFloorHeight", VNum 0); ("ThirdFloorHeight", VNum 0);
     ("LivingAreaPercent", VNum 20); ("WallArea", VNum 100);
     ("FloorArea", VNum 60); ("GroundFloorArea(sq m)", VNum 120);
     ("RoofArea", VNum 60); ("WindowArea", VNum 20); ("DoorArea", VNum 2);
     ("HSMainSystemEfficiency", VNum 90); ("WHMainSystemEff", VNum 90);
     ("UvalueDoor", VNum 3.0); ("UValueWindow", VNum 2.8);
     ("UValueRoof", VNum 0.4); ("UValueFloor", VNum 0.5);
     ("UValueWall", VNum 2.10); ("FirstWallType_Description", VStr "Stone");
     ("FirstWallDescription", VStr "stone wall"); ("Unnamed: 0", VNum 0)].

(** The same row once the derived columns are there. *)
Definition detached_1970_derived : Series :=
  <["ThermalEra" := VStr "Pre"]> (<["AgeBand" := VStr "E"]> detached_1970).

(** The same row in a table that also has a column labelled [Final]. *)
Definition detached_1970_final_column : Series :=
  <["Final" := VNum 0]> detached_1970.

(** That row as [cleaning_methodology] returns it: no clause of
    [filter_by_criteria] flags it. *)
Definition final_column_cleaned : Series :=
  <["NoStoreys" := VNum 2]>
    (<["Volume" := VNum (120 * (2.5 + 2.5 + 0 + 0))]>
       (<["GlazingPercent" := VNum (20 / 100)]>
          (<["ThermalEra" := VStr "Pre"]>
             (<["AgeBand" := VStr "E"]>
                (delete "FirstWallDescription"
                   (delete "Unnamed: 0" detached_1970_final_column)))))).

(** A basement dwelling of that table, with a wall area far outside the
    range of the eleventh case, before and after cleaning. *)
Definition basement_final_column : Series :=
  <["DwellingTypeDescr" := VStr "Basement Dwelling"]>
    (<["WallArea" := VNum 1000]> detached_1970_final_column).

Definition basement_cleaned : Series :=
  <["GlazingPercent" := VNum (20 / 1000)]>
    (<["DwellingTypeDescr" := VStr "Basement Dwelling"]>
       (<["WallArea" := VNum 1000]> final_column_cleaned)).

(** Age band A with the wall placeholder 2.10. *)
Definition stone_band_A : Series :=
  <["AgeBand" := VStr "A"]> detached_1970.

Definition brick_band_A : Series :=
  <["FirstWallType_Description" := VStr "Brick"]> stone_band_A.

(** The lines of CSV files.  [detached_line] spells [detached_1970]. *)
Definition detached_line : Line :=
  list_to_map
    [("Year_of_Construction", Number 1970 "1970");
     ("TypeofRating", Word "Final");
     ("DwellingTypeDescr", Word "Detached house");
     ("NoStoreys", Number 3 "3");
     ("GroundFloorHeight", Number 2.5 "2.5");
     ("FirstFloorHeight", Number 2.5 "2.5");
     ("SecondFloorHeight", Number 0 "0");
     ("ThirdFloorHeight", Number 0 "0");
     ("LivingAreaPercent", Number 20 "20");
     ("WallArea", Number 100 "100");
     ("FloorArea", Number 60 "60");
     ("GroundFloorArea(sq m)", Number 120 "120");
     ("RoofArea", Number 60 "60");
     ("WindowArea", Number 20 "20");
     ("DoorArea", Number 2 "2");
     ("HSMainSystemEfficiency", Number 90 "90");
     ("WHMainSystemEff", Number 90 "90");
     ("UvalueDoor", Number 3.0 "3.0");
     ("UValueWindow", Number 2.8 "2.8");
     ("UValueRoof", Number 0.4 "0.4");
     ("UValueFloor", Number 0.5 "0.5");
     ("UValueWall", Number 2.10 "2.10");
     ("FirstWallType_Description", Word "Stone");
     ("FirstWallDescription", Word "stone wall");
     ("Unnamed: 0", Number 0 "0")].

(** The same dwelling in a table that also has a column labelled
    [Final]; every rule of [filter_by_criteria] is met. *)
Definition final_line : Line := <["Final" := Number 0 "0"]> detached_line.

(** A dwelling of that table whose wall area is outside the range of its
    dwelling type. *)
Definition wide_wall_line : Line :=
  <["WallArea" := Number 1000 "1000"]> final_line.

(** A line whose wall area is a word. *)
Definition text_wall_line : Line :=
  <["WallArea" := Word "unknown"]> detached_line.

(** A dwelling of a type that is not among the cases, with a word for its
    living area percentage. *)
Definition text_living_area_line : Line :=
  <["LivingAreaPercent" := Word "unknown"]>
    (<["DwellingTypeDescr" := Word "Basement Dwelling"]> detached_line).

(** The file system of the examples: a path that starts with [./] names
    the same file as the rest of the path. *)
Definition plain_path (path : string) : string :=
  if startswith path "./"
  then String.substring 2 (String.length path - 2) path
  else path.

(** A number format for the examples. *)
Definition no_digits (frame : list Series) (label : string) (q : Q)
  : string := "".

Definition two_row_world : world :=
  World {[ "in.csv" := [final_line; wide_wall_line] ]} [].

Definition three_row_world : world :=
  World {[ "in.csv" := [final_line; wide_wall_line; final_line] ]} [].

(** A table whose second line has a word in a numeric column. *)
Definition aborting_world : world :=
  World {[ "in.csv" := [detached_line; text_wall_line] ]} [].

(** A table with one word in a column that is read for some dwelling
    types only. *)
Definition mixed_world : world :=
  World {[ "in.csv" := [text_living_area_line; detached_line] ]} [].

(** ** [convert_txt_to_csv] *)

(** The text of a file is a list of lines and a line a list of Unicode
    code points, because [str.strip] depends on which code points are
    white space. *)
Abbreviation text := (list N).

Definition tab : N := 9.

(** [c.isspace()] for one code point: U+0009..U+000D, U+001C..U+0020,
    U+0085, U+00A0, U+1680, U+2000..U+200A, U+2028, U+2029, U+202F, U+205F
    and U+3000. *)
Definition isspace (c : N) : bool :=
  (N.leb 9 c && N.leb c 13) || (N.leb 28 c && N.leb c 32)
  || N.eqb c 133 || N.eqb c 160 || N.eqb c 5760
  || (N.leb 8192 c && N.leb c 8202)
  || N.eqb c 8232 || N.eqb c 8233 || N.eqb c 8239 || N.eqb c 8287
  || N.eqb c 12288.

Fixpoint lstrip (s : text) : text :=
  match s with
  | [] => []
  | c :: s' => if isspace c then lstrip s' else s
  end.

Definition rstrip (s : text) : text := rev (lstrip (rev s)).

(** [s.strip()] *)
Definition strip (s : text) : text := rstrip (lstrip s).

(** [s.split(sep)] for a one-character separator: never an empty list. *)
Fixpoint split (sep : N) (s : text) : list text :=
  match s with
  | [] => [[]]
  | c :: s' =>
      let rest := split sep s' in
      if N.eqb c sep then [] :: rest else (c :: hd [] rest) :: tl rest
  end.

(** [sep.join(fields)] *)
Fixpoint join (sep : N) (fields : list text) : text :=
  match fields with
  | [] => []
  | [field] => field
  | field :: rest => (field ++ sep :: join sep rest)%list
  end.

(** [fields = line.strip().split('\t')] *)
Definition fields_of_line (line : text) : list text := split tab (strip line).

Section convert.

(** The file a path names, as in [process_csv_file]. *)
Variable file_of : string → string.

(** The line [csv.writer] writes for a row of fields; its quoting rules
    are not part of the script. *)
Variable writerow : list text → text.

(** The loop over the lines of the text file, with the lines written so
    far. *)
Definition convert_lines (lines : list text) : list text :=
  foldl (λ written line, written ++ [writerow (fields_of_line line)])%list
    [] lines.

(** The files are their lines.  [open(output_csv_file, 'w')] empties the
    output file before the first line of the input is read; the message
    printed at the end is left out. *)
Definition convert_txt_to_csv (input_txt_file output_csv_file : string)
  (fs : gmap string (list text)) : result unit * gmap string (list text) :=
  if negb (endswith input_txt_file ".txt"
           || endswith output_csv_file ".csv")
  then (Raise (FileAccessError
          "The input file must be '.txt' and the output file must be '.csv'"),
        fs)
  else
    match fs !! file_of input_txt_file with
    | None => (Raise (FileNotFoundError input_txt_file), fs)
    | Some _ =>
        let fs := <[file_of output_csv_file := []]> fs in
        let lines := default [] (fs !! file_of input_txt_file) in
        (Ok (), <[file_of output_csv_file := convert_lines lines]> fs)
    end.

End convert.

(** ** Further notions used in the statements *)

(** The labels [drop_unwanted_columns] removes. *)
Definition is_dropped (label : string) : bool :=
  bool_decide
    (label ∈ ["FirstWallDescription"; "SecondWallDescription";
              "ThirdWallDescription"])
  || startswith label "Unnamed:".

(** The columns [cleaning_methodology] compares with numbers before
    [filter_by_criteria] is reached. *)
Definition derivation_columns : list string :=
  ["Year_of_Construction"; "WallArea"; "WindowArea"; "GroundFloorArea(sq m)";
   "GroundFloorHeight"; "FirstFloorHeight"; "SecondFloorHeight";
   "ThirdFloorHeight"; "NoStoreys"].

(** A raw row with every column the pipeline reads. *)
Definition raw_schema (data_row : Series) : bool :=
  forallb (is_num data_row) (derivation_columns ++ validation_columns)
  && contains data_row "DwellingTypeDescr"
  && contains data_row "FirstWallType_Description".

(** The age bands of the era [Pre]. *)
Definition pre_bands : list string := ["A"; "B"; "C"; "D"; "E"].

(** The row has no column labelled with one of the three rating words. *)
Definition no_rating_label (data_row : Series) : bool :=
  negb (existsb (contains data_row) allowed_substrings).

(** The cleaned rows of a table, in input order. *)
Definition cleaned_rows (rows : list Series) : list Series :=
  flat_map (λ data_row,
              match cleaning_methodology data_row with
              | Ok cleaned => [cleaned]
              | Raise _ => []
              end) rows.

(** The same rational, numerator and denominator. *)
Definition same_Q (x y : Q) : bool :=
  Z.eqb (Qnum x) (Qnum y) && Pos.eqb (Qden x) (Qden y).

(** A value written by a rule of the list is left alone, or written again
    as it is, by every rule of the list. *)
Definition stable_rule (rules : list default_rule) (rule : default_rule)
  : bool :=
  match rule with
  | WallRule _ d new =>
      match wall_lookup rules (VStr d) (VNum new) with
      | None => true
      | Some new' => same_Q new' new
      end
  | RoofRule _ new =>
      match roof_lookup rules (VNum new) with
      | None => true
      | Some new' => same_Q new' new
      end
  end.

Definition stable (rules : list default_rule) : bool :=
  forallb (stable_rule rules) rules.

(** A dwelling of the era [Post] with a wall U-value of 0. *)
Definition post_1990 : Series :=
  <["UValueWall" := VNum 0]>
    (<["ThermalEra" := VStr "Post"]>
       (<["AgeBand" := VStr "G"]>
          (<["Year_of_Construction" := VNum 1990]> detached_1970))).

(** A table of three lines without a column labelled with a rating
    word. *)
Definition plain_world : world :=
  World {[ "in.csv" := [detached_line; detached_line; detached_line] ]} [].

(** A text file of two lines, [a<tab>b] and [c<tab><tab>], and an old
    CSV file. *)
Definition text_store : gmap string (list text) :=
  {[ "in.txt" := [[97; 9; 98; 10]; [99; 9; 9; 10]]%N;
     "old.csv" := [[120; 44; 121; 10]]%N ]}.

(** * Proofs *)

(** ** The exception monad and the comparisons *)

Lemma bind_Ok {A B} (a : A) (f : A → result B) : (Ok a ≫= f) = f a.
Proof. reflexivity. Qed.

Lemma bind_Raise {A B} (e : exn) (f : A → result B) :
  (Raise e ≫= f) = Raise e.
Proof. reflexivity. Qed.

Lemma bind_inv {A B} (m : result A) (f : A → result B) (e : exn) :
  (m ≫= f) = Raise e → m = Raise e ∨ ∃ a, m = Ok a ∧ f a = Raise e.
Proof.
  destruct m as [a|e']; cbn; intros H; [right; eauto | left; congruence].
Qed.

Lemma bind_Ok_inv {A B} (m : result A) (f : A → result B) b :
  (m ≫= f) = Ok b → ∃ a, m = Ok a ∧ f a = Ok b.
Proof. destruct m as [a|e]; cbn; [eauto | discriminate]. Qed.

Lemma get_Some (data_row : Series) label v :
  data_row !! label = Some v → get data_row label = Ok v.
Proof. intros H. unfold get. rewrite H. reflexivity. Qed.

Lemma getnum_Some (data_row : Series) label q :
  data_row !! label = Some (VNum q) → getnum data_row label = Ok q.
Proof. intros H. unfold getnum. rewrite (get_Some _ _ _ H). reflexivity. Qed.

Lemma is_num_lookup (data_row : Series) label :
  is_num data_row label = true →
  data_row !! label = Some (VNum (num data_row label)).
Proof.
  unfold is_num, num. destruct (data_row !! label) as [[q|s]|]; intros H;
    first [reflexivity | discriminate H].
Qed.

(** ** [correct_column_data] once more *)

Lemma getnum_Ok_inv (data_row : Series) label q :
  getnum data_row label = Ok q → data_row !! label = Some (VNum q).
Proof.
  unfold getnum, get. destruct (data_row !! label) as [[x|s]|]; cbn;
    intros H; first [congruence | discriminate H].
Qed.

Lemma getnum_num (data_row : Series) label :
  is_num data_row label = true →
  getnum data_row label = Ok (num data_row label).
Proof. intros H. apply getnum_Some, is_num_lookup, H. Qed.

Lemma num_lookup (data_row : Series) label q :
  data_row !! label = Some (VNum q) → num data_row label = q.
Proof. intros H. unfold num. rewrite H. reflexivity. Qed.

Lemma Qle_bool_true (x y : Q) : (x <= y)%Q → Qle_bool x y = true.
Proof. apply Qle_bool_iff. Qed.

Lemma Qle_bool_false (x y : Q) : (y < x)%Q → Qle_bool x y = false.
Proof.
  intros H. destruct (Qle_bool x y) eqn:E; [|reflexivity].
  apply Qle_bool_iff in E. lra.
Qed.

Lemma Qle_bool_cases (x y : Q) :
  ((x <= y)%Q ∧ Qle_bool x y = true) ∨ ((y < x)%Q ∧ Qle_bool x y = false).
Proof.
  destruct (Qlt_le_dec y x); [right | left];
    auto using Qle_bool_true, Qle_bool_false.
Qed.

Lemma Qlt_bool_true (x y : Q) : (x < y)%Q → Qlt_bool x y = true.
Proof. intros H. unfold Qlt_bool. rewrite Qle_bool_false; auto. Qed.

Lemma Qlt_bool_false (x y : Q) : (y <= x)%Q → Qlt_bool x y = false.
Proof. intros H. unfold Qlt_bool. rewrite Qle_bool_true; auto. Qed.

Lemma Qlt_bool_iff (x y : Q) : Qlt_bool x y = true ↔ (x < y)%Q.
Proof.
  split; [|apply Qlt_bool_true].
  destruct (Qlt_le_dec x y) as [H|H]; [auto|].
  rewrite (Qlt_bool_false _ _ H). discriminate.
Qed.

Lemma Qeq_bool_true (x y : Q) : (x == y)%Q → Qeq_bool x y = true.
Proof. apply Qeq_bool_iff. Qed.

Lemma Qeq_bool_false (x y : Q) : ¬ (x == y)%Q → Qeq_bool x y = false.
Proof.
  intros H. destruct (Qeq_bool x y) eqn:E; [|reflexivity].
  apply Qeq_bool_iff in E. contradiction.
Qed.

(** Settle every comparison of the goal that the hypotheses decide. *)
Ltac decide_cmp :=
  repeat match goal with
  | |- context [Qle_bool ?a ?b] =>
      first [ rewrite (Qle_bool_true a b) by lra
            | rewrite (Qle_bool_false a b) by lra ]
  | |- context [Qlt_bool ?a ?b] =>
      first [ rewrite (Qlt_bool_true a b) by lra
            | rewrite (Qlt_bool_false a b) by lra ]
  | |- context [Qeq_bool ?a ?b] =>
      first [ rewrite (Qeq_bool_true a b) by lra
            | rewrite (Qeq_bool_false a b) by lra ]
  end.

(** ** Which exceptions can be raised *)

Lemma raises_in_Ok {A} P (a : A) : raises_in P (Ok a).
Proof. intros e H. discriminate H. Qed.

Lemma raises_in_Raise {A} (P : exn → Prop) e : P e → raises_in P (@Raise A e).
Proof. intros H e' E. injection E as <-. exact H. Qed.

Lemma raises_in_bind {A B} P (m : result A) (f : A → result B) :
  raises_in P m → (∀ a, raises_in P (f a)) → raises_in P (m ≫= f).
Proof.
  intros Hm Hf e H. apply bind_inv in H as [H|(a & _ & H)];
    [apply (Hm e H) | apply (Hf a e H)].
Qed.

Lemma raises_in_if {A} P (b : bool) (m1 m2 : result A) :
  raises_in P m1 → raises_in P m2 → raises_in P (if b then m1 else m2).
Proof. destruct b; auto. Qed.

Lemma raises_in_for_each {A S} P (body : S → A → result S) xs s :
  (∀ s x, raises_in P (body s x)) → raises_in P (for_each body xs s).
Proof.
  intros Hb. revert s. induction xs as [|x xs IH]; intros s; cbn.
  - apply raises_in_Ok.
  - apply raises_in_bind; auto.
Qed.

Lemma raises_in_weaken {A} (P P' : exn → Prop) (m : result A) :
  (∀ e, P e → P' e) → raises_in P m → raises_in P' m.
Proof. intros HP H e E. apply HP, (H e E). Qed.

Lemma get_raises data_row label : raises_in row_error (get data_row label).
Proof.
  unfold get. destruct (data_row !! label);
    [apply raises_in_Ok | apply raises_in_Raise; exact I].
Qed.

Lemma as_num_raises v : raises_in row_error (as_num v).
Proof.
  destruct v; [apply raises_in_Ok | apply raises_in_Raise; exact I].
Qed.

Lemma getnum_raises data_row label :
  raises_in row_error (getnum data_row label).
Proof.
  apply raises_in_bind; [apply get_raises | intros; apply as_num_raises].
Qed.

Lemma index_raises {A} (l : list A) i : raises_in row_error (index l i).
Proof.
  unfold index. destruct (l !! i);
    [apply raises_in_Ok | apply raises_in_Raise; exact I].
Qed.

(** Break a goal [raises_in row_error m] down along the structure of [m]. *)
Ltac raises_step :=
  first
    [ apply raises_in_Ok
    | apply get_raises
    | apply getnum_raises
    | apply as_num_raises
    | apply index_raises
    | apply raises_in_for_each; intros
    | apply raises_in_bind; [|intros]
    | apply raises_in_if
    | match goal with
      | |- raises_in _ (match ?x with _ => _ end) => destruct x
      end ].

Ltac raises_auto := repeat raises_step.

Lemma in_bin_raises i year : raises_in row_error (in_bin i year).
Proof. unfold in_bin. raises_auto. Qed.

Lemma add_age_band_raises data_row :
  raises_in row_error (add_age_band data_row).
Proof.
  unfold add_age_band. apply raises_in_for_each. intros s i.
  unfold age_band_body.
  apply raises_in_bind; [apply getnum_raises | intros year].
  apply raises_in_bind; [apply in_bin_raises | intros hit].
  raises_auto.
Qed.

Lemma add_thermal_era_raises data_row :
  raises_in row_error (add_thermal_era data_row).
Proof. unfold add_thermal_era. raises_auto. Qed.

Lemma add_volume_raises data_row :
  raises_in row_error (add_volume data_row).
Proof. unfold add_volume. raises_auto. Qed.

(** The quotient is only taken under the guard [WallArea > 0]. *)
Lemma add_glazing_percent_raises data_row :
  raises_in row_error (add_glazing_percent data_row).
Proof.
  unfold add_glazing_percent, getnum, get.
  destruct (data_row !! "WallArea") as [[wall|s]|] eqn:Hwall; cbn;
    try (apply raises_in_Raise; exact I).
  destruct (Qlt_bool 0 wall) eqn:Hpos; cbn; [|apply raises_in_Ok].
  destruct (data_row !! "WindowArea") as [[window|s]|]; cbn;
    try (apply raises_in_Raise; exact I).
  unfold divide. apply Qlt_bool_iff in Hpos.
  rewrite Qeq_bool_false by lra. apply raises_in_Ok.
Qed.

Lemma add_desired_columns_raises data_row :
  raises_in row_error (add_desired_columns data_row).
Proof.
  unfold add_desired_columns.
  apply raises_in_bind; [apply add_age_band_raises | intros r1].
  apply raises_in_bind; [apply add_thermal_era_raises | intros r2].
  apply raises_in_bind; [apply add_glazing_percent_raises | intros r3].
  apply add_volume_raises.
Qed.

(** ** Derived columns *)

Lemma age_band_body_year (data_row : Series) i year :
  data_row !! "Year_of_Construction" = Some (VNum year) →
  age_band_body data_row i =
    (hit ← in_bin i year;
     if (hit : bool) then
       letter ← index construction_period i;
       Ok (<["AgeBand" := VStr letter]> data_row)
     else Ok data_row).
Proof.
  intros H. unfold age_band_body. rewrite (getnum_Some _ _ _ H). reflexivity.
Qed.

Lemma year_after_age_band (data_row : Series) v year :
  data_row !! "Year_of_Construction" = Some (VNum year) →
  <["AgeBand" := v]> data_row !! "Year_of_Construction" = Some (VNum year).
Proof. intros H. rewrite lookup_insert_ne; [assumption | discriminate]. Qed.

(** Split on the position of [year] among the ten boundaries; every
    comparison of the goal with a boundary is then settled. *)
Ltac split_on_boundaries year :=
  destruct (Qle_bool_cases year 1899) as [[? ?]|[? ?]];
  [|destruct (Qle_bool_cases year 1929) as [[? ?]|[? ?]];
  [|destruct (Qle_bool_cases year 1949) as [[? ?]|[? ?]];
  [|destruct (Qle_bool_cases year 1966) as [[? ?]|[? ?]];
  [|destruct (Qle_bool_cases year 1977) as [[? ?]|[? ?]];
  [|destruct (Qle_bool_cases year 1982) as [[? ?]|[? ?]];
  [|destruct (Qle_bool_cases year 1993) as [[? ?]|[? ?]];
  [|destruct (Qle_bool_cases year 1999) as [[? ?]|[? ?]];
  [|destruct (Qle_bool_cases year 2004) as [[? ?]|[? ?]];
  [|destruct (Qle_bool_cases year 2009) as [[? ?]|[? ?]]]]]]]]]]].

Lemma add_age_band_spec (data_row : Series) year :
  data_row !! "Year_of_Construction" = Some (VNum year) →
  add_age_band data_row
  = Ok (<["AgeBand" := VStr (age_band_of_year year)]> data_row).
Proof.
  intros H. unfold add_age_band, age_band_of_year.
  change (seq 0 (length bins - 1)) with [0;1;2;3;4;5;6;7;8;9;10]%nat.
  unfold for_each.
  split_on_boundaries year;
    repeat (rewrite (age_band_body_year _ _ year)
              by eauto using year_after_age_band;
            unfold in_bin, index;
            cbn [lookup list_lookup bins Nat.add construction_period];
            rewrite ?bind_Ok; unfold gt_edge, le_edge; decide_cmp;
            rewrite ?bind_Ok);
    decide_cmp; rewrite ?insert_insert_eq; reflexivity.
Qed.

(** An index whose test succeeds holds the letter of the specification. *)
Lemma in_bin_letter i year :
  in_bin i year = Ok true →
  construction_period !! i = Some (age_band_of_year year).
Proof.
  unfold in_bin, index, age_band_of_year.
  do 12 (destruct i as [|i];
    [cbn [lookup list_lookup bins Nat.add]; rewrite ?bind_Ok;
     unfold gt_edge, le_edge;
     split_on_boundaries year; decide_cmp; intros Hhit;
     first [discriminate Hhit | reflexivity] |]).
  cbn. discriminate.
Qed.

Lemma in_bin_hit year :
  ∃ i, in_bin i year = Ok true.
Proof.
  unfold in_bin, index.
  split_on_boundaries year;
    [exists 0%nat | exists 1%nat | exists 2%nat | exists 3%nat | exists 4%nat
    | exists 5%nat | exists 6%nat | exists 7%nat | exists 8%nat | exists 9%nat
    | exists 10%nat];
    cbn [lookup list_lookup bins Nat.add]; rewrite ?bind_Ok;
    unfold gt_edge, le_edge; decide_cmp; reflexivity.
Qed.

Lemma construction_period_NoDup : NoDup construction_period.
Proof. apply (bool_decide_unpack _). vm_compute. exact I. Qed.

Lemma add_age_band_Ok_inv (data_row derived : Series) :
  add_age_band data_row = Ok derived →
  ∃ year, data_row !! "Year_of_Construction" = Some (VNum year).
Proof.
  unfold add_age_band.
  change (seq 0 (length bins - 1)) with (0%nat :: seq 1 10).
  intros H. apply bind_Ok_inv in H as (r1 & H & _).
  unfold age_band_body, getnum, get in H.
  destruct (data_row !! "Year_of_Construction") as [[year|s]|];
    [eauto | discriminate H | discriminate H].
Qed.

Lemma add_thermal_era_spec (data_row : Series) year :
  data_row !! "Year_of_Construction" = Some (VNum year) →
  add_thermal_era data_row
  = Ok (<["ThermalEra" :=
            VStr (if Qle_bool year 1977 then "Pre" else "Post")]> data_row).
Proof.
  intros H. unfold add_thermal_era. rewrite (getnum_Some _ _ _ H).
  reflexivity.
Qed.

Lemma add_glazing_percent_spec (data_row : Series) wall window :
  data_row !! "WallArea" = Some (VNum wall) →
  data_row !! "WindowArea" = Some (VNum window) →
  add_glazing_percent data_row
  = Ok (<["GlazingPercent" :=
            VNum (if Qlt_bool 0 wall then window / wall else 0)%Q]> data_row).
Proof.
  intros Hwall Hwindow. unfold add_glazing_percent.
  rewrite (getnum_Some _ _ _ Hwall), bind_Ok.
  destruct (Qlt_bool 0 wall) eqn:Hpos; [|reflexivity].
  rewrite (getnum_Some _ _ _ Hwindow). cbn [mbind result_bind].
  unfold divide. apply Qlt_bool_iff in Hpos.
  rewrite Qeq_bool_false by lra. reflexivity.
Qed.

(** ** [add_desired_columns] as a whole *)

Lemma add_volume_spec (data_row : Series) area h0 h1 h2 h3 :
  data_row !! "GroundFloorArea(sq m)" = Some (VNum area) →
  data_row !! "GroundFloorHeight" = Some (VNum h0) →
  data_row !! "FirstFloorHeight" = Some (VNum h1) →
  data_row !! "SecondFloorHeight" = Some (VNum h2) →
  data_row !! "ThirdFloorHeight" = Some (VNum h3) →
  add_volume data_row
  = Ok (<["Volume" := VNum (area * (h0 + h1 + h2 + h3))%Q]> data_row).
Proof.
  intros Ha H0 H1 H2 H3. unfold add_volume.
  rewrite (getnum_Some _ _ _ Ha), (getnum_Some _ _ _ H0),
    (getnum_Some _ _ _ H1), (getnum_Some _ _ _ H2), (getnum_Some _ _ _ H3).
  reflexivity.
Qed.

Lemma add_desired_columns_spec (data_row : Series)
  year wall window area h0 h1 h2 h3 :
  data_row !! "Year_of_Construction" = Some (VNum year) →
  data_row !! "WallArea" = Some (VNum wall) →
  data_row !! "WindowArea" = Some (VNum window) →
  data_row !! "GroundFloorArea(sq m)" = Some (VNum area) →
  data_row !! "GroundFloorHeight" = Some (VNum h0) →
  data_row !! "FirstFloorHeight" = Some (VNum h1) →
  data_row !! "SecondFloorHeight" = Some (VNum h2) →
  data_row !! "ThirdFloorHeight" = Some (VNum h3) →
  add_desired_columns data_row
  = Ok (<["Volume" := VNum (area * (h0 + h1 + h2 + h3))%Q]>
          (<["GlazingPercent" :=
               VNum (if Qlt_bool 0 wall then window / wall else 0)%Q]>
             (<["ThermalEra" :=
                  VStr (if Qle_bool year 1977 then "Pre" else "Post")]>
                (<["AgeBand" := VStr (age_band_of_year year)]> data_row)))).
Proof.
  intros Hy Hwall Hwin Ha H0 H1 H2 H3. unfold add_desired_columns.
  rewrite (add_age_band_spec _ _ Hy), bind_Ok.
  rewrite (add_thermal_era_spec _ year), bind_Ok
    by (rewrite lookup_insert_ne; [exact Hy | discriminate]).
  rewrite (add_glazing_percent_spec _ wall window), bind_Ok
    by (rewrite !lookup_insert_ne; [assumption | discriminate..]).
  apply add_volume_spec;
    (rewrite !lookup_insert_ne; [assumption | discriminate..]).
Qed.

Lemma not_row_error_ZeroDivisionError {A} (m : result A) :
  raises_in row_error m → m ≠ Raise ZeroDivisionError.
Proof. intros H E. exact (H _ E). Qed.

Lemma getnum_insert_ne (data_row : Series) label label' v :
  label' ≠ label →
  getnum (<[label' := v]> data_row) label = getnum data_row label.
Proof.
  intros Hne. unfold getnum, get. rewrite lookup_insert_ne by exact Hne.
  reflexivity.
Qed.

(** What a call of [add_desired_columns] that returns has read and
    written. *)
Lemma add_desired_columns_Ok_inv (data_row derived : Series) :
  add_desired_columns data_row = Ok derived →
  ∃ year wall glazing area h0 h1 h2 h3,
    data_row !! "Year_of_Construction" = Some (VNum year)
    ∧ data_row !! "WallArea" = Some (VNum wall)
    ∧ (if Qlt_bool 0 wall
       then ∃ window, data_row !! "WindowArea" = Some (VNum window)
                      ∧ glazing = (window / wall)%Q
       else glazing = 0%Q)
    ∧ data_row !! "GroundFloorArea(sq m)" = Some (VNum area)
    ∧ data_row !! "GroundFloorHeight" = Some (VNum h0)
    ∧ data_row !! "FirstFloorHeight" = Some (VNum h1)
    ∧ data_row !! "SecondFloorHeight" = Some (VNum h2)
    ∧ data_row !! "ThirdFloorHeight" = Some (VNum h3)
    ∧ derived
      = <["Volume" := VNum (area * (h0 + h1 + h2 + h3))]>
          (<["GlazingPercent" := VNum glazing]>
             (<["ThermalEra" :=
                  VStr (if Qle_bool year 1977 then "Pre" else "Post")]>
                (<["AgeBand" := VStr (age_band_of_year year)]> data_row))).
Proof.
  unfold add_desired_columns. intros H.
  apply bind_Ok_inv in H as (r1 & H1 & H).
  apply bind_Ok_inv in H as (r2 & H2 & H).
  apply bind_Ok_inv in H as (r3 & H3 & H4).
  destruct (add_age_band_Ok_inv _ _ H1) as [year Hy].
  rewrite (add_age_band_spec _ _ Hy) in H1. injection H1 as <-.
  rewrite (add_thermal_era_spec _ year) in H2
    by (rewrite lookup_insert_ne; [exact Hy | discriminate]).
  injection H2 as <-.
  unfold add_glazing_percent in H3.
  apply bind_Ok_inv in H3 as (wall & Hwall & H3).
  apply getnum_Ok_inv in Hwall.
  rewrite !lookup_insert_ne in Hwall by discriminate.
  apply bind_Ok_inv in H3 as (glazing & Hglazing & H3). injection H3 as <-.
  unfold add_volume in H4.
  apply bind_Ok_inv in H4 as (area & Ha & H4).
  apply bind_Ok_inv in H4 as (h0 & Hh0 & H4).
  apply bind_Ok_inv in H4 as (h1 & Hh1 & H4).
  apply bind_Ok_inv in H4 as (h2 & Hh2 & H4).
  apply bind_Ok_inv in H4 as (h3 & Hh3 & H4). injection H4 as <-.
  apply getnum_Ok_inv in Ha, Hh0, Hh1, Hh2, Hh3.
  rewrite !lookup_insert_ne in Ha, Hh0, Hh1, Hh2, Hh3 by discriminate.
  exists year, wall, glazing, area, h0, h1, h2, h3.
  repeat (split; [assumption|]).
  split; [|repeat split; assumption].
  destruct (Qlt_bool 0 wall).
  - apply bind_Ok_inv in Hglazing as (window & Hwindow & Hglazing).
    apply getnum_Ok_inv in Hwindow.
    rewrite !lookup_insert_ne in Hwindow by discriminate.
    rewrite (getnum_Some _ "WallArea" wall) in Hglazing
      by (rewrite !lookup_insert_ne by discriminate; exact Hwall).
    cbn [mbind result_bind] in Hglazing. unfold divide in Hglazing.
    destruct (Qeq_bool wall 0); [discriminate Hglazing|].
    injection Hglazing as <-. eauto.
  - injection Hglazing as <-. reflexivity.
Qed.

(** The seven columns [add_desired_columns] reads besides the construction
    year are numbers: the call returns. *)
Lemma add_desired_columns_returns (data_row : Series) :
  is_num data_row "Year_of_Construction" = true →
  is_num data_row "WallArea" = true →
  (Qlt_bool 0 (num data_row "WallArea") = true →
   is_num data_row "WindowArea" = true) →
  is_num data_row "GroundFloorArea(sq m)" = true →
  is_num data_row "GroundFloorHeight" = true →
  is_num data_row "FirstFloorHeight" = true →
  is_num data_row "SecondFloorHeight" = true →
  is_num data_row "ThirdFloorHeight" = true →
  is_Ok (add_desired_columns data_row) = true.
Proof.
  intros Hy Hwall Hwindow Ha H0 H1 H2 H3.
  apply is_num_lookup in Hy, Hwall, Ha, H0, H1, H2, H3.
  unfold add_desired_columns.
  rewrite (add_age_band_spec _ _ Hy), bind_Ok.
  rewrite (add_thermal_era_spec _ (num data_row "Year_of_Construction")),
    bind_Ok by (rewrite lookup_insert_ne; [exact Hy | discriminate]).
  set (r2 := <["ThermalEra" := _]> (<["AgeBand" := _]> data_row)).
  assert (Hsame : ∀ label, label ≠ "AgeBand" → label ≠ "ThermalEra" →
                           r2 !! label = data_row !! label).
  { intros label Ha' Ht'. unfold r2.
    rewrite !lookup_insert_ne by congruence. reflexivity. }
  assert (Hglazing : ∃ glazing,
            add_glazing_percent r2
            = Ok (<["GlazingPercent" := VNum glazing]> r2)).
  { unfold add_glazing_percent.
    rewrite (getnum_Some r2 "WallArea" (num data_row "WallArea"))
      by (rewrite Hsame by discriminate; exact Hwall).
    cbn [mbind result_bind].
    destruct (Qlt_bool 0 (num data_row "WallArea")) eqn:Hpos;
      [|cbn [mbind result_bind]; eauto].
    specialize (Hwindow eq_refl). apply is_num_lookup in Hwindow.
    rewrite (getnum_Some r2 "WindowArea" (num data_row "WindowArea"))
      by (rewrite Hsame by discriminate; exact Hwindow).
    cbn [mbind result_bind]. unfold divide.
    apply Qlt_bool_iff in Hpos. rewrite Qeq_bool_false by lra.
    cbn [mbind result_bind]. eauto. }
  destruct Hglazing as [glazing ->]. rewrite bind_Ok.
  rewrite (add_volume_spec _ (num data_row "GroundFloorArea(sq m)")
             (num data_row "GroundFloorHeight")
             (num data_row "FirstFloorHeight")
             (num data_row "SecondFloorHeight")
             (num data_row "ThirdFloorHeight"))
    by (rewrite lookup_insert_ne by discriminate;
        rewrite Hsame by discriminate; assumption).
  reflexivity.
Qed.

(** C4. For every construction year [add_desired_columns] assigns exactly
    one age band: whenever it returns, the cell [AgeBand] of its result is
    the letter given by the inclusive upper boundaries 1899 -> A,
    1929 -> B, 1949 -> C, 1966 -> D, 1977 -> E, 1982 -> F, 1993 -> G,
    1999 -> H, 2004 -> I, 2009 -> J, else K, and it returns when the other
    seven columns it reads are numbers.  Exactly one index of the loop
    passes the test [bins[i] < year <= bins[i+1]], and the boundary years
    and their successors land in the documented bands. *)
Theorem age_band_exactly_one (data_row : Series) (year : Q) :
  data_row !! "Year_of_Construction" = Some (VNum year) →
  (∀ derived,
     add_desired_columns data_row = Ok derived →
     derived !! "AgeBand" = Some (VStr (age_band_of_year year)))
  ∧ (Forall (λ label, is_num data_row label = true)
       ["WallArea"; "WindowArea"; "GroundFloorArea(sq m)";
        "GroundFloorHeight"; "FirstFloorHeight"; "SecondFloorHeight";
        "ThirdFloorHeight"] →
     is_Ok (add_desired_columns data_row) = true)
  ∧ (∃ i, in_bin i year = Ok true
          ∧ construction_period !! i = Some (age_band_of_year year)
          ∧ ∀ j, in_bin j year = Ok true → j = i)
  ∧ map age_band_of_year
      [1899; 1929; 1949; 1966; 1977; 1982; 1993; 1999; 2004; 2009; 2010]%Q
    = construction_period
  ∧ map age_band_of_year
      [1900; 1930; 1950; 1967; 1978; 1983; 1994; 2000; 2005; 2010]%Q
    = tail construction_period.
Proof.
  intros H. split; [|split].
  - intros derived Hd.
    apply add_desired_columns_Ok_inv in Hd
      as (year' & wall & glazing & area & h0 & h1 & h2 & h3
          & Hy & _ & _ & _ & _ & _ & _ & _ & ->).
    rewrite H in Hy. injection Hy as <-.
    rewrite !lookup_insert_ne by discriminate. apply lookup_insert_eq.
  - intros Hnum. rewrite !Forall_cons in Hnum.
    destruct Hnum as (Hwall & Hwindow & Ha & H0 & H1 & H2 & H3 & _).
    apply add_desired_columns_returns; auto.
    unfold is_num. rewrite H. reflexivity.
  - split; [|split; reflexivity].
    destruct (in_bin_hit year) as [i Hi]. exists i.
    split; [exact Hi|]. split; [apply in_bin_letter, Hi|].
    intros j Hj.
    apply (NoDup_lookup construction_period j i (age_band_of_year year));
      auto using construction_period_NoDup, in_bin_letter.
Qed.

Lemma age_band_exactly_one_witness :
  ∃ derived,
    detached_1970 !! "Year_of_Construction" = Some (VNum 1970)
    ∧ add_desired_columns detached_1970 = Ok derived
    ∧ derived !! "AgeBand" = Some (VStr (age_band_of_year 1970))
    ∧ age_band_of_year 1970 = "E".
Proof.
  pose proof (add_desired_columns_spec detached_1970
                1970 100 20 120 2.5 2.5 0 0
                eq_refl eq_refl eq_refl eq_refl
                eq_refl eq_refl eq_refl eq_refl) as Hspec.
  eexists. split; [reflexivity|]. split; [exact Hspec|].
  split; [|reflexivity].
  exact (proj1 (age_band_exactly_one detached_1970 1970 eq_refl) _ Hspec).
Defined.

(** C8. [GlazingPercent] is a total function of the record: whenever
    [add_desired_columns] returns, the cell it has written is the window
    area over the wall area when the wall area is strictly positive, and 0
    when the wall area is 0 or negative, in which case the window area is
    not read at all; it returns when the columns it reads are numbers; and
    whatever the row holds, it does not raise a division by zero. *)
Theorem glazing_percent_total (data_row : Series) (wall : Q) :
  data_row !! "WallArea" = Some (VNum wall) →
  (∀ window derived,
     (0 < wall)%Q →
     data_row !! "WindowArea" = Some (VNum window) →
     add_desired_columns data_row = Ok derived →
     derived !! "GlazingPercent" = Some (VNum (window / wall)))
  ∧ (∀ derived,
       (wall <= 0)%Q →
       add_desired_columns data_row = Ok derived →
       derived !! "GlazingPercent" = Some (VNum 0))
  ∧ (Forall (λ label, is_num data_row label = true)
       ["Year_of_Construction"; "GroundFloorArea(sq m)";
        "GroundFloorHeight"; "FirstFloorHeight"; "SecondFloorHeight";
        "ThirdFloorHeight"] →
     ((0 < wall)%Q → is_num data_row "WindowArea" = true) →
     is_Ok (add_desired_columns data_row) = true)
  ∧ (∀ any_row : Series,
       add_desired_columns any_row ≠ Raise ZeroDivisionError).
Proof.
  intros Hwall. split; [|split; [|split]].
  - intros window derived Hpos Hwindow Hd.
    apply add_desired_columns_Ok_inv in Hd
      as (year & wall' & glazing & area & h0 & h1 & h2 & h3
          & _ & Hwall' & Hg & _ & _ & _ & _ & _ & ->).
    rewrite Hwall in Hwall'. injection Hwall' as <-.
    rewrite Qlt_bool_true in Hg by exact Hpos.
    destruct Hg as (window' & Hwindow' & ->).
    rewrite Hwindow in Hwindow'. injection Hwindow' as <-.
    rewrite lookup_insert_ne by discriminate. apply lookup_insert_eq.
  - intros derived Hneg Hd.
    apply add_desired_columns_Ok_inv in Hd
      as (year & wall' & glazing & area & h0 & h1 & h2 & h3
          & _ & Hwall' & Hg & _ & _ & _ & _ & _ & ->).
    rewrite Hwall in Hwall'. injection Hwall' as <-.
    rewrite Qlt_bool_false in Hg by exact Hneg. subst glazing.
    rewrite lookup_insert_ne by discriminate. apply lookup_insert_eq.
  - intros Hnum Hwindow. rewrite !Forall_cons in Hnum.
    destruct Hnum as (Hy & Ha & H0 & H1 & H2 & H3 & _).
    apply add_desired_columns_returns; auto.
    + unfold is_num. rewrite Hwall. reflexivity.
    + intros Hpos. apply Hwindow.
      rewrite (num_lookup _ _ _ Hwall) in Hpos.
      apply Qlt_bool_iff, Hpos.
  - intros any_row. apply not_row_error_ZeroDivisionError.
    apply add_desired_columns_raises.
Qed.

Lemma glazing_percent_total_witness :
  (∃ derived,
     add_desired_columns detached_1970 = Ok derived
     ∧ derived !! "GlazingPercent" = Some (VNum (20 / 100)))
  ∧ (∃ derived,
       add_desired_columns
         (delete "WindowArea" (<["WallArea" := VNum 0]> detached_1970))
       = Ok derived
       ∧ derived !! "GlazingPercent" = Some (VNum 0)).
Proof.
  split.
  - pose proof (add_desired_columns_spec detached_1970
                  1970 100 20 120 2.5 2.5 0 0
                  eq_refl eq_refl eq_refl eq_refl
                  eq_refl eq_refl eq_refl eq_refl) as Hspec.
    eexists. split; [exact Hspec|].
    exact (proj1 (glazing_percent_total detached_1970 100 eq_refl)
             20%Q _ eq_refl eq_refl Hspec).
  - set (no_window := delete "WindowArea"
                        (<["WallArea" := VNum 0]> detached_1970)).
    destruct (glazing_percent_total no_window 0 eq_refl)
      as (_ & Hzero & Hreturns & _).
    assert (Hok : is_Ok (add_desired_columns no_window) = true).
    { apply Hreturns; [|intros Hpos; discriminate Hpos].
      repeat constructor. }
    destruct (add_desired_columns no_window) as [derived|e] eqn:Hd;
      [|discriminate Hok].
    exists derived. split; [reflexivity|].
    apply Hzero; [discriminate | reflexivity].
Defined.

(** ** Storey count *)

(** C7. Below 4, [NoStoreys] becomes 1 plus the number of upper-floor
    heights that are strictly positive; from 4 on, the row is returned as
    it is. *)
Theorem no_storeys_corrected (data_row : Series) (storeys h1 h2 h3 : Q) :
  data_row !! "NoStoreys" = Some (VNum storeys) →
  data_row !! "FirstFloorHeight" = Some (VNum h1) →
  data_row !! "SecondFloorHeight" = Some (VNum h2) →
  data_row !! "ThirdFloorHeight" = Some (VNum h3) →
  ((storeys < 4)%Q →
   correct_column_data data_row
   = Ok (<["NoStoreys" :=
             VNum (inject_Z (1 + count_positive [h1; h2; h3]))]> data_row))
  ∧ ((4 <= storeys)%Q → correct_column_data data_row = Ok data_row).
Proof.
  intros Hs H1 H2 H3. unfold correct_column_data.
  rewrite (getnum_Some _ _ _ Hs), bind_Ok. split; intros Hcmp.
  - rewrite Qlt_bool_true by exact Hcmp.
    unfold upper_floor_heights, ones_where.
    rewrite (getnum_Some _ _ _ H1), (getnum_Some _ _ _ H2),
      (getnum_Some _ _ _ H3). cbn [mbind result_bind].
    unfold count_positive. rewrite !filter_cons, filter_nil.
    destruct (Qlt_bool 0 h1), (Qlt_bool 0 h2), (Qlt_bool 0 h3);
      reflexivity.
  - rewrite Qlt_bool_false by exact Hcmp. reflexivity.
Qed.

Lemma no_storeys_corrected_witness :
  correct_column_data detached_1970
  = Ok (<["NoStoreys" := VNum (inject_Z (1 + count_positive [2.5; 0; 0]%Q))]>
          detached_1970)
  ∧ count_positive [2.5; 0; 0]%Q = 1%Z
  ∧ correct_column_data (<["NoStoreys" := VNum 5]> detached_1970)
    = Ok (<["NoStoreys" := VNum 5]> detached_1970).
Proof.
  split; [|split; [reflexivity|]].
  - apply (proj1 (no_storeys_corrected detached_1970 3 2.5 0 0
                    eq_refl eq_refl eq_refl eq_refl)).
    reflexivity.
  - refine (proj2 (no_storeys_corrected
                     (<["NoStoreys" := VNum 5]> detached_1970) 5 2.5 0 0
                     _ _ _ _) _);
      [reflexivity | reflexivity | reflexivity | reflexivity | discriminate].
Defined.


(** ** The validation rules *)

Lemma flag_unless_orb ok exclude_row :
  flag_unless ok exclude_row = exclude_row || negb ok.
Proof. destruct ok, exclude_row; reflexivity. Qed.

Lemma apply_check_spec (data_row : Series) exclude_row c :
  is_num data_row (checked_column c) = true →
  apply_check data_row exclude_row c
  = Ok (exclude_row || out_of_range data_row c).
Proof.
  intros H. unfold apply_check, out_of_range.
  rewrite (getnum_num _ _ H), bind_Ok, flag_unless_orb. reflexivity.
Qed.

Lemma apply_checks_spec (data_row : Series) checks exclude_row :
  forallb (λ c, is_num data_row (checked_column c)) checks = true →
  for_each (apply_check data_row) checks exclude_row
  = Ok (exclude_row || existsb (out_of_range data_row) checks).
Proof.
  revert exclude_row. induction checks as [|c checks IH]; intros e H.
  - cbn. rewrite orb_false_r. reflexivity.
  - cbn [forallb] in H. apply andb_true_iff in H as [Hc Hrest].
    cbn [for_each existsb].
    rewrite (apply_check_spec _ _ _ Hc), bind_Ok, (IH _ Hrest), orb_assoc.
    reflexivity.
Qed.

Lemma apply_check_raises data_row exclude_row c :
  raises_in row_error (apply_check data_row exclude_row c).
Proof. unfold apply_check. raises_auto. Qed.

Lemma schema_is_num (data_row : Series) label :
  validation_schema data_row = true →
  label ∈ validation_columns →
  is_num data_row label = true.
Proof.
  unfold validation_schema. rewrite !andb_true_iff. intros [[H _] _] Hin.
  rewrite forallb_forall in H. apply H, list_elem_of_In, Hin.
Qed.

(** Every range check of the function is on a column of the schema. *)
Lemma dwelling_cases_columns :
  Forall (λ case,
            Forall (λ c, checked_column c ∈ validation_columns) case.2)
    dwelling_cases.
Proof. apply (bool_decide_unpack _). vm_compute. exact I. Qed.

Lemma era_checks_columns :
  Forall (λ c, checked_column c ∈ validation_columns)
    (pre_checks ++ post_checks).
Proof. apply (bool_decide_unpack _). vm_compute. exact I. Qed.

Lemma schema_checks (data_row : Series) checks :
  validation_schema data_row = true →
  Forall (λ c, checked_column c ∈ validation_columns) checks →
  forallb (λ c, is_num data_row (checked_column c)) checks = true.
Proof.
  intros Hs Hall. apply forallb_forall. intros c Hc.
  rewrite Forall_forall in Hall.
  apply schema_is_num; [exact Hs | apply Hall, list_elem_of_In, Hc].
Qed.

Lemma contains_lookup (data_row : Series) label :
  contains data_row label = true → ∃ v, data_row !! label = Some v.
Proof.
  unfold contains. destruct (data_row !! label) as [v|]; [eauto|discriminate].
Qed.

Lemma clauses_6_16_spec (data_row : Series) exclude_row :
  validation_schema data_row = true →
  clauses_6_16 data_row exclude_row
  = Ok (exclude_row || category_flag data_row).
Proof.
  intros Hs. pose proof Hs as Hs'. unfold validation_schema in Hs'.
  rewrite !andb_true_iff in Hs'. destruct Hs' as [[_ Hd] _].
  apply contains_lookup in Hd as [descr Hd].
  unfold clauses_6_16, category_flag. rewrite (get_Some _ _ _ Hd), Hd, bind_Ok.
  destruct (find _ dwelling_cases) as [[name checks]|] eqn:Hfind.
  - apply find_some in Hfind as [Hin _].
    apply apply_checks_spec, schema_checks; [exact Hs|].
    pose proof dwelling_cases_columns as Hcols.
    rewrite Forall_forall in Hcols.
    apply (Hcols (name, checks)), list_elem_of_In, Hin.
  - rewrite orb_false_r. reflexivity.
Qed.

Lemma clauses_17_18_spec (data_row : Series) exclude_row :
  validation_schema data_row = true →
  clauses_17_18 data_row exclude_row = Ok (exclude_row || era_flag data_row).
Proof.
  intros Hs. pose proof Hs as Hs'. unfold validation_schema in Hs'.
  rewrite !andb_true_iff in Hs'. destruct Hs' as [_ He].
  apply contains_lookup in He as [era He].
  pose proof era_checks_columns as Hcols. apply Forall_app in Hcols as [Hpre Hpost].
  unfold clauses_17_18, era_flag. rewrite (get_Some _ _ _ He), He, bind_Ok.
  destruct (eq_str era "Pre").
  - apply apply_checks_spec, schema_checks; assumption.
  - rewrite bind_Ok. destruct (eq_str era "Post").
    + apply apply_checks_spec, schema_checks; assumption.
    + rewrite orb_false_r. reflexivity.
Qed.

(** On a row with the columns it reads, [filter_by_criteria] returns, and
    what it returns is the disjunction of the three rule groups. *)
Lemma filter_by_criteria_spec (now_year : Z) (data_row : Series) :
  validation_schema data_row = true →
  filter_by_criteria now_year data_row = Ok (excluded now_year data_row).
Proof.
  intros Hs. unfold filter_by_criteria, clause_1, clause_2, clause_4, clause_5.
  rewrite (getnum_num _ "Year_of_Construction")
    by (apply schema_is_num; [exact Hs | set_solver]).
  cbn [mbind result_bind].
  rewrite apply_check_spec
    by (apply schema_is_num; [exact Hs | set_solver]).
  cbn [mbind result_bind].
  rewrite (getnum_num _ "HSMainSystemEfficiency")
    by (apply schema_is_num; [exact Hs | set_solver]).
  cbn [mbind result_bind].
  rewrite (getnum_num _ "WHMainSystemEff")
    by (apply schema_is_num; [exact Hs | set_solver]).
  cbn [mbind result_bind].
  rewrite (clauses_6_16_spec _ _ Hs). cbn [mbind result_bind].
  rewrite (clauses_17_18_spec _ _ Hs). cbn [mbind result_bind].
  unfold excluded, global_flag, clause_3. rewrite !flag_unless_orb.
  f_equal.
  destruct (Qlt_bool _ _), (out_of_range _ _), (existsb _ _),
    (zero_or_two_ranges _ _ _ _ (num data_row "HSMainSystemEfficiency")),
    (zero_or_two_ranges _ _ _ _ (num data_row "WHMainSystemEff")),
    (category_flag _), (era_flag _); reflexivity.
Qed.


(** Close a decidable goal without variables by evaluation. *)
Ltac by_evaluation := apply (bool_decide_unpack _); vm_compute; exact I.

Lemma is_num_insert_ne (data_row : Series) label label' v :
  label' ≠ label →
  is_num (<[label' := v]> data_row) label = is_num data_row label.
Proof. intros Hne. unfold is_num. rewrite lookup_insert_ne by exact Hne. reflexivity. Qed.

Lemma num_insert_ne (data_row : Series) label label' v :
  label' ≠ label →
  num (<[label' := v]> data_row) label = num data_row label.
Proof. intros Hne. unfold num. rewrite lookup_insert_ne by exact Hne. reflexivity. Qed.

Lemma contains_insert (data_row : Series) label label' v :
  contains data_row label = true →
  contains (<[label' := v]> data_row) label = true.
Proof.
  unfold contains. intros H.
  destruct (decide (label' = label)) as [->|Hne];
    [rewrite lookup_insert_eq; reflexivity|].
  rewrite lookup_insert_ne by exact Hne. exact H.
Qed.

Lemma is_num_insert_num (data_row : Series) label label' q :
  is_num data_row label = true →
  is_num (<[label' := VNum q]> data_row) label = true.
Proof.
  unfold is_num. intros H.
  destruct (decide (label' = label)) as [->|Hne];
    [rewrite lookup_insert_eq; reflexivity|].
  rewrite lookup_insert_ne by exact Hne. exact H.
Qed.

Lemma contains_insert_ne (data_row : Series) label label' v :
  label' ≠ label →
  contains (<[label' := v]> data_row) label = contains data_row label.
Proof.
  intros Hne. unfold contains. rewrite lookup_insert_ne by exact Hne.
  reflexivity.
Qed.

Lemma validation_schema_insert_num (data_row : Series) label q :
  validation_schema data_row = true →
  validation_schema (<[label := VNum q]> data_row) = true.
Proof.
  unfold validation_schema. rewrite !andb_true_iff, !forallb_forall.
  intros [[Hnum Hd] He].
  split; [split|]; [|apply contains_insert, Hd | apply contains_insert, He].
  intros column Hin. apply is_num_insert_num, Hnum, Hin.
Qed.

(** The rows of the examples that are said to be cleaned are what
    [cleaning_methodology] returns. *)
Lemma cleaned_by_cells (data_row cleaned : Series) :
  match cleaning_methodology data_row with
  | Ok row => map_to_list row
  | Raise _ => []
  end = map_to_list cleaned →
  cleaned ≠ ∅ →
  cleaning_methodology data_row = Ok cleaned.
Proof.
  intros Hcells Hne.
  destruct (cleaning_methodology data_row) as [row|e].
  - f_equal. apply map_to_list_inj. rewrite Hcells. reflexivity.
  - symmetry in Hcells. apply map_to_list_empty_iff in Hcells. contradiction.
Qed.

Lemma final_column_cleaned_spec :
  cleaning_methodology detached_1970_final_column = Ok final_column_cleaned.
Proof.
  apply cleaned_by_cells; [vm_compute; reflexivity|].
  intros Hempty.
  assert (H : final_column_cleaned !! "AgeBand" = None)
    by (rewrite Hempty; apply lookup_empty).
  discriminate H.
Qed.

Lemma basement_cleaned_spec :
  cleaning_methodology basement_final_column = Ok basement_cleaned.
Proof.
  apply cleaned_by_cells; [vm_compute; reflexivity|].
  intros Hempty.
  assert (H : basement_cleaned !! "AgeBand" = None)
    by (rewrite Hempty; apply lookup_empty).
  discriminate H.
Qed.

Lemma in_range_Closed lo col hi x :
  in_range (Closed lo col hi) x = true ↔ (lo <= x ∧ x <= hi)%Q.
Proof.
  cbn [in_range]. rewrite andb_true_iff, !Qle_bool_iff. reflexivity.
Qed.

Lemma in_range_ClosedOrZero lo col hi x :
  in_range (ClosedOrZero lo col hi) x = true
  ↔ (x == 0 ∨ (lo <= x ∧ x <= hi))%Q.
Proof.
  cbn [in_range].
  rewrite orb_true_iff, andb_true_iff, !Qle_bool_iff, Qeq_bool_iff. tauto.
Qed.

(** C5. For a row of the era [Pre] that has the columns the function
    reads: a wall U-value outside [0.20, 2.90], and 0 in particular, makes
    [filter_by_criteria] return [True] whatever the other cells hold; and
    [filter_by_criteria] returns [False] exactly when no global and no
    dwelling-type rule is violated, door, window, roof and floor U-values
    are each 0 or inside their range, and the wall U-value is inside
    [0.20, 2.90]. *)
Theorem pre_era_wall_no_zero_exemption (now_year : Z) (data_row : Series)
  (door window roof floor wall : Q) :
  validation_schema data_row = true →
  data_row !! "ThermalEra" = Some (VStr "Pre") →
  data_row !! "UvalueDoor" = Some (VNum door) →
  data_row !! "UValueWindow" = Some (VNum window) →
  data_row !! "UValueRoof" = Some (VNum roof) →
  data_row !! "UValueFloor" = Some (VNum floor) →
  data_row !! "UValueWall" = Some (VNum wall) →
  (¬ (0.20 <= wall ∧ wall <= 2.90)%Q →
   filter_by_criteria now_year data_row = Ok true)
  ∧ ((wall == 0)%Q → filter_by_criteria now_year data_row = Ok true)
  ∧ (filter_by_criteria now_year data_row = Ok false
     ↔ global_flag now_year data_row = false
       ∧ category_flag data_row = false
       ∧ ((door == 0 ∨ (1.10 <= door ∧ door <= 3.90))
          ∧ (window == 0 ∨ (1.18 <= window ∧ window <= 5.70))
          ∧ (roof == 0 ∨ (0.13 <= roof ∧ roof <= 1.99))
          ∧ (floor == 0 ∨ (0.16 <= floor ∧ floor <= 1.14))
          ∧ (0.20 <= wall ∧ wall <= 2.90))%Q).
Proof.
  intros Hs Hera Hdoor Hwindow Hroof Hfloor Hwall.
  assert (Hflag : era_flag data_row
                  = negb (in_range (ClosedOrZero 1.10 "UvalueDoor" 3.90) door)
                    || negb (in_range (ClosedOrZero 1.18 "UValueWindow" 5.70)
                               window)
                    || negb (in_range (ClosedOrZero 0.13 "UValueRoof" 1.99)
                               roof)
                    || negb (in_range (ClosedOrZero 0.16 "UValueFloor" 1.14)
                               floor)
                    || negb (in_range (Closed 0.20 "UValueWall" 2.90) wall)).
  { unfold era_flag. rewrite Hera. cbn [eq_str String.eqb Ascii.eqb Bool.eqb].
    unfold pre_checks, existsb, out_of_range. cbn [checked_column].
    rewrite (num_lookup _ _ _ Hdoor), (num_lookup _ _ _ Hwindow),
      (num_lookup _ _ _ Hroof), (num_lookup _ _ _ Hfloor),
      (num_lookup _ _ _ Hwall), orb_false_r, !orb_assoc.
    reflexivity. }
  assert (Hout : ¬ (0.20 <= wall ∧ wall <= 2.90)%Q →
                 filter_by_criteria now_year data_row = Ok true).
  { intros Hwrong. rewrite (filter_by_criteria_spec _ _ Hs).
    unfold excluded. rewrite Hflag.
    destruct (in_range (Closed 0.20 "UValueWall" 2.90) wall) eqn:Hin.
    - apply in_range_Closed in Hin. contradiction.
    - cbn [negb]. rewrite !orb_true_r. reflexivity. }
  split; [exact Hout|]. split.
  - intros Hzero. apply Hout. intros [Hlo _]. rewrite Hzero in Hlo. lra.
  - rewrite (filter_by_criteria_spec _ _ Hs). unfold excluded.
    rewrite Hflag.
    rewrite <- (in_range_Closed 0.20 "UValueWall" 2.90 wall),
      <- (in_range_ClosedOrZero 1.10 "UvalueDoor" 3.90 door),
      <- (in_range_ClosedOrZero 1.18 "UValueWindow" 5.70 window),
      <- (in_range_ClosedOrZero 0.13 "UValueRoof" 1.99 roof),
      <- (in_range_ClosedOrZero 0.16 "UValueFloor" 1.14 floor).
    destruct (global_flag now_year data_row), (category_flag data_row),
      (in_range (ClosedOrZero 1.10 "UvalueDoor" 3.90) door),
      (in_range (ClosedOrZero 1.18 "UValueWindow" 5.70) window),
      (in_range (ClosedOrZero 0.13 "UValueRoof" 1.99) roof),
      (in_range (ClosedOrZero 0.16 "UValueFloor" 1.14) floor),
      (in_range (Closed 0.20 "UValueWall" 2.90) wall); cbn;
      split; first [reflexivity | discriminate | tauto | intuition discriminate].
Qed.

Lemma pre_era_wall_no_zero_exemption_witness :
  cleaning_methodology detached_1970_final_column = Ok final_column_cleaned
  ∧ contains final_column_cleaned "Final" = true
  ∧ filter_by_criteria 2024 final_column_cleaned = Ok false
  ∧ filter_by_criteria 2024 (<["UValueWall" := VNum 0]> final_column_cleaned)
    = Ok true
  ∧ filter_by_criteria 2024 (<["UvalueDoor" := VNum 0]> final_column_cleaned)
    = Ok false.
Proof.
  split; [exact final_column_cleaned_spec|]. split; [reflexivity|].
  split; [vm_compute; reflexivity|]. split.
  - apply (pre_era_wall_no_zero_exemption 2024
             (<["UValueWall" := VNum 0]> final_column_cleaned)
             3.0 2.8 0.4 0.5 0); reflexivity.
  - apply (pre_era_wall_no_zero_exemption 2024
             (<["UvalueDoor" := VNum 0]> final_column_cleaned)
             0 2.8 0.4 0.5 2.10); try reflexivity.
    split; [vm_compute; reflexivity|]. split; [vm_compute; reflexivity|].
    split; [left; reflexivity|].
    repeat split; first [right; split; discriminate | discriminate].
Defined.

(** C3. A row whose dwelling type is the text [Basement Dwelling] meets no
    case of the function, because the pattern of the eleventh case is
    [Basement Dwellinge]: what [filter_by_criteria] returns for it is
    decided by the global rules and the era rules alone, and its seven
    area columns can hold any numbers without changing the result. *)
Theorem basement_dwelling_not_checked (now_year : Z) (data_row : Series) :
  validation_schema data_row = true →
  data_row !! "DwellingTypeDescr" = Some (VStr "Basement Dwelling") →
  filter_by_criteria now_year data_row
  = Ok (global_flag now_year data_row || era_flag data_row)
  ∧ (∀ column x,
       column ∈ dwelling_columns →
       filter_by_criteria now_year (<[column := VNum x]> data_row)
       = filter_by_criteria now_year data_row)
  ∧ (dwelling_cases.*1) !! 10%nat = Some "Basement Dwellinge"
  ∧ "Basement Dwelling" ∉ dwelling_cases.*1.
Proof.
  intros Hs Hd.
  assert (Hrow : ∀ row : Series,
            validation_schema row = true →
            row !! "DwellingTypeDescr" = Some (VStr "Basement Dwelling") →
            filter_by_criteria now_year row
            = Ok (global_flag now_year row || era_flag row)).
  { intros row Hs' Hd'. rewrite (filter_by_criteria_spec _ _ Hs').
    unfold excluded, category_flag. rewrite Hd'. cbn [find eq_str].
    rewrite orb_false_r. reflexivity. }
  split; [apply Hrow; assumption|].
  split; [|split; [reflexivity | by_evaluation]].
  intros column x Hin.
  rewrite (Hrow data_row Hs Hd).
  rewrite (Hrow (<[column := VNum x]> data_row)).
  - unfold dwelling_columns in Hin. rewrite !elem_of_cons in Hin.
    f_equal. unfold global_flag, era_flag, out_of_range, allowed_substrings.
    cbn [checked_column existsb].
    destruct Hin as [->|[->|[->|[->|[->|[->|[->|Hin]]]]]]];
      [..|apply elem_of_nil in Hin; contradiction];
      rewrite !contains_insert_ne by discriminate;
      rewrite !num_insert_ne by discriminate;
      rewrite lookup_insert_ne by discriminate;
      (destruct (data_row !! "ThermalEra") as [era|]; [|reflexivity]);
      unfold pre_checks, post_checks, existsb, out_of_range;
      cbn [checked_column];
      rewrite !num_insert_ne by discriminate; reflexivity.
  - apply validation_schema_insert_num, Hs.
  - unfold dwelling_columns in Hin. rewrite !elem_of_cons in Hin.
    destruct Hin as [->|[->|[->|[->|[->|[->|[->|Hin]]]]]]];
      [..|apply elem_of_nil in Hin; contradiction];
      rewrite lookup_insert_ne by discriminate; exact Hd.
Qed.

Lemma basement_dwelling_not_checked_witness :
  cleaning_methodology basement_final_column = Ok basement_cleaned
  ∧ contains basement_cleaned "Final" = true
  ∧ out_of_range basement_cleaned (Closed 0.94 "WallArea" 148.01) = true
  ∧ filter_by_criteria 2024 basement_cleaned = Ok false
  ∧ filter_by_criteria 2024
      (<["DwellingTypeDescr" := VStr "Basement Dwellinge"]> basement_cleaned)
    = Ok true.
Proof.
  split; [exact basement_cleaned_spec|].
  split; [reflexivity|]. split; [reflexivity|].
  split; [|vm_compute; reflexivity].
  destruct (basement_dwelling_not_checked 2024 basement_cleaned)
    as [Hflag _]; [reflexivity | reflexivity |].
  rewrite Hflag. vm_compute. reflexivity.
Defined.

(** A dwelling type that is none of the patterns passes clauses 6 - 16;
    a listed one is flagged exactly when one of its seven checks fails. *)
Lemma unlisted_dwelling_type_passes (data_row : Series) descr exclude_row :
  data_row !! "DwellingTypeDescr" = Some descr →
  find (λ case, eq_str descr case.1) dwelling_cases = None →
  clauses_6_16 data_row exclude_row = Ok exclude_row.
Proof.
  intros Hd Hfind. unfold clauses_6_16.
  rewrite (get_Some _ _ _ Hd), bind_Ok, Hfind. reflexivity.
Qed.

Lemma listed_dwelling_type_checked (data_row : Series) descr name checks :
  validation_schema data_row = true →
  data_row !! "DwellingTypeDescr" = Some descr →
  find (λ case, eq_str descr case.1) dwelling_cases = Some (name, checks) →
  length checks = 7%nat
  ∧ clauses_6_16 data_row false
    = Ok (existsb (out_of_range data_row) checks).
Proof.
  intros Hs Hd Hfind. split.
  - apply find_some in Hfind as [Hin _].
    assert (Hall : Forall (λ case, length case.2 = 7%nat) dwelling_cases)
      by (apply (bool_decide_unpack _); vm_compute; exact I).
    rewrite Forall_forall in Hall.
    apply (Hall (name, checks)), list_elem_of_In, Hin.
  - rewrite (clauses_6_16_spec _ _ Hs). unfold category_flag.
    rewrite Hd, Hfind. reflexivity.
Qed.

(** C2. Clause 3 tests whether the row has a column labelled [Final],
    [Existing] or [Provisional]; a row without such a column is flagged
    whatever text its rating-type cell holds, one of the three allowed
    words included. *)
Theorem clause_3_ignores_rating_value (data_row : Series)
  (rating_column rating : string) (exclude_row : bool) :
  rating_column ∉ allowed_substrings →
  data_row !! "Final" = None →
  data_row !! "Existing" = None →
  data_row !! "Provisional" = None →
  clause_3 (<[rating_column := VStr rating]> data_row) exclude_row = true.
Proof.
  intros Hcol H1 H2 H3. unfold clause_3, allowed_substrings, existsb, contains.
  unfold allowed_substrings in Hcol.
  rewrite !lookup_insert_ne by set_solver.
  rewrite H1, H2, H3. reflexivity.
Qed.

Lemma clause_3_ignores_rating_value_witness :
  detached_1970 !! "TypeofRating" = Some (VStr "Final")
  ∧ clause_3 detached_1970 false = true.
Proof.
  split; [reflexivity|].
  change detached_1970
    with (<["TypeofRating" := VStr "Final"]> detached_1970).
  apply clause_3_ignores_rating_value;
    [apply (bool_decide_unpack _); vm_compute; exact I | reflexivity..].
Defined.

(** Clause 3 leaves the flag down exactly when one of the three words is a
    column label of the row. *)
Lemma clause_3_passes_iff (data_row : Series) :
  clause_3 data_row false = false
  ↔ ∃ label, label ∈ allowed_substrings ∧ is_Some (data_row !! label).
Proof.
  unfold clause_3. rewrite flag_unless_orb. cbn [orb].
  rewrite negb_false_iff, existsb_exists. split.
  - intros (label & Hin & Hc). exists label.
    split; [apply list_elem_of_In, Hin|].
    unfold contains in Hc. destruct (data_row !! label); [eauto | discriminate].
  - intros (label & Hin & [v Hv]). exists label.
    split; [apply list_elem_of_In, Hin|]. unfold contains. rewrite Hv.
    reflexivity.
Qed.

(** ** Default correction *)

Lemma eq_str_true v s : eq_str v s = true → v = VStr s.
Proof.
  destruct v as [q|x]; cbn; [discriminate|].
  intros H. apply String.eqb_eq in H. congruence.
Qed.

Lemma corrected_lookup_ne label correction (data_row : Series) label' :
  label ≠ label' →
  corrected label correction data_row !! label' = data_row !! label'.
Proof.
  intros Hne. destruct correction as [new|]; cbn; [|reflexivity].
  apply lookup_insert_ne, Hne.
Qed.

(** The statements of one case, run in order, amount to one lookup for the
    wall and one for the roof. *)
Lemma apply_rules_spec rules : ∀ (data_row : Series) descr wall roof,
  no_cascade rules = true →
  data_row !! "FirstWallType_Description" = Some descr →
  data_row !! "UValueWall" = Some wall →
  data_row !! "UValueRoof" = Some roof →
  for_each apply_rule rules data_row
  = Ok (corrected "UValueRoof" (roof_lookup rules roof)
          (corrected "UValueWall" (wall_lookup rules descr wall) data_row)).
Proof.
  induction rules as [|[old d new|old new] rules IH];
    intros data_row descr wall roof Hnc Hdescr Hwall Hroof.
  - reflexivity.
  - cbn [for_each apply_rule wall_lookup roof_lookup no_cascade] in *.
    rewrite (get_Some _ _ _ Hwall), bind_Ok.
    destruct (wall_lookup rules (VStr d) (VNum new)) eqn:Hlater;
      [discriminate Hnc|].
    destruct (eq_num wall old); cbn [andb].
    + rewrite (get_Some _ _ _ Hdescr), bind_Ok.
      destruct (eq_str descr d) eqn:Hd.
      * rewrite bind_Ok.
        rewrite (IH _ descr (VNum new) roof Hnc).
        -- apply eq_str_true in Hd. subst descr. rewrite Hlater. reflexivity.
        -- rewrite lookup_insert_ne; [exact Hdescr | discriminate].
        -- apply lookup_insert_eq.
        -- rewrite lookup_insert_ne; [exact Hroof | discriminate].
      * rewrite bind_Ok. apply IH; assumption.
    + rewrite bind_Ok. apply IH; assumption.
  - cbn [for_each apply_rule wall_lookup roof_lookup no_cascade] in *.
    rewrite (get_Some _ _ _ Hroof), bind_Ok.
    destruct (roof_lookup rules (VNum new)) eqn:Hlater; [discriminate Hnc|].
    destruct (eq_num roof old).
    + rewrite bind_Ok. rewrite (IH _ descr wall (VNum new) Hnc).
      * rewrite Hlater. cbn [corrected].
        destruct (wall_lookup rules descr wall) as [w|]; cbn [corrected];
          [|reflexivity].
        rewrite insert_insert_ne by discriminate. reflexivity.
      * rewrite lookup_insert_ne; [exact Hdescr | discriminate].
      * rewrite lookup_insert_ne; [exact Hwall | discriminate].
      * apply lookup_insert_eq.
    + rewrite bind_Ok. apply IH; assumption.
Qed.

Lemma age_band_cases_no_cascade :
  Forall (λ case, no_cascade case.2 = true) age_band_cases.
Proof. apply (bool_decide_unpack _). vm_compute. exact I. Qed.

Lemma rules_of_band_no_cascade band : no_cascade (rules_of_band band) = true.
Proof.
  unfold rules_of_band.
  destruct (find _ age_band_cases) as [[name rules]|] eqn:Hfind;
    [|reflexivity].
  apply find_some in Hfind as [Hin _].
  pose proof age_band_cases_no_cascade as H. rewrite Forall_forall in H.
  apply (H (name, rules)), list_elem_of_In, Hin.
Qed.

Lemma find_and_replace_rules (data_row : Series) band :
  data_row !! "AgeBand" = Some band →
  find_and_replace data_row = for_each apply_rule (rules_of_band band) data_row.
Proof.
  intros H. unfold find_and_replace, rules_of_band.
  rewrite (get_Some _ _ _ H), bind_Ok.
  destruct (find _ age_band_cases) as [[name rules]|]; reflexivity.
Qed.

Lemma wall_lookup_exact rules descr wall new :
  wall_lookup rules descr wall = Some new →
  ∃ old d q, In (WallRule old d new) rules
             ∧ descr = VStr d ∧ wall = VNum q ∧ (q == old)%Q.
Proof.
  induction rules as [|[old d new'|old new'] rules IH]; cbn [wall_lookup].
  - discriminate.
  - destruct (eq_num wall old && eq_str descr d) eqn:Hhit.
    + intros [= <-]. apply andb_true_iff in Hhit as [Hw Hd].
      apply eq_str_true in Hd. destruct wall as [q|s]; [|discriminate Hw].
      cbn in Hw. apply Qeq_bool_iff in Hw.
      exists old, d, q. cbn. auto.
    + intros H. destruct (IH H) as (o & d' & q & Hin & ?). 
      exists o, d', q. cbn. auto.
  - intros H. destruct (IH H) as (o & d' & q & Hin & ?).
    exists o, d', q. cbn. auto.
Qed.

Lemma roof_lookup_exact rules roof new :
  roof_lookup rules roof = Some new →
  ∃ old q, In (RoofRule old new) rules ∧ roof = VNum q ∧ (q == old)%Q.
Proof.
  induction rules as [|[old d new'|old new'] rules IH]; cbn [roof_lookup].
  - discriminate.
  - intros H. destruct (IH H) as (o & q & Hin & ?). exists o, q. cbn. auto.
  - destruct (eq_num roof old) eqn:Hhit.
    + intros [= <-]. destruct roof as [q|s]; [|discriminate Hhit].
      cbn in Hhit. apply Qeq_bool_iff in Hhit. exists old, q. cbn. auto.
    + intros H. destruct (IH H) as (o & q & Hin & ?). exists o, q. cbn. auto.
Qed.

(** C6. [find_and_replace] rewrites [UValueWall] exactly when the rules of
    the row's age band have an entry with the row's wall description and
    the row's current wall U-value, and, independently, [UValueRoof]
    exactly when they have an entry with the current roof U-value; every
    other cell, and every row without a matching entry, is returned
    unchanged.  Age band A with wall U-value 2.10 is corrected to 2.90 for
    [Stone] and left alone for [Brick]. *)
Theorem find_and_replace_exact_match (data_row : Series)
  (band descr wall roof : value) :
  data_row !! "AgeBand" = Some band →
  data_row !! "FirstWallType_Description" = Some descr →
  data_row !! "UValueWall" = Some wall →
  data_row !! "UValueRoof" = Some roof →
  find_and_replace data_row
  = Ok (corrected "UValueRoof" (roof_correction band roof)
          (corrected "UValueWall" (wall_correction band descr wall)
             data_row))
  ∧ (∀ new, wall_correction band descr wall = Some new →
       ∃ old d q, In (WallRule old d new) (rules_of_band band)
                  ∧ descr = VStr d ∧ wall = VNum q ∧ (q == old)%Q)
  ∧ (∀ new, roof_correction band roof = Some new →
       ∃ old q, In (RoofRule old new) (rules_of_band band)
                ∧ roof = VNum q ∧ (q == old)%Q)
  ∧ wall_correction (VStr "A") (VStr "Stone") (VNum 2.10) = Some 2.90%Q
  ∧ wall_correction (VStr "A") (VStr "Brick") (VNum 2.10) = None.
Proof.
  intros Hband Hdescr Hwall Hroof. split.
  - rewrite (find_and_replace_rules _ _ Hband).
    apply apply_rules_spec; auto using rules_of_band_no_cascade.
  - split; [intros new; apply wall_lookup_exact|].
    split; [intros new; apply roof_lookup_exact|].
    split; reflexivity.
Qed.

Lemma find_and_replace_exact_match_witness :
  find_and_replace stone_band_A
  = Ok (<["UValueWall" := VNum 2.90]> stone_band_A)
  ∧ find_and_replace brick_band_A = Ok brick_band_A.
Proof.
  split.
  - apply (find_and_replace_exact_match stone_band_A
             (VStr "A") (VStr "Stone") (VNum 2.10) (VNum 0.4));
      reflexivity.
  - apply (find_and_replace_exact_match brick_band_A
             (VStr "A") (VStr "Brick") (VNum 2.10) (VNum 0.4));
      reflexivity.
Defined.





(** ** Chunks *)

Lemma endswith_spec s suffix :
  endswith s suffix = true ↔ ∃ stem, s = stem ++ suffix.
Proof.
  split.
  - induction s as [|a s IH]; cbn [endswith]; intros H;
      apply orb_true_iff in H as [H|H].
    + apply String.eqb_eq in H. exists "". exact H.
    + discriminate H.
    + apply String.eqb_eq in H. exists "". exact H.
    + destruct (IH H) as [stem ->]. exists (String a stem). reflexivity.
  - intros [stem ->]. induction stem as [|a stem IH].
    + change (endswith suffix suffix = true).
      destruct suffix; cbn [endswith];
        [reflexivity | rewrite String.eqb_refl; reflexivity].
    + change (endswith (String a (stem ++ suffix)) suffix = true).
      cbn [endswith]. rewrite IH. apply orb_true_r.
Qed.

Lemma chunks_fuel_concat {A} fuel size (l : list A) :
  (0 < size)%nat → (length l ≤ fuel)%nat →
  concat (chunks_fuel fuel size l) = l.
Proof.
  intros Hsize. revert l. induction fuel as [|fuel IH]; intros l Hlen.
  - destruct l; [reflexivity | cbn in Hlen; lia].
  - destruct l as [|x l]; [reflexivity|].
    cbn [chunks_fuel concat]. rewrite IH.
    + apply take_drop.
    + rewrite length_drop. cbn [length] in *. lia.
Qed.

Lemma chunked_concat {A} size (l : list A) :
  (0 < size)%nat → concat (chunked size l) = l.
Proof.
  intros Hsize. destruct l as [|x l]; [reflexivity|].
  unfold chunked. apply chunks_fuel_concat; [exact Hsize | reflexivity].
Qed.

Lemma chunked_nonempty {A} size (l : list A) : chunked size l ≠ [].
Proof. destruct l as [|x l]; discriminate. Qed.

Lemma enumerate_fst {A} (l : list A) : (enumerate l).*1 = seq 0 (length l).
Proof. unfold enumerate. apply fst_zip. rewrite length_seq. reflexivity. Qed.

Lemma enumerate_snd {A} (l : list A) : (enumerate l).*2 = l.
Proof. unfold enumerate. apply snd_zip. rewrite length_seq. reflexivity. Qed.

Lemma enumerate_NoDup {A} (l : list A) : NoDup (enumerate l).*1.
Proof. rewrite enumerate_fst. apply NoDup_seq. Qed.

Lemma filter_ext_elem {A} (P Q : A → Prop)
  `{!∀ x, Decision (P x)} `{!∀ x, Decision (Q x)} (l : list A) :
  (∀ x, x ∈ l → (P x ↔ Q x)) → filter P l = filter Q l.
Proof.
  induction l as [|x l IH]; intros Hext; [reflexivity|].
  rewrite !filter_cons.
  assert (Hx : P x ↔ Q x) by (apply Hext; left).
  rewrite IH by (intros y Hy; apply Hext; right; exact Hy).
  destruct (decide (P x)), (decide (Q x)); tauto.
Qed.

Lemma written_rows_app now_year rows1 rows2 :
  written_rows now_year (rows1 ++ rows2)
  = (written_rows now_year rows1 ++ written_rows now_year rows2)%list.
Proof. unfold written_rows. apply flat_map_app. Qed.

Lemma clean_and_flag_Ok now_year data_row :
  is_Ok (clean_and_flag now_year data_row) = true →
  ∃ cleaned flag,
    cleaning_methodology data_row = Ok cleaned
    ∧ filter_by_criteria now_year cleaned = Ok flag
    ∧ clean_and_flag now_year data_row = Ok (cleaned, flag).
Proof.
  unfold clean_and_flag.
  destruct (cleaning_methodology data_row) as [cleaned|e]; cbn;
    [|discriminate].
  destruct (filter_by_criteria now_year cleaned) as [flag|e] eqn:Hflag; cbn;
    [|discriminate].
  intros _. exists cleaned, flag. rewrite Hflag. auto.
Qed.

(** One chunk whose rows all go through: the rows kept by
    [chunk.filter] are the cleaned rows for which [filter_by_criteria]
    returned [True]. *)
Lemma chunk_ok now_year (chunk : DataFrame) :
  NoDup chunk.*1 →
  all_rows_ok now_year chunk.*2 = true →
  ∃ cleaned items,
    apply_rows cleaning_methodology chunk = Ok cleaned
    ∧ ids_where (filter_by_criteria now_year) cleaned = Ok items
    ∧ cleaned.*1 = chunk.*1
    ∧ (∀ i, i ∈ items → i ∈ chunk.*1)
    ∧ (filter_items items cleaned).*2 = written_rows now_year chunk.*2.
Proof.
  induction chunk as [|[id data_row] chunk IH]; intros Hnd Hok.
  - exists [], []. repeat split; try reflexivity. intros i Hi. exact Hi.
  - cbn [fmap list_fmap fst snd] in Hnd, Hok. cbn [all_rows_ok forallb] in Hok.
    apply NoDup_cons in Hnd as [Hfresh Hnd].
    apply andb_true_iff in Hok as [Hrow Hok].
    destruct (IH Hnd Hok) as (cleaned & items & Hc & Hi & Hids & Hsub & Hw).
    destruct (clean_and_flag_Ok _ _ Hrow) as (c & flag & Hclean & Hflag & Hcf).
    exists ((id, c) :: cleaned), (if flag then id :: items else items).
    split; [cbn [apply_rows]; rewrite Hclean, Hc; reflexivity|].
    split; [cbn [ids_where]; rewrite Hflag, Hi; reflexivity|].
    split; [cbn; rewrite Hids; reflexivity|].
    split.
    { intros i Hin. cbn. destruct flag.
      - apply elem_of_cons in Hin as [->|Hin]; [left | right; auto].
      - right. auto. }
    cbn [fmap list_fmap snd]. unfold written_rows. cbn [flat_map].
    rewrite Hcf. fold (written_rows now_year chunk.*2). rewrite <- Hw.
    unfold filter_items. rewrite filter_cons. cbn [fst].
    destruct flag.
    + rewrite decide_True by left. cbn. f_equal. f_equal.
      apply filter_ext_elem. intros [j x] Hx. cbn [fst].
      rewrite elem_of_cons. split; [|auto].
      intros [->|Hj]; [|exact Hj].
      exfalso. apply Hfresh. rewrite <- Hids.
      apply list_elem_of_fmap. exists (id, x).
      split; [reflexivity | exact Hx].
    + rewrite decide_False by (intros Hin; apply Hfresh, Hsub, Hin).
      reflexivity.
Qed.

Lemma apply_rows_Ok_inv now_year (chunk cleaned : DataFrame) items :
  apply_rows cleaning_methodology chunk = Ok cleaned →
  ids_where (filter_by_criteria now_year) cleaned = Ok items →
  all_rows_ok now_year chunk.*2 = true.
Proof.
  revert cleaned items.
  induction chunk as [|[id data_row] chunk IH]; intros cleaned items Hc Hi.
  - reflexivity.
  - cbn [apply_rows] in Hc.
    destruct (cleaning_methodology data_row) as [c|e] eqn:Hclean;
      [|discriminate Hc].
    destruct (apply_rows cleaning_methodology chunk) as [cleaned'|e] eqn:Hrest;
      [|discriminate Hc].
    cbn in Hc. injection Hc as <-.
    cbn [ids_where] in Hi.
    destruct (filter_by_criteria now_year c) as [flag|e] eqn:Hflag;
      [|discriminate Hi].
    destruct (ids_where (filter_by_criteria now_year) cleaned')
      as [items'|e] eqn:Hids; [|discriminate Hi].
    cbn [fmap list_fmap snd all_rows_ok forallb].
    apply andb_true_iff. split.
    + unfold clean_and_flag. rewrite Hclean. cbn. rewrite Hflag. reflexivity.
    + apply (IH cleaned' items'); [reflexivity | exact Hids].
Qed.

(** ** The orchestrator *)

Implicit Types (file_of : string → string)
  (number_format : list Series → string → Q → string).

Lemma all_rows_ok_app now_year rows1 rows2 :
  all_rows_ok now_year (rows1 ++ rows2)
  = all_rows_ok now_year rows1 && all_rows_ok now_year rows2.
Proof. unfold all_rows_ok. apply forallb_app. Qed.

(** What [to_csv] writes reads back, cell by cell, as the rows written. *)
Lemma read_cells_written_line number_format frame (data_row : Series) :
  read_cells (written_line number_format frame data_row) = data_row.
Proof.
  apply map_eq. intros label. unfold read_cells, written_line.
  rewrite lookup_fmap, map_lookup_imap.
  destruct (data_row !! label) as [[q|s]|]; reflexivity.
Qed.

Lemma read_cells_written_lines number_format frame (rows : list Series) :
  read_cells <$> (written_line number_format frame <$> rows) = rows.
Proof.
  induction rows as [|data_row rows IH]; [reflexivity|].
  rewrite !fmap_cons, read_cells_written_line, IH. reflexivity.
Qed.

Lemma typed_chunk_fst (chunk : list (nat * Line)) :
  (typed_chunk chunk).*1 = chunk.*1.
Proof.
  unfold typed_chunk. generalize (chunk.*2). intros context.
  induction chunk as [|numbered chunk IH]; [reflexivity|].
  rewrite !fmap_cons, IH. reflexivity.
Qed.

Lemma typed_chunks_fst (chunks : list (list (nat * Line))) :
  (concat (typed_chunk <$> chunks)).*1 = (concat chunks).*1.
Proof.
  induction chunks as [|chunk chunks IH]; [reflexivity|].
  rewrite fmap_cons. cbn [concat].
  rewrite !fmap_app, typed_chunk_fst, IH. reflexivity.
Qed.

Lemma process_chunks_append file_of number_format now_year out chunks :
  ∀ (w : world) old,
    NoDup (concat chunks).*1 →
    all_rows_ok now_year (concat chunks).*2 = true →
    files w !! file_of out = Some old →
    ∃ new,
      read_cells <$> new = written_rows now_year (concat chunks).*2
      ∧ (process_chunks file_of number_format now_year out chunks false w).1
        = Ok ()
      ∧ files (process_chunks file_of number_format now_year out chunks
                 false w).2
        = <[file_of out := (old ++ new)%list]> (files w).
Proof.
  induction chunks as [|chunk rest IH]; intros w old Hnd Hok Hold.
  - exists []. split; [reflexivity|]. cbn. split; [reflexivity|].
    rewrite app_nil_r, insert_id by exact Hold. reflexivity.
  - cbn [concat] in Hnd, Hok. rewrite fmap_app in Hnd. rewrite fmap_app in Hok.
    apply NoDup_app in Hnd as (Hnd1 & _ & Hnd2).
    rewrite all_rows_ok_app in Hok. apply andb_true_iff in Hok as [Hok1 Hok2].
    destruct (chunk_ok _ _ Hnd1 Hok1) as (cleaned & items & Hc & Hi & _ & _ & Hw).
    cbn [process_chunks concat]. rewrite Hc, Hi.
    set (kept := filter_items items cleaned) in *.
    set (w' := to_csv file_of number_format out ModeA false kept w).
    set (new1 := written_line number_format kept.*2 <$> kept.*2).
    assert (Hfiles : files w' = <[file_of out := (old ++ new1)%list]> (files w)).
    { unfold w', to_csv. cbn [files]. rewrite Hold. reflexivity. }
    destruct (IH w' (old ++ new1)%list Hnd2 Hok2)
      as (new2 & Hcells & Hres & Hout).
    { rewrite Hfiles. apply lookup_insert_eq. }
    exists (new1 ++ new2)%list. split; [|split; [exact Hres|]].
    + rewrite !fmap_app, Hcells. unfold new1.
      rewrite read_cells_written_lines, Hw, written_rows_app. reflexivity.
    + rewrite Hout, Hfiles, insert_insert_eq, app_assoc. reflexivity.
Qed.

Lemma process_chunks_first file_of number_format now_year out chunk rest
  (w : world) :
  NoDup (concat (chunk :: rest)).*1 →
  all_rows_ok now_year (concat (chunk :: rest)).*2 = true →
  ∃ new,
    read_cells <$> new = written_rows now_year (concat (chunk :: rest)).*2
    ∧ (process_chunks file_of number_format now_year out (chunk :: rest)
         true w).1 = Ok ()
    ∧ files (process_chunks file_of number_format now_year out
               (chunk :: rest) true w).2
      = <[file_of out := new]> (files w).
Proof.
  intros Hnd Hok.
  cbn [concat] in Hnd, Hok. rewrite fmap_app in Hnd. rewrite fmap_app in Hok.
  apply NoDup_app in Hnd as (Hnd1 & _ & Hnd2).
  rewrite all_rows_ok_app in Hok. apply andb_true_iff in Hok as [Hok1 Hok2].
  destruct (chunk_ok _ _ Hnd1 Hok1) as (cleaned & items & Hc & Hi & _ & _ & Hw).
  cbn [process_chunks concat]. rewrite Hc, Hi.
  set (kept := filter_items items cleaned) in *.
  set (w' := to_csv file_of number_format out ModeW true kept w).
  set (new1 := written_line number_format kept.*2 <$> kept.*2).
  assert (Hfiles : files w' = <[file_of out := new1]> (files w))
    by reflexivity.
  destruct (process_chunks_append file_of number_format now_year out rest w'
              new1 Hnd2 Hok2) as (new2 & Hcells & Hres & Hout).
  { rewrite Hfiles. apply lookup_insert_eq. }
  exists (new1 ++ new2)%list. split; [|split; [exact Hres|]].
  - rewrite !fmap_app, Hcells. unfold new1.
    rewrite read_cells_written_lines, Hw, written_rows_app. reflexivity.
  - rewrite Hout, Hfiles, insert_insert_eq. reflexivity.
Qed.

Lemma process_chunks_fail file_of number_format now_year out chunks :
  ∀ first_write (w : world),
    all_rows_ok now_year (concat chunks).*2 = false →
    is_Ok (process_chunks file_of number_format now_year out chunks
             first_write w).1 = false.
Proof.
  induction chunks as [|chunk rest IH]; intros first_write w Hbad.
  - discriminate Hbad.
  - cbn [process_chunks].
    destruct (apply_rows cleaning_methodology chunk) as [cleaned|e] eqn:Hc;
      [|reflexivity].
    destruct (ids_where (filter_by_criteria now_year) cleaned)
      as [items|e] eqn:Hi; [|reflexivity].
    apply IH. cbn [concat] in Hbad.
    rewrite fmap_app, all_rows_ok_app,
      (apply_rows_Ok_inv _ _ _ _ Hc Hi) in Hbad.
    exact Hbad.
Qed.




(** A run on a well-configured pair of files: it returns exactly when
    every row the reader hands over goes through, and then the output
    file holds the rows for which [filter_by_criteria] returned [True]. *)
Lemma process_csv_file_run file_of number_format now_year input output
  chunk_size (w : world) lines :
  endswith input ".csv" = true →
  endswith output ".csv" = true →
  input ≠ output →
  (0 < chunk_size)%nat →
  files w !! file_of input = Some lines →
  run_ok (process_csv_file file_of number_format now_year input output
            chunk_size w)
  = all_rows_ok now_year (typed_rows chunk_size lines)
  ∧ (all_rows_ok now_year (typed_rows chunk_size lines) = true →
     file_after (process_csv_file file_of number_format now_year input
                   output chunk_size w) (file_of output)
     = Some (written_rows now_year (typed_rows chunk_size lines))).
Proof.
  intros Hin Hout Hne Hsize Hfile.
  unfold process_csv_file, read_csv, run_ok, file_after, typed_rows.
  rewrite Hin, Hout. cbn [negb orb].
  rewrite (proj2 (String.eqb_neq input output) Hne).
  destruct chunk_size as [|k]; [lia|]. cbn [Nat.eqb]. rewrite Hfile.
  set (w' := World (files w) (log w ++ [ReadCsv input (S k)])).
  pose proof (chunked_concat (S k) (enumerate lines) Hsize) as Hcat.
  pose proof (chunked_nonempty (S k) (enumerate lines)) as Hne'.
  destruct (chunked (S k) (enumerate lines)) as [|chunk rest]; [congruence|].
  rewrite fmap_cons.
  assert (Hnd : NoDup (concat (typed_chunk chunk :: (typed_chunk <$> rest))).*1).
  { rewrite <- fmap_cons, typed_chunks_fst, Hcat. apply enumerate_NoDup. }
  destruct (all_rows_ok now_year
              (concat (typed_chunk chunk :: (typed_chunk <$> rest))).*2)
    eqn:Hok.
  - destruct (process_chunks_first file_of number_format now_year output
                (typed_chunk chunk) (typed_chunk <$> rest) w' Hnd Hok)
      as (new & Hcells & Hres & Hfiles).
    split; [rewrite Hres; reflexivity|].
    intros _. rewrite Hfiles, lookup_insert_eq, Hcells. reflexivity.
  - split; [|discriminate].
    apply process_chunks_fail. exact Hok.
Qed.

Lemma is_Ok_unit (m : result unit) : is_Ok m = true → m = Ok ().
Proof. destruct m as [[]|e]; [reflexivity | discriminate]. Qed.

Lemma elem_of_written_rows now_year rows cleaned :
  cleaned ∈ written_rows now_year rows
  ↔ ∃ data_row, data_row ∈ rows
                ∧ clean_and_flag now_year data_row = Ok (cleaned, true).
Proof.
  unfold written_rows. rewrite list_elem_of_In, in_flat_map. split.
  - intros (data_row & Hin & Hc). exists data_row.
    split; [apply list_elem_of_In, Hin|].
    destruct (clean_and_flag now_year data_row) as [[c [|]]|e];
      cbn in Hc; try contradiction.
    destruct Hc as [->|[]]. reflexivity.
  - intros (data_row & Hin & Hc). exists data_row.
    split; [apply list_elem_of_In, Hin|]. rewrite Hc. left. reflexivity.
Qed.

Lemma file_of_ne file_of (input output : string) :
  file_of input ≠ file_of output → input ≠ output.
Proof. intros Hne ->. apply Hne. reflexivity. Qed.

(** C1. On a well-configured run in which every row goes through, the
    output file holds, in input order, the cleaned rows for which
    [filter_by_criteria] returned [True], that is the rows flagged for
    exclusion; a row is written exactly when its flag is up. *)
Theorem output_is_the_flagged_rows file_of number_format (now_year : Z)
  (input output : string) (chunk_size : nat) (w : world)
  (lines : list Line) :
  endswith input ".csv" = true →
  endswith output ".csv" = true →
  file_of input ≠ file_of output →
  (0 < chunk_size)%nat →
  files w !! file_of input = Some lines →
  all_rows_ok now_year (typed_rows chunk_size lines) = true →
  (process_csv_file file_of number_format now_year input output
     chunk_size w).1 = Ok ()
  ∧ file_after (process_csv_file file_of number_format now_year input
                  output chunk_size w) (file_of output)
    = Some (written_rows now_year (typed_rows chunk_size lines))
  ∧ ∀ cleaned,
      cleaned ∈ written_rows now_year (typed_rows chunk_size lines)
      ↔ ∃ data_row, data_row ∈ typed_rows chunk_size lines
                    ∧ clean_and_flag now_year data_row = Ok (cleaned, true).
Proof.
  intros Hin Hout Hne Hsize Hfile Hok.
  destruct (process_csv_file_run file_of number_format now_year input
              output chunk_size w lines)
    as [Hrun Hafter]; try assumption; [apply (file_of_ne file_of), Hne|].
  split; [apply is_Ok_unit; unfold run_ok in Hrun; congruence|].
  split; [apply Hafter, Hok | apply elem_of_written_rows].
Qed.

Lemma output_is_the_flagged_rows_witness :
  same_labels [final_line; wide_wall_line] = true
  ∧ uniformly_typed [final_line; wide_wall_line] = true
  ∧ forallb (λ line : Line, contains (read_cells line) "Final")
      [final_line; wide_wall_line] = true
  ∧ file_after (process_csv_file plain_path no_digits 2024
                  "in.csv" "out.csv" 1000 two_row_world) "out.csv"
    = Some (written_rows 2024 (typed_rows 1000 [final_line; wide_wall_line]))
  ∧ (λ cleaned : Series, cleaned !! "WallArea")
      <$> written_rows 2024 (typed_rows 1000 [final_line; wide_wall_line])
    = [Some (VNum 1000)]
  ∧ (λ cleaned : Series, cleaned !! "WallArea")
      <$> surviving_rows 2024 (typed_rows 1000 [final_line; wide_wall_line])
    = [Some (VNum 100)].
Proof.
  split; [vm_compute; reflexivity|].
  split; [vm_compute; reflexivity|]. split; [vm_compute; reflexivity|].
  split; [|split; vm_compute; reflexivity].
  destruct (output_is_the_flagged_rows plain_path no_digits 2024
              "in.csv" "out.csv" 1000 two_row_world
              [final_line; wide_wall_line])
    as (_ & Hfile & _);
    [vm_compute; reflexivity | vm_compute; reflexivity | discriminate
    | lia | reflexivity | vm_compute; reflexivity |].
  exact Hfile.
Defined.

(** ** Chunks and the types of the columns *)

Lemma numeric_column_subseteq (lines chunk : list Line) label :
  chunk ⊆ lines →
  numeric_column lines label = true →
  numeric_column chunk label = true.
Proof.
  unfold numeric_column. rewrite !forallb_forall. intros Hsub Hall line Hin.
  apply Hall, list_elem_of_In, Hsub, list_elem_of_In, Hin.
Qed.

Lemma typed_line_uniform (lines chunk : list Line) (line : Line) :
  uniformly_typed lines = true →
  chunk ⊆ lines →
  line ∈ lines →
  typed_line chunk line = read_cells line.
Proof.
  intros Huniform Hsub Hin. apply map_eq. intros label.
  unfold typed_line, read_cells. rewrite map_lookup_imap, lookup_fmap.
  destruct (line !! label) as [[q spelling|s]|] eqn:Hcell; [|reflexivity..].
  cbn. rewrite (numeric_column_subseteq lines chunk label Hsub); [reflexivity|].
  unfold uniformly_typed in Huniform. rewrite forallb_forall in Huniform.
  specialize (Huniform line (proj1 (list_elem_of_In _ _) Hin)).
  rewrite forallb_forall in Huniform.
  apply (Huniform (label, Number q spelling)).
  apply list_elem_of_In, elem_of_map_to_list, Hcell.
Qed.

Lemma typed_chunk_uniform (lines : list Line) (chunk : list (nat * Line)) :
  uniformly_typed lines = true →
  chunk.*2 ⊆ lines →
  (typed_chunk chunk).*2 = read_cells <$> chunk.*2.
Proof.
  intros Huniform Hsub. unfold typed_chunk.
  rewrite <- !list_fmap_compose. apply list_fmap_ext.
  intros i numbered Hi. cbn.
  apply (typed_line_uniform lines); [exact Huniform | exact Hsub|].
  apply Hsub, list_elem_of_fmap. exists numbered.
  split; [reflexivity | apply (list_elem_of_lookup_2 _ i), Hi].
Qed.

Lemma typed_chunks_uniform (lines : list Line)
  (chunks : list (list (nat * Line))) :
  uniformly_typed lines = true →
  (concat chunks).*2 ⊆ lines →
  (concat (typed_chunk <$> chunks)).*2 = read_cells <$> (concat chunks).*2.
Proof.
  intros Huniform. induction chunks as [|chunk chunks IH]; intros Hsub;
    [reflexivity|].
  rewrite fmap_cons. cbn [concat] in *. rewrite fmap_app in Hsub.
  rewrite !fmap_app, IH, (typed_chunk_uniform lines) by set_solver.
  reflexivity.
Qed.

(** In a table whose columns are uniformly typed, every chunking types
    every cell the same way. *)
Lemma typed_rows_uniform (chunk_size : nat) (lines : list Line) :
  (0 < chunk_size)%nat →
  uniformly_typed lines = true →
  typed_rows chunk_size lines = read_cells <$> lines.
Proof.
  intros Hsize Huniform. unfold typed_rows.
  rewrite (typed_chunks_uniform lines) by
    (rewrite ?chunked_concat, ?enumerate_snd by exact Hsize; set_solver).
  rewrite chunked_concat, enumerate_snd by exact Hsize. reflexivity.
Qed.

(** C9. For a well-configured run on a table in which every column holds
    numbers only or no number at all, and any two positive chunk sizes:
    the reader hands over the same rows for both sizes, the run returns
    for one size exactly when it returns for the other, and when every
    row goes through, the output file holds the same rows, in the same
    order and with the same cells, for both sizes.  The cells of the
    output are compared as numbers and texts: the characters written for
    a number follow the type of its column in the chunk. *)
Theorem chunk_size_does_not_matter file_of number_format (now_year : Z)
  (input output : string) (size1 size2 : nat) (w : world)
  (lines : list Line) :
  endswith input ".csv" = true →
  endswith output ".csv" = true →
  file_of input ≠ file_of output →
  (0 < size1)%nat →
  (0 < size2)%nat →
  files w !! file_of input = Some lines →
  uniformly_typed lines = true →
  typed_rows size1 lines = read_cells <$> lines
  ∧ typed_rows size2 lines = read_cells <$> lines
  ∧ run_ok (process_csv_file file_of number_format now_year input output
              size2 w)
    = run_ok (process_csv_file file_of number_format now_year input output
                size1 w)
  ∧ (all_rows_ok now_year (read_cells <$> lines) = true →
     (process_csv_file file_of number_format now_year input output
        size1 w).1 = Ok ()
     ∧ file_after (process_csv_file file_of number_format now_year input
                     output size1 w) (file_of output)
       = Some (written_rows now_year (read_cells <$> lines))
     ∧ file_after (process_csv_file file_of number_format now_year input
                     output size2 w) (file_of output)
       = file_after (process_csv_file file_of number_format now_year input
                       output size1 w) (file_of output)).
Proof.
  intros Hin Hout Hne Hsize1 Hsize2 Hfile Huniform.
  pose proof (typed_rows_uniform size1 lines Hsize1 Huniform) as Htyped1.
  pose proof (typed_rows_uniform size2 lines Hsize2 Huniform) as Htyped2.
  destruct (process_csv_file_run file_of number_format now_year input
              output size1 w lines)
    as [Hrun1 Hafter1]; try assumption; [apply (file_of_ne file_of), Hne|].
  destruct (process_csv_file_run file_of number_format now_year input
              output size2 w lines)
    as [Hrun2 Hafter2]; try assumption; [apply (file_of_ne file_of), Hne|].
  rewrite Htyped1 in Hrun1, Hafter1. rewrite Htyped2 in Hrun2, Hafter2.
  split; [exact Htyped1|]. split; [exact Htyped2|].
  split; [congruence|].
  intros Hok. rewrite (Hafter1 Hok), (Hafter2 Hok).
  split; [|split; reflexivity].
  apply is_Ok_unit. unfold run_ok in Hrun1. congruence.
Qed.

Lemma chunk_size_does_not_matter_witness :
  same_labels [final_line; wide_wall_line; final_line] = true
  ∧ all_rows_ok 2024
    (read_cells <$> [final_line; wide_wall_line; final_line]) = true
  ∧ file_after (process_csv_file plain_path no_digits 2024
                  "in.csv" "out.csv" 1000 three_row_world) "out.csv"
    = file_after (process_csv_file plain_path no_digits 2024
                    "in.csv" "out.csv" 1 three_row_world) "out.csv".
Proof.
  assert (Hok : all_rows_ok 2024
                  (read_cells <$> [final_line; wide_wall_line; final_line])
                = true) by (vm_compute; reflexivity).
  split; [vm_compute; reflexivity|]. split; [exact Hok|].
  destruct (chunk_size_does_not_matter plain_path no_digits 2024
              "in.csv" "out.csv" 1 1000 three_row_world
              [final_line; wide_wall_line; final_line])
    as (_ & _ & _ & Hsame);
    [vm_compute; reflexivity | vm_compute; reflexivity | discriminate
    | lia | lia | reflexivity | vm_compute; reflexivity |].
  exact (proj2 (proj2 (Hsame Hok))).
Defined.

(** The chunk size decides how the columns are typed.  The table of
    [mixed_world] has one word in the column [LivingAreaPercent], in a
    line whose dwelling type is not checked.  Read line by line, the
    second line has a number there, the run returns and the output file
    has two rows; read as one chunk, the column is text for both lines,
    the range check of the second line raises [TypeError] and no output
    file is written. *)
Lemma chunk_size_decides_the_types :
  same_labels [text_living_area_line; detached_line] = true
  ∧ (process_csv_file plain_path no_digits 2024 "in.csv" "out.csv" 1
       mixed_world).1 = Ok ()
  ∧ (process_csv_file plain_path no_digits 2024 "in.csv" "out.csv" 1000
       mixed_world).1 = Raise TypeError
  ∧ length <$> file_after
                 (process_csv_file plain_path no_digits 2024
                    "in.csv" "out.csv" 1 mixed_world) "out.csv"
    = Some 2%nat
  ∧ file_after (process_csv_file plain_path no_digits 2024
                  "in.csv" "out.csv" 1000 mixed_world) "out.csv"
    = None
  ∧ (λ data_row : Series, data_row !! "LivingAreaPercent")
      <$> typed_rows 1 [text_living_area_line; detached_line]
    = [Some (VStr "unknown"); Some (VNum 20)]
  ∧ (λ data_row : Series, data_row !! "LivingAreaPercent")
      <$> typed_rows 1000 [text_living_area_line; detached_line]
    = [Some (VStr "unknown"); Some (VStr "20")].
Proof. repeat split; vm_compute; reflexivity. Qed.



(** When a row raises, the run aborts; what the aborted run leaves in the
    output file are the chunks written before the one that raised. *)
Example aborted_run_leaves_earlier_chunks :
  run_ok (process_csv_file plain_path no_digits 2024 "in.csv" "out.csv" 1
            aborting_world) = false
  ∧ run_ok (process_csv_file plain_path no_digits 2024 "in.csv" "out.csv"
              1000 aborting_world) = false
  ∧ length <$> file_after
                 (process_csv_file plain_path no_digits 2024
                    "in.csv" "out.csv" 1 aborting_world)
                 "out.csv" = Some 1%nat
  ∧ length <$> file_after
                 (process_csv_file plain_path no_digits 2024
                    "in.csv" "out.csv" 1000 aborting_world)
                 "out.csv" = None.
Proof. repeat split; vm_compute; reflexivity. Qed.

(** * Further properties of the code *)

(** ** [drop_unwanted_columns] *)

Lemma elem_of_columns_to_drop (data_row : Series) label :
  is_Some (data_row !! label) →
  label ∈ columns_to_drop data_row ↔ is_dropped label = true.
Proof.
  intros [v Hv]. unfold columns_to_drop, is_dropped, labels.
  rewrite elem_of_app, list_elem_of_filter, orb_true_iff, bool_decide_eq_true.
  assert (Hin : label ∈ (map_to_list data_row).*1).
  { apply list_elem_of_fmap. exists (label, v).
    split; [reflexivity | apply elem_of_map_to_list, Hv]. }
  tauto.
Qed.

Lemma drop_unwanted_columns_lookup (data_row : Series) label :
  drop_unwanted_columns data_row !! label
  = if is_dropped label then None else data_row !! label.
Proof.
  unfold drop_unwanted_columns.
  destruct (data_row !! label) as [v|] eqn:Hv.
  - destruct (is_dropped label) eqn:Hd.
    + apply map_lookup_filter_None. right. intros v' Hv'. cbn [fst].
      intros Hkeep. apply Hkeep.
      apply elem_of_columns_to_drop; [rewrite Hv'; eauto | exact Hd].
    + apply map_lookup_filter_Some. split; [exact Hv|]. cbn [fst].
      intros Hin. apply elem_of_columns_to_drop in Hin; [|rewrite Hv; eauto].
      congruence.
  - rewrite (proj2 (map_lookup_filter_None _ _ _)) by (left; exact Hv).
    destruct (is_dropped label); reflexivity.
Qed.

(** X1. [drop_unwanted_columns] removes exactly the three wall
    description columns and the columns whose label starts with
    [Unnamed:], keeps every other cell as it is, and dropping twice is
    dropping once.  None of the columns the later steps read is among the
    removed ones. *)
Theorem drop_unwanted_columns_exact (data_row : Series) :
  (∀ label,
     drop_unwanted_columns data_row !! label
     = if is_dropped label then None else data_row !! label)
  ∧ drop_unwanted_columns (drop_unwanted_columns data_row)
    = drop_unwanted_columns data_row
  ∧ Forall (λ label, is_dropped label = false)
      ("DwellingTypeDescr" :: "FirstWallType_Description"
       :: derivation_columns ++ validation_columns).
Proof.
  split; [apply drop_unwanted_columns_lookup|]. split.
  - apply map_eq. intros label. rewrite !drop_unwanted_columns_lookup.
    destruct (is_dropped label); reflexivity.
  - apply (bool_decide_unpack _). vm_compute. exact I.
Qed.

(** X2. On a row whose eight raw columns are numbers,
    [add_desired_columns] returns the row with four cells set: the age
    band, the thermal era ([Pre] up to 1977, [Post] after), the glazing
    ratio, and the volume, which is the ground floor area times the sum
    of the four floor heights.  Every other cell is as it was. *)
Theorem add_desired_columns_four_cells (data_row : Series)
  (year wall window area h0 h1 h2 h3 : Q) :
  data_row !! "Year_of_Construction" = Some (VNum year) →
  data_row !! "WallArea" = Some (VNum wall) →
  data_row !! "WindowArea" = Some (VNum window) →
  data_row !! "GroundFloorArea(sq m)" = Some (VNum area) →
  data_row !! "GroundFloorHeight" = Some (VNum h0) →
  data_row !! "FirstFloorHeight" = Some (VNum h1) →
  data_row !! "SecondFloorHeight" = Some (VNum h2) →
  data_row !! "ThirdFloorHeight" = Some (VNum h3) →
  ∃ derived,
    add_desired_columns data_row = Ok derived
    ∧ derived !! "AgeBand" = Some (VStr (age_band_of_year year))
    ∧ derived !! "ThermalEra"
      = Some (VStr (if Qle_bool year 1977 then "Pre" else "Post"))
    ∧ derived !! "GlazingPercent"
      = Some (VNum (if Qlt_bool 0 wall then window / wall else 0)%Q)
    ∧ derived !! "Volume" = Some (VNum (area * (h0 + h1 + h2 + h3))%Q)
    ∧ ∀ label,
        label ∉ ["AgeBand"; "ThermalEra"; "GlazingPercent"; "Volume"] →
        derived !! label = data_row !! label.
Proof.
  intros Hy Hwall Hwin Ha H0 H1 H2 H3. eexists.
  split; [apply (add_desired_columns_spec _ _ _ _ _ _ _ _ _
                   Hy Hwall Hwin Ha H0 H1 H2 H3)|].
  split; [rewrite !lookup_insert_ne by discriminate; apply lookup_insert_eq|].
  split; [rewrite !lookup_insert_ne by discriminate; apply lookup_insert_eq|].
  split; [rewrite !lookup_insert_ne by discriminate; apply lookup_insert_eq|].
  split; [apply lookup_insert_eq|].
  intros label Hlabel. rewrite !lookup_insert_ne by set_solver. reflexivity.
Qed.

Lemma add_desired_columns_four_cells_witness :
  ∃ derived,
    add_desired_columns detached_1970 = Ok derived
    ∧ derived !! "AgeBand" = Some (VStr (age_band_of_year 1970))
    ∧ derived !! "ThermalEra"
      = Some (VStr (if Qle_bool 1970 1977 then "Pre" else "Post"))
    ∧ derived !! "GlazingPercent"
      = Some (VNum (if Qlt_bool 0 100 then 20 / 100 else 0)%Q)
    ∧ derived !! "Volume" = Some (VNum (120 * (2.5 + 2.5 + 0 + 0))%Q)
    ∧ ∀ label,
        label ∉ ["AgeBand"; "ThermalEra"; "GlazingPercent"; "Volume"] →
        derived !! label = detached_1970 !! label.
Proof.
  exact (add_desired_columns_four_cells detached_1970
           1970 100 20 120 2.5 2.5 0 0
           eq_refl eq_refl eq_refl eq_refl eq_refl eq_refl eq_refl eq_refl).
Defined.

Lemma pre_iff_band year :
  Qle_bool year 1977 = true ↔ age_band_of_year year ∈ pre_bands.
Proof.
  unfold age_band_of_year, pre_bands.
  split_on_boundaries year; decide_cmp;
    (split; [intros Hle | intros Hin]);
    first [ discriminate Hle
          | reflexivity
          | apply (bool_decide_unpack _); vm_compute; exact I
          | exfalso; revert Hin; apply (bool_decide_unpack _); vm_compute;
            exact I ].
Qed.

(** X3. On a row whose construction year is a number, whenever
    [add_desired_columns] returns, the two categorical columns it sets
    agree: the thermal era is [Pre] exactly when the age band is one of A
    to E, and both come from the construction year of the row. *)
Theorem age_band_and_thermal_era_agree (data_row derived : Series)
  (year : Q) :
  data_row !! "Year_of_Construction" = Some (VNum year) →
  add_desired_columns data_row = Ok derived →
  ∃ band era,
    derived !! "AgeBand" = Some (VStr band)
    ∧ derived !! "ThermalEra" = Some (VStr era)
    ∧ band = age_band_of_year year
    ∧ (era = "Pre" ∨ era = "Post")
    ∧ (era = "Pre" ↔ band ∈ pre_bands).
Proof.
  intros Hy H.
  apply add_desired_columns_Ok_inv in H
    as (year' & wall & glazing & area & h0 & h1 & h2 & h3
        & Hy' & _ & _ & _ & _ & _ & _ & _ & ->).
  rewrite Hy in Hy'. injection Hy' as <-.
  exists (age_band_of_year year),
    (if Qle_bool year 1977 then "Pre" else "Post").
  split; [rewrite !lookup_insert_ne by discriminate; apply lookup_insert_eq|].
  split; [rewrite !lookup_insert_ne by discriminate; apply lookup_insert_eq|].
  split; [reflexivity|].
  split; [destruct (Qle_bool year 1977); auto|].
  rewrite <- pre_iff_band.
  destruct (Qle_bool year 1977); split; first [reflexivity | discriminate].
Qed.

Lemma age_band_and_thermal_era_agree_witness :
  ∃ band era,
    <["Volume" := VNum (120 * (2.5 + 2.5 + 0 + 0))%Q]>
      (<["GlazingPercent" := VNum (20 / 100)%Q]>
         (<["ThermalEra" := VStr "Pre"]>
            (<["AgeBand" := VStr "E"]> detached_1970)))
    !! "AgeBand" = Some (VStr band)
    ∧ <["Volume" := VNum (120 * (2.5 + 2.5 + 0 + 0))%Q]>
        (<["GlazingPercent" := VNum (20 / 100)%Q]>
           (<["ThermalEra" := VStr "Pre"]>
              (<["AgeBand" := VStr "E"]> detached_1970)))
      !! "ThermalEra" = Some (VStr era)
    ∧ band = age_band_of_year 1970
    ∧ (era = "Pre" ∨ era = "Post")
    ∧ (era = "Pre" ↔ band ∈ pre_bands).
Proof.
  apply (age_band_and_thermal_era_agree detached_1970 _ 1970 eq_refl).
  exact (add_desired_columns_spec detached_1970 1970 100 20 120 2.5 2.5 0 0
           eq_refl eq_refl eq_refl eq_refl eq_refl eq_refl eq_refl eq_refl).
Defined.

(** X4. The columns [add_desired_columns] needs.  A row that lacks the
    construction year, the wall area, the ground floor area or one of the
    four floor heights does not go through.  The window area is read only
    when the wall area is positive: with a wall area of 0 or less the call
    returns whatever the window area cell holds, and even without that
    column; with a positive wall area a missing window area raises
    [KeyError] and a text there raises [TypeError]. *)
Theorem add_desired_columns_needs_its_columns (data_row : Series)
  (wall : Q) :
  Forall (λ label, is_num data_row label = true)
    ["Year_of_Construction"; "GroundFloorArea(sq m)"; "GroundFloorHeight";
     "FirstFloorHeight"; "SecondFloorHeight"; "ThirdFloorHeight"] →
  data_row !! "WallArea" = Some (VNum wall) →
  ((wall <= 0)%Q → is_Ok (add_desired_columns data_row) = true)
  ∧ ((0 < wall)%Q →
     data_row !! "WindowArea" = None →
     add_desired_columns data_row = Raise (KeyError "WindowArea"))
  ∧ ((0 < wall)%Q →
     ∀ text,
       data_row !! "WindowArea" = Some (VStr text) →
       add_desired_columns data_row = Raise TypeError)
  ∧ (∀ (any_row : Series) label,
       label ∈ ["Year_of_Construction"; "WallArea"; "GroundFloorArea(sq m)";
                "GroundFloorHeight"; "FirstFloorHeight";
                "SecondFloorHeight"; "ThirdFloorHeight"] →
       any_row !! label = None →
       is_Ok (add_desired_columns any_row) = false).
Proof.
  intros Hnum Hwall. rewrite !Forall_cons in Hnum.
  destruct Hnum as (Hy & Ha & H0 & H1 & H2 & H3 & _).
  assert (Hwall' : is_num data_row "WallArea" = true)
    by (unfold is_num; rewrite Hwall; reflexivity).
  assert (Hglazing : ∀ e,
            (0 < wall)%Q →
            getnum data_row "WindowArea" = Raise e →
            add_desired_columns data_row = Raise e).
  { intros e Hpos Hwindow. apply is_num_lookup in Hy.
    unfold add_desired_columns.
    rewrite (add_age_band_spec _ _ Hy), bind_Ok.
    rewrite (add_thermal_era_spec _ (num data_row "Year_of_Construction")),
      bind_Ok by (rewrite lookup_insert_ne; [exact Hy | discriminate]).
    unfold add_glazing_percent.
    rewrite (getnum_Some _ "WallArea" wall)
      by (rewrite !lookup_insert_ne by discriminate; exact Hwall).
    cbn [mbind result_bind]. rewrite Qlt_bool_true by exact Hpos.
    rewrite !getnum_insert_ne by discriminate. rewrite Hwindow.
    reflexivity. }
  split; [|split; [|split]].
  - intros Hneg. apply add_desired_columns_returns; auto.
    intros Hpos. rewrite (num_lookup _ _ _ Hwall) in Hpos.
    apply Qlt_bool_iff in Hpos. lra.
  - intros Hpos Hnone. apply Hglazing; [exact Hpos|].
    unfold getnum, get. rewrite Hnone. reflexivity.
  - intros Hpos text Htext. apply Hglazing; [exact Hpos|].
    unfold getnum, get. rewrite Htext. reflexivity.
  - intros any_row label Hin Hnone.
    destruct (add_desired_columns any_row) as [derived|e] eqn:Hd;
      [|reflexivity].
    apply add_desired_columns_Ok_inv in Hd
      as (year & wall' & glazing & area & h0 & h1 & h2 & h3
          & Ky & Kw & _ & Ka & K0 & K1 & K2 & K3 & _).
    rewrite !elem_of_cons in Hin.
    destruct Hin as [->|[->|[->|[->|[->|[->|[->|Hin]]]]]]];
      [..|apply elem_of_nil in Hin; contradiction]; congruence.
Qed.

Lemma add_desired_columns_needs_its_columns_witness :
  is_Ok (add_desired_columns
           (delete "WindowArea" (<["WallArea" := VNum 0]> detached_1970)))
  = true
  ∧ add_desired_columns (delete "WindowArea" detached_1970)
    = Raise (KeyError "WindowArea")
  ∧ add_desired_columns (<["WindowArea" := VStr "large"]> detached_1970)
    = Raise TypeError.
Proof.
  split; [|split].
  - apply (add_desired_columns_needs_its_columns
             (delete "WindowArea" (<["WallArea" := VNum 0]> detached_1970))
             0);
      [repeat constructor | reflexivity | discriminate].
  - apply (add_desired_columns_needs_its_columns
             (delete "WindowArea" detached_1970) 100);
      [repeat constructor | reflexivity | reflexivity | reflexivity].
  - apply (add_desired_columns_needs_its_columns
             (<["WindowArea" := VStr "large"]> detached_1970) 100
             ltac:(repeat constructor) eq_refl) with (text := "large");
      reflexivity.
Defined.

Lemma ones_where_sum {A} (test : A → result bool) xs ones :
  ones_where test xs = Ok ones →
  (0 <= sum ones <= Z.of_nat (length xs))%Z.
Proof.
  revert ones. induction xs as [|x xs IH]; intros ones H.
  - injection H as <-. cbn. lia.
  - cbn [ones_where] in H.
    apply bind_Ok_inv in H as (hit & _ & H).
    apply bind_Ok_inv in H as (rest & Hrest & H). injection H as <-.
    specialize (IH rest Hrest). cbn [length].
    destruct hit; cbn [sum foldr]; fold (sum rest); lia.
Qed.

Lemma correct_column_data_twice (data_row corrected_row : Series) :
  correct_column_data data_row = Ok corrected_row →
  correct_column_data corrected_row = Ok corrected_row.
Proof.
  unfold correct_column_data at 1. intros H.
  apply bind_Ok_inv in H as (raw & Hraw & H).
  apply getnum_Ok_inv in Hraw.
  destruct (Qlt_bool raw 4) eqn:Hlt.
  - apply bind_Ok_inv in H as (ones & Hones & H). injection H as <-.
    unfold correct_column_data.
    rewrite (getnum_Some _ "NoStoreys" (inject_Z (1 + sum ones)))
      by apply lookup_insert_eq.
    cbn [mbind result_bind].
    destruct (Qlt_bool (inject_Z (1 + sum ones)) 4); [|reflexivity].
    unfold upper_floor_heights, ones_where in *.
    rewrite !getnum_insert_ne by discriminate.
    rewrite Hones. cbn [mbind result_bind].
    rewrite insert_insert_eq. reflexivity.
  - injection H as <-.
    unfold correct_column_data. rewrite (getnum_Some _ _ _ Hraw).
    cbn [mbind result_bind]. rewrite Hlt. reflexivity.
Qed.

(** X5. On a row whose storey count is a number, whenever
    [correct_column_data] returns, the storey count of the result is a
    number that is at least 1, and at most 4 when the raw count was below
    4; every other cell is as it was, and correcting the result again
    changes nothing. *)
Theorem correct_column_data_bounds (data_row corrected_row : Series)
  (raw : Q) :
  data_row !! "NoStoreys" = Some (VNum raw) →
  correct_column_data data_row = Ok corrected_row →
  ∃ storeys,
    corrected_row !! "NoStoreys" = Some (VNum storeys)
    ∧ (1 <= storeys)%Q
    ∧ ((raw < 4)%Q → (storeys <= 4)%Q)
    ∧ (∀ label, label ≠ "NoStoreys" →
                corrected_row !! label = data_row !! label)
    ∧ correct_column_data corrected_row = Ok corrected_row.
Proof.
  intros Hraw Hall. pose proof Hall as H. unfold correct_column_data in H.
  rewrite (getnum_Some _ _ _ Hraw), bind_Ok in H.
  destruct (Qlt_bool raw 4) eqn:Hlt.
  - apply bind_Ok_inv in H as (ones & Hones & H). injection H as <-.
    pose proof (ones_where_sum _ _ _ Hones) as Hsum.
    unfold upper_floor_heights in Hsum. cbn [length] in Hsum.
    exists (inject_Z (1 + sum ones)).
    split; [apply lookup_insert_eq|].
    assert (Hlo : (1 <= inject_Z (1 + sum ones))%Q).
    { change 1%Q with (inject_Z 1). rewrite <- Zle_Qle. lia. }
    assert (Hhi : (inject_Z (1 + sum ones) <= 4)%Q).
    { change 4%Q with (inject_Z 4). rewrite <- Zle_Qle. lia. }
    split; [exact Hlo|]. split; [intros _; exact Hhi|].
    split; [intros label Hne; apply lookup_insert_ne; congruence|].
    apply (correct_column_data_twice data_row), Hall.
  - injection H as <-. exists raw.
    unfold Qlt_bool in Hlt. apply negb_false_iff, Qle_bool_iff in Hlt.
    split; [exact Hraw|].
    split; [lra|]. split; [intros Hlow; lra|].
    split; [reflexivity|].
    apply (correct_column_data_twice data_row), Hall.
Qed.

Lemma correct_column_data_bounds_witness :
  ∃ storeys,
    <["NoStoreys" := VNum (inject_Z (1 + count_positive [2.5; 0; 0]%Q))]>
      detached_1970 !! "NoStoreys" = Some (VNum storeys)
    ∧ (1 <= storeys)%Q
    ∧ ((3 < 4)%Q → (storeys <= 4)%Q)
    ∧ (∀ label, label ≠ "NoStoreys" →
                <["NoStoreys" :=
                    VNum (inject_Z (1 + count_positive [2.5; 0; 0]%Q))]>
                  detached_1970 !! label
                = detached_1970 !! label)
    ∧ correct_column_data
        (<["NoStoreys" := VNum (inject_Z (1 + count_positive [2.5; 0; 0]%Q))]>
           detached_1970)
      = Ok (<["NoStoreys" :=
                VNum (inject_Z (1 + count_positive [2.5; 0; 0]%Q))]>
              detached_1970).
Proof.
  apply (correct_column_data_bounds detached_1970 _ 3); reflexivity.
Defined.

(** ** [find_and_replace] once more *)

Lemma apply_rule_frame (data_row data_row' : Series) rule :
  apply_rule data_row rule = Ok data_row' →
  ∀ label, label ≠ "UValueWall" → label ≠ "UValueRoof" →
           data_row' !! label = data_row !! label.
Proof.
  intros H label Hw Hr. destruct rule as [old d new|old new]; cbn in H.
  - apply bind_Ok_inv in H as (wall & _ & H).
    destruct (eq_num wall old); [|injection H as <-; reflexivity].
    apply bind_Ok_inv in H as (descr & _ & H).
    destruct (eq_str descr d); injection H as <-; [|reflexivity].
    apply lookup_insert_ne. congruence.
  - apply bind_Ok_inv in H as (roof & _ & H).
    destruct (eq_num roof old); injection H as <-; [|reflexivity].
    apply lookup_insert_ne. congruence.
Qed.

Lemma apply_rule_keeps_num (data_row data_row' : Series) rule label :
  apply_rule data_row rule = Ok data_row' →
  is_num data_row label = true → is_num data_row' label = true.
Proof.
  intros H Hnum. destruct rule as [old d new|old new]; cbn in H.
  - apply bind_Ok_inv in H as (wall & _ & H).
    destruct (eq_num wall old); [|injection H as <-; exact Hnum].
    apply bind_Ok_inv in H as (descr & _ & H).
    destruct (eq_str descr d); injection H as <-; [|exact Hnum].
    unfold is_num.
    destruct (decide ("UValueWall" = label)) as [<-|Hne];
      [rewrite lookup_insert_eq; reflexivity|].
    rewrite lookup_insert_ne by exact Hne. exact Hnum.
  - apply bind_Ok_inv in H as (roof & _ & H).
    destruct (eq_num roof old); injection H as <-; [|exact Hnum].
    unfold is_num.
    destruct (decide ("UValueRoof" = label)) as [<-|Hne];
      [rewrite lookup_insert_eq; reflexivity|].
    rewrite lookup_insert_ne by exact Hne. exact Hnum.
Qed.

Lemma apply_rules_frame rules : ∀ (data_row data_row' : Series),
  for_each apply_rule rules data_row = Ok data_row' →
  (∀ label, label ≠ "UValueWall" → label ≠ "UValueRoof" →
            data_row' !! label = data_row !! label)
  ∧ (∀ label, is_num data_row label = true → is_num data_row' label = true).
Proof.
  induction rules as [|rule rules IH]; intros data_row data_row' H.
  - injection H as <-. auto.
  - cbn [for_each] in H. apply bind_Ok_inv in H as (r1 & H1 & H).
    destruct (IH _ _ H) as [Hframe Hnum]. split.
    + intros label Hw Hr. rewrite Hframe by assumption.
      apply (apply_rule_frame _ _ _ H1); assumption.
    + intros label Hl. apply Hnum, (apply_rule_keeps_num _ _ _ _ H1), Hl.
Qed.

Lemma find_and_replace_frame (data_row data_row' : Series) :
  find_and_replace data_row = Ok data_row' →
  (∀ label, label ≠ "UValueWall" → label ≠ "UValueRoof" →
            data_row' !! label = data_row !! label)
  ∧ (∀ label, is_num data_row label = true → is_num data_row' label = true).
Proof.
  unfold find_and_replace. intros H.
  apply bind_Ok_inv in H as (band & _ & H).
  destruct (find _ age_band_cases) as [[name rules]|];
    [apply (apply_rules_frame rules), H | injection H as <-; auto].
Qed.

(** X6. Whenever [find_and_replace] returns, whatever the row holds, only
    the cells [UValueWall] and [UValueRoof] can differ from the input, and
    a column that held a number still holds a number. *)
Theorem find_and_replace_touches_two_cells (data_row data_row' : Series) :
  find_and_replace data_row = Ok data_row' →
  (∀ label, label ≠ "UValueWall" → label ≠ "UValueRoof" →
            data_row' !! label = data_row !! label)
  ∧ (∀ label, is_num data_row label = true → is_num data_row' label = true).
Proof.
  unfold find_and_replace. intros H.
  apply bind_Ok_inv in H as (band & _ & H).
  destruct (find _ age_band_cases) as [[name rules]|];
    [apply (apply_rules_frame rules), H | injection H as <-; auto].
Qed.

Lemma find_and_replace_touches_two_cells_witness :
  (∀ label, label ≠ "UValueWall" → label ≠ "UValueRoof" →
            <["UValueWall" := VNum 2.90]> stone_band_A !! label
            = stone_band_A !! label)
  ∧ (∀ label, is_num stone_band_A label = true →
              is_num (<["UValueWall" := VNum 2.90]> stone_band_A) label
              = true).
Proof.
  apply (find_and_replace_touches_two_cells stone_band_A). reflexivity.
Defined.

Lemma same_Q_eq x y : same_Q x y = true → x = y.
Proof.
  destruct x as [a b], y as [c d]. unfold same_Q. cbn.
  rewrite andb_true_iff, Z.eqb_eq, Pos.eqb_eq. intros [-> ->]. reflexivity.
Qed.

Lemma age_band_cases_stable :
  Forall (λ case, stable case.2 = true) age_band_cases.
Proof. apply (bool_decide_unpack _). vm_compute. exact I. Qed.

Lemma rules_of_band_stable band : stable (rules_of_band band) = true.
Proof.
  unfold rules_of_band.
  destruct (find _ age_band_cases) as [[name rules]|] eqn:Hfind;
    [|reflexivity].
  apply find_some in Hfind as [Hin _].
  pose proof age_band_cases_stable as H. rewrite Forall_forall in H.
  apply (H (name, rules)), list_elem_of_In, Hin.
Qed.

Lemma corrected_wall_again rules (data_row : Series) descr wall new :
  stable rules = true →
  wall_lookup rules descr wall = Some new →
  data_row !! "UValueWall" = Some (VNum new) →
  corrected "UValueWall" (wall_lookup rules descr (VNum new)) data_row
  = data_row.
Proof.
  intros Hst Hl Hcell.
  destruct (wall_lookup_exact _ _ _ _ Hl) as (old & d & q & Hin & -> & _).
  unfold stable in Hst. rewrite forallb_forall in Hst.
  specialize (Hst _ Hin). cbn [stable_rule] in Hst.
  destruct (wall_lookup rules (VStr d) (VNum new)) as [new'|];
    [|reflexivity].
  apply same_Q_eq in Hst. subst new'. cbn [corrected].
  apply insert_id, Hcell.
Qed.

Lemma corrected_roof_again rules (data_row : Series) roof new :
  stable rules = true →
  roof_lookup rules roof = Some new →
  data_row !! "UValueRoof" = Some (VNum new) →
  corrected "UValueRoof" (roof_lookup rules (VNum new)) data_row = data_row.
Proof.
  intros Hst Hl Hcell.
  destruct (roof_lookup_exact _ _ _ Hl) as (old & q & Hin & _).
  unfold stable in Hst. rewrite forallb_forall in Hst.
  specialize (Hst _ Hin). cbn [stable_rule] in Hst.
  destruct (roof_lookup rules (VNum new)) as [new'|]; [|reflexivity].
  apply same_Q_eq in Hst. subst new'. cbn [corrected].
  apply insert_id, Hcell.
Qed.

(** Running the statements of one case a second time changes nothing. *)
Lemma apply_rules_twice rules (data_row : Series) descr wall roof :
  no_cascade rules = true →
  stable rules = true →
  data_row !! "FirstWallType_Description" = Some descr →
  data_row !! "UValueWall" = Some wall →
  data_row !! "UValueRoof" = Some roof →
  ∃ replaced,
    for_each apply_rule rules data_row = Ok replaced
    ∧ for_each apply_rule rules replaced = Ok replaced.
Proof.
  intros Hnc Hst Hdescr Hwall Hroof.
  set (r1 := corrected "UValueWall" (wall_lookup rules descr wall) data_row).
  set (r2 := corrected "UValueRoof" (roof_lookup rules roof) r1).
  assert (Hfirst : for_each apply_rule rules data_row = Ok r2)
    by (apply apply_rules_spec; assumption).
  exists r2. split; [exact Hfirst|].
  destruct (apply_rules_frame _ _ _ Hfirst) as [Hframe _].
  assert (Hdescr2 : r2 !! "FirstWallType_Description" = Some descr)
    by (rewrite Hframe by discriminate; exact Hdescr).
  destruct (wall_lookup rules descr wall) as [new|] eqn:Hwl;
    destruct (roof_lookup rules roof) as [new2|] eqn:Hrl;
    cbn [corrected] in r1, r2; subst r1 r2.
  - rewrite (apply_rules_spec rules _ descr (VNum new) (VNum new2) Hnc Hdescr2)
      by (first [ apply lookup_insert_eq
                | rewrite lookup_insert_ne by discriminate;
                  apply lookup_insert_eq ]).
    rewrite (corrected_wall_again rules _ descr wall new Hst Hwl)
      by (rewrite lookup_insert_ne by discriminate; apply lookup_insert_eq).
    rewrite (corrected_roof_again rules _ roof new2 Hst Hrl)
      by apply lookup_insert_eq.
    reflexivity.
  - rewrite (apply_rules_spec rules _ descr (VNum new) roof Hnc Hdescr2)
      by (first [ apply lookup_insert_eq
                | rewrite lookup_insert_ne by discriminate; exact Hroof ]).
    rewrite (corrected_wall_again rules _ descr wall new Hst Hwl)
      by apply lookup_insert_eq.
    rewrite Hrl. reflexivity.
  - rewrite (apply_rules_spec rules _ descr wall (VNum new2) Hnc Hdescr2)
      by (first [ apply lookup_insert_eq
                | rewrite lookup_insert_ne by discriminate; exact Hwall ]).
    rewrite Hwl. cbn [corrected].
    rewrite (corrected_roof_again rules _ roof new2 Hst Hrl)
      by apply lookup_insert_eq.
    reflexivity.
  - rewrite (apply_rules_spec rules _ descr wall roof Hnc Hdescr2 Hwall Hroof).
    rewrite Hwl, Hrl. reflexivity.
Qed.

Lemma find_and_replace_twice (data_row : Series)
  (band descr wall roof : value) :
  data_row !! "AgeBand" = Some band →
  data_row !! "FirstWallType_Description" = Some descr →
  data_row !! "UValueWall" = Some wall →
  data_row !! "UValueRoof" = Some roof →
  ∃ replaced,
    find_and_replace data_row = Ok replaced
    ∧ find_and_replace replaced = Ok replaced.
Proof.
  intros Hband Hdescr Hwall Hroof.
  destruct (apply_rules_twice (rules_of_band band) data_row descr wall roof
              (rules_of_band_no_cascade band) (rules_of_band_stable band)
              Hdescr Hwall Hroof) as (replaced & Hfirst & Hagain).
  exists replaced.
  rewrite (find_and_replace_rules _ _ Hband). split; [exact Hfirst|].
  destruct (apply_rules_frame _ _ _ Hfirst) as [Hframe _].
  rewrite (find_and_replace_rules replaced band)
    by (rewrite Hframe by discriminate; exact Hband).
  exact Hagain.
Qed.

(** X7. On a row that has the four columns [find_and_replace] reads, the
    function returns, and running it again on its result changes
    nothing: no corrected U-value is itself a placeholder of the same age
    band and wall type. *)
Theorem find_and_replace_idempotent (data_row : Series)
  (band descr wall roof : value) :
  data_row !! "AgeBand" = Some band →
  data_row !! "FirstWallType_Description" = Some descr →
  data_row !! "UValueWall" = Some wall →
  data_row !! "UValueRoof" = Some roof →
  ∃ replaced,
    find_and_replace data_row = Ok replaced
    ∧ find_and_replace replaced = Ok replaced.
Proof.
  intros Hband Hdescr Hwall Hroof.
  destruct (apply_rules_twice (rules_of_band band) data_row descr wall roof
              (rules_of_band_no_cascade band) (rules_of_band_stable band)
              Hdescr Hwall Hroof) as (replaced & Hfirst & Hagain).
  exists replaced.
  rewrite (find_and_replace_rules _ _ Hband). split; [exact Hfirst|].
  destruct (apply_rules_frame _ _ _ Hfirst) as [Hframe _].
  rewrite (find_and_replace_rules replaced band)
    by (rewrite Hframe by discriminate; exact Hband).
  exact Hagain.
Qed.

Lemma find_and_replace_idempotent_witness :
  ∃ replaced,
    find_and_replace stone_band_A = Ok replaced
    ∧ find_and_replace replaced = Ok replaced.
Proof.
  exact (find_and_replace_idempotent stone_band_A
           (VStr "A") (VStr "Stone") (VNum 2.10) (VNum 0.4)
           eq_refl eq_refl eq_refl eq_refl).
Defined.

(** ** [cleaning_methodology] as a whole *)

Lemma not_a_written_label label :
  label ∉ ["AgeBand"; "ThermalEra"; "GlazingPercent"; "Volume";
           "NoStoreys"; "UValueWall"; "UValueRoof"] →
  label ≠ "AgeBand" ∧ label ≠ "ThermalEra" ∧ label ≠ "GlazingPercent"
  ∧ label ≠ "Volume" ∧ label ≠ "NoStoreys" ∧ label ≠ "UValueWall"
  ∧ label ≠ "UValueRoof".
Proof. intros H. repeat split; intros ->; apply H; by_evaluation. Qed.

(** What the steps after the projection can add or rewrite. *)
Lemma add_desired_columns_shape (data_row derived : Series) :
  add_desired_columns data_row = Ok derived →
  ∃ band era glazing volume,
    derived
    = <["Volume" := VNum volume]>
        (<["GlazingPercent" := VNum glazing]>
           (<["ThermalEra" := VStr era]>
              (<["AgeBand" := VStr band]> data_row))).
Proof.
  unfold add_desired_columns. intros H.
  apply bind_Ok_inv in H as (r1 & H1 & H).
  apply bind_Ok_inv in H as (r2 & H2 & H).
  apply bind_Ok_inv in H as (r3 & H3 & H4).
  destruct (add_age_band_Ok_inv _ _ H1) as [year Hy].
  rewrite (add_age_band_spec _ _ Hy) in H1. injection H1 as <-.
  rewrite (add_thermal_era_spec _ year) in H2
    by (rewrite lookup_insert_ne; [exact Hy | discriminate]).
  injection H2 as <-.
  unfold add_glazing_percent in H3.
  apply bind_Ok_inv in H3 as (wall & _ & H3).
  apply bind_Ok_inv in H3 as (glazing & _ & H3). injection H3 as <-.
  unfold add_volume in H4.
  apply bind_Ok_inv in H4 as (area & _ & H4).
  apply bind_Ok_inv in H4 as (h0 & _ & H4).
  apply bind_Ok_inv in H4 as (h1 & _ & H4).
  apply bind_Ok_inv in H4 as (h2 & _ & H4).
  apply bind_Ok_inv in H4 as (h3 & _ & H4). injection H4 as <-.
  eauto.
Qed.

Lemma correct_column_data_shape (data_row corrected_row : Series) :
  correct_column_data data_row = Ok corrected_row →
  corrected_row = data_row
  ∨ ∃ storeys, corrected_row = <["NoStoreys" := VNum storeys]> data_row.
Proof.
  unfold correct_column_data. intros H.
  apply bind_Ok_inv in H as (raw & _ & H).
  destruct (Qlt_bool raw 4); [|injection H as <-; auto].
  apply bind_Ok_inv in H as (ones & _ & H). injection H as <-. eauto.
Qed.

(** The labels the steps after the projection write. *)
Lemma cleaning_methodology_frame (data_row cleaned : Series) :
  cleaning_methodology data_row = Ok cleaned →
  ∀ label,
    label ∉ ["AgeBand"; "ThermalEra"; "GlazingPercent"; "Volume";
             "NoStoreys"; "UValueWall"; "UValueRoof"] →
    cleaned !! label
    = if is_dropped label then None else data_row !! label.
Proof.
  unfold cleaning_methodology. intros H label Hlabel.
  apply bind_Ok_inv in H as (r1 & H1 & H).
  apply bind_Ok_inv in H as (r2 & H2 & H).
  apply bind_Ok_inv in H as (r3 & H3 & H). injection H as <-.
  destruct (find_and_replace_frame _ _ H3) as [Hframe _].
  destruct (not_a_written_label _ Hlabel)
    as (Ha & Ht & Hg & Hv & Hs & Hw & Hr).
  rewrite Hframe by assumption.
  apply add_desired_columns_shape in H1 as (band & era & g & vol & ->).
  rewrite <- drop_unwanted_columns_lookup.
  apply correct_column_data_shape in H2 as [->|[storeys ->]];
    rewrite !lookup_insert_ne by congruence; reflexivity.
Qed.

Lemma correct_column_data_total (data_row : Series) :
  is_num data_row "NoStoreys" = true →
  is_num data_row "FirstFloorHeight" = true →
  is_num data_row "SecondFloorHeight" = true →
  is_num data_row "ThirdFloorHeight" = true →
  is_Ok (correct_column_data data_row) = true.
Proof.
  intros Hs H1 H2 H3. unfold correct_column_data.
  rewrite (getnum_num _ _ Hs). cbn [mbind result_bind].
  destruct (Qlt_bool _ 4); [|reflexivity].
  unfold upper_floor_heights, ones_where.
  rewrite (getnum_num _ _ H1), (getnum_num _ _ H2), (getnum_num _ _ H3).
  reflexivity.
Qed.

Lemma find_and_replace_total (data_row : Series) :
  contains data_row "AgeBand" = true →
  contains data_row "FirstWallType_Description" = true →
  contains data_row "UValueWall" = true →
  contains data_row "UValueRoof" = true →
  is_Ok (find_and_replace data_row) = true.
Proof.
  intros Hb Hd Hw Hr.
  apply contains_lookup in Hb as [band Hb], Hd as [descr Hd],
    Hw as [wall Hw], Hr as [roof Hr].
  rewrite (find_and_replace_rules _ _ Hb).
  rewrite (apply_rules_spec _ _ descr wall roof
             (rules_of_band_no_cascade band) Hd Hw Hr).
  reflexivity.
Qed.

Lemma is_num_contains (data_row : Series) label :
  is_num data_row label = true → contains data_row label = true.
Proof.
  unfold is_num, contains.
  destruct (data_row !! label) as [[q|s]|]; first [reflexivity | discriminate].
Qed.

Lemma is_Ok_inv {A} (m : result A) : is_Ok m = true → ∃ a, m = Ok a.
Proof. destruct m; [eauto | discriminate]. Qed.

(** The stages of [cleaning_methodology] on a raw row with every column
    the pipeline reads. *)
Lemma cleaning_stages (data_row : Series) :
  raw_schema data_row = true →
  ∃ r1 r2 cleaned,
    add_desired_columns (drop_unwanted_columns data_row) = Ok r1
    ∧ correct_column_data r1 = Ok r2
    ∧ find_and_replace r2 = Ok cleaned
    ∧ cleaning_methodology data_row = Ok cleaned
    ∧ validation_schema cleaned = true
    ∧ Forall (λ label, contains cleaned label = true)
        ["AgeBand"; "ThermalEra"; "GlazingPercent"; "Volume"]
    ∧ (∀ label,
         label ∈ (derivation_columns ++ validation_columns)%list →
         is_num (drop_unwanted_columns data_row) label = true)
    ∧ Forall (λ label, contains r2 label = true)
        ["AgeBand"; "FirstWallType_Description"; "UValueWall";
         "UValueRoof"].
Proof.
  intros Hraw. unfold raw_schema in Hraw.
  rewrite !andb_true_iff, forallb_app in Hraw.
  rewrite andb_true_iff in Hraw. destruct Hraw as [[[Hder Hval] Hdw] Hdescr].
  rewrite forallb_forall in Hder, Hval.
  assert (Hkept : ∀ label,
            label ∈ "DwellingTypeDescr" :: "FirstWallType_Description"
                    :: derivation_columns ++ validation_columns →
            drop_unwanted_columns data_row !! label = data_row !! label).
  { intros label Hin. rewrite drop_unwanted_columns_lookup.
    assert (Hall : Forall (λ label, is_dropped label = false)
                     ("DwellingTypeDescr" :: "FirstWallType_Description"
                      :: derivation_columns ++ validation_columns))
      by by_evaluation.
    rewrite Forall_forall in Hall.
    rewrite (Hall label) by exact Hin. reflexivity. }
  set (r0 := drop_unwanted_columns data_row) in *.
  assert (Hnum0 : ∀ label,
            label ∈ (derivation_columns ++ validation_columns)%list →
            is_num r0 label = true).
  { intros label Hin. unfold is_num.
    rewrite Hkept by (right; right; exact Hin).
    apply elem_of_app in Hin as [Hin|Hin];
      [apply Hder | apply Hval]; apply list_elem_of_In, Hin. }
  assert (H1 : is_Ok (add_desired_columns r0) = true).
  { assert (Hlook0 : ∀ label,
              label ∈ (derivation_columns ++ validation_columns)%list →
              r0 !! label = Some (VNum (num r0 label)))
      by (intros label Hin; apply is_num_lookup, Hnum0, Hin).
    rewrite (add_desired_columns_spec r0 _ _ _ _ _ _ _ _
               (Hlook0 "Year_of_Construction" ltac:(by_evaluation))
               (Hlook0 "WallArea" ltac:(by_evaluation))
               (Hlook0 "WindowArea" ltac:(by_evaluation))
               (Hlook0 "GroundFloorArea(sq m)" ltac:(by_evaluation))
               (Hlook0 "GroundFloorHeight" ltac:(by_evaluation))
               (Hlook0 "FirstFloorHeight" ltac:(by_evaluation))
               (Hlook0 "SecondFloorHeight" ltac:(by_evaluation))
               (Hlook0 "ThirdFloorHeight" ltac:(by_evaluation))).
    reflexivity. }
  apply is_Ok_inv in H1 as [r1 H1].
  destruct (add_desired_columns_shape _ _ H1) as (band & era & g & vol & Hr1).
  assert (Hnum1 : ∀ label,
            label ∈ (derivation_columns ++ validation_columns)%list →
            is_num r1 label = true).
  { intros label Hin. rewrite Hr1.
    apply is_num_insert_num, is_num_insert_num.
    assert (Hne : Forall (λ label, label ≠ "AgeBand" ∧ label ≠ "ThermalEra")
                    (derivation_columns ++ validation_columns))
      by by_evaluation.
    rewrite Forall_forall in Hne.
    destruct (Hne label Hin) as [Ha Ht].
    rewrite !is_num_insert_ne by congruence. apply Hnum0, Hin. }
  assert (Hcont1 : ∀ label, contains r0 label = true →
                            contains r1 label = true).
  { intros label Hc. rewrite Hr1. repeat apply contains_insert. exact Hc. }
  assert (H2 : is_Ok (correct_column_data r1) = true).
  { apply correct_column_data_total; apply Hnum1; by_evaluation. }
  apply is_Ok_inv in H2 as [r2 H2].
  assert (Hstep2 : (∀ label, is_num r1 label = true → is_num r2 label = true)
                   ∧ (∀ label, contains r1 label = true →
                               contains r2 label = true)).
  { apply correct_column_data_shape in H2 as [->|[storeys ->]];
      [auto | split; intros; [apply is_num_insert_num | apply contains_insert];
              assumption]. }
  destruct Hstep2 as [Hnum2 Hcont2].
  assert (Hderived1 : Forall (λ label, contains r1 label = true)
                        ["AgeBand"; "ThermalEra"; "GlazingPercent"; "Volume"]).
  { rewrite Hr1. unfold contains.
    repeat constructor;
      (rewrite ?lookup_insert_ne by discriminate; rewrite lookup_insert_eq;
       reflexivity). }
  assert (Hcontains0 : contains r0 "DwellingTypeDescr" = true
                       ∧ contains r0 "FirstWallType_Description" = true).
  { unfold contains. rewrite !Hkept by by_evaluation. auto. }
  destruct Hcontains0 as [Hdw0 Hdescr0].
  assert (H3 : is_Ok (find_and_replace r2) = true).
  { rewrite Forall_forall in Hderived1.
    apply find_and_replace_total.
    - apply Hcont2, Hderived1. by_evaluation.
    - apply Hcont2, Hcont1, Hdescr0.
    - apply is_num_contains, Hnum2, Hnum1. by_evaluation.
    - apply is_num_contains, Hnum2, Hnum1. by_evaluation. }
  apply is_Ok_inv in H3 as [r3 H3].
  destruct (find_and_replace_frame _ _ H3) as [Hframe3 Hnum3].
  assert (Hclean : cleaning_methodology data_row = Ok r3).
  { unfold cleaning_methodology. fold r0. rewrite H1. cbn [mbind result_bind].
    rewrite H2. cbn [mbind result_bind]. rewrite H3. reflexivity. }
  assert (Hcont3 : ∀ label, label ≠ "UValueWall" → label ≠ "UValueRoof" →
                            contains r2 label = true →
                            contains r3 label = true).
  { intros label Hw Hr Hc. unfold contains. rewrite Hframe3 by assumption.
    exact Hc. }
  assert (Hschema : validation_schema r3 = true).
  { unfold validation_schema. rewrite !andb_true_iff. split; [split|].
    - apply forallb_forall. intros label Hin.
      apply Hnum3, Hnum2, Hnum1, elem_of_app. right.
      apply list_elem_of_In, Hin.
    - apply Hcont3; [discriminate..|]. apply Hcont2, Hcont1, Hdw0.
    - apply Hcont3; [discriminate..|]. apply Hcont2.
      rewrite Forall_forall in Hderived1. apply Hderived1. by_evaluation. }
  exists r1, r2, r3.
  split; [exact H1|]. split; [exact H2|]. split; [exact H3|].
  split; [exact Hclean|]. split; [exact Hschema|].
  split.
  { rewrite Forall_forall in Hderived1. apply Forall_forall.
    intros label Hin.
    apply Hcont3; [intros ->; revert Hin; by_evaluation..|].
    apply Hcont2, Hderived1, Hin. }
  split; [exact Hnum0|].
  rewrite Forall_forall in Hderived1.
  repeat constructor.
  - apply Hcont2, Hderived1. by_evaluation.
  - apply Hcont2, Hcont1, Hdescr0.
  - apply is_num_contains, Hnum2, Hnum1. by_evaluation.
  - apply is_num_contains, Hnum2, Hnum1. by_evaluation.
Qed.

(** X8. A raw row that has every column the pipeline reads goes through
    [cleaning_methodology] and then through [filter_by_criteria] without
    an exception.  The cleaned row has the four derived columns, has none
    of the dropped columns, and apart from the derived columns, the storey
    count and the wall and roof U-values its cells are those of the raw
    row. *)
Theorem cleaning_then_validation_total (now_year : Z) (data_row : Series) :
  raw_schema data_row = true →
  ∃ cleaned,
    cleaning_methodology data_row = Ok cleaned
    ∧ validation_schema cleaned = true
    ∧ filter_by_criteria now_year cleaned = Ok (excluded now_year cleaned)
    ∧ Forall (λ label, contains cleaned label = true)
        ["AgeBand"; "ThermalEra"; "GlazingPercent"; "Volume"]
    ∧ (∀ label, is_dropped label = true → cleaned !! label = None)
    ∧ (∀ label,
         label ∉ ["AgeBand"; "ThermalEra"; "GlazingPercent"; "Volume";
                  "NoStoreys"; "UValueWall"; "UValueRoof"] →
         is_dropped label = false →
         cleaned !! label = data_row !! label).
Proof.
  intros Hraw.
  destruct (cleaning_stages _ Hraw)
    as (r1 & r2 & cleaned & _ & _ & _ & Hclean & Hschema & Hderived & _).
  exists cleaned. split; [exact Hclean|]. split; [exact Hschema|].
  split; [apply filter_by_criteria_spec, Hschema|].
  split; [exact Hderived|]. split.
  - intros label Hd.
    assert (Hnot : label ∉ ["AgeBand"; "ThermalEra"; "GlazingPercent";
                            "Volume"; "NoStoreys"; "UValueWall";
                            "UValueRoof"]).
    { intros Hin. revert Hd.
      repeat (apply elem_of_cons in Hin as [->|Hin]; [discriminate|]).
      apply elem_of_nil in Hin. contradiction. }
    rewrite (cleaning_methodology_frame _ _ Hclean label Hnot), Hd.
    reflexivity.
  - intros label Hnot Hd.
    rewrite (cleaning_methodology_frame _ _ Hclean label Hnot), Hd.
    reflexivity.
Qed.

Lemma cleaning_then_validation_total_witness :
  raw_schema detached_1970 = true
  ∧ ∃ cleaned,
      cleaning_methodology detached_1970 = Ok cleaned
      ∧ validation_schema cleaned = true
      ∧ filter_by_criteria 2024 cleaned = Ok (excluded 2024 cleaned)
      ∧ Forall (λ label, contains cleaned label = true)
          ["AgeBand"; "ThermalEra"; "GlazingPercent"; "Volume"]
      ∧ (∀ label, is_dropped label = true → cleaned !! label = None)
      ∧ (∀ label,
           label ∉ ["AgeBand"; "ThermalEra"; "GlazingPercent"; "Volume";
                    "NoStoreys"; "UValueWall"; "UValueRoof"] →
           is_dropped label = false →
           cleaned !! label = detached_1970 !! label).
Proof.
  assert (Hraw : raw_schema detached_1970 = true) by (vm_compute; reflexivity).
  split; [exact Hraw|].
  exact (cleaning_then_validation_total 2024 detached_1970 Hraw).
Defined.

(** ** [filter_by_criteria] once more *)

Lemma zero_or_two_ranges_iff lo1 hi1 lo2 hi2 x :
  zero_or_two_ranges lo1 hi1 lo2 hi2 x = true
  ↔ (x == 0 ∨ (lo1 <= x ∧ x <= hi1) ∨ (lo2 <= x ∧ x <= hi2))%Q.
Proof.
  unfold zero_or_two_ranges.
  rewrite !orb_true_iff, !andb_true_iff, !Qle_bool_iff, Qeq_bool_iff. tauto.
Qed.

Lemma negb_false_true b : negb b = false ↔ b = true.
Proof. destruct b; split; first [reflexivity | discriminate]. Qed.

(** X9. On a row with the columns it reads, [filter_by_criteria] returns
    [False] exactly when every rule holds: the construction year is not
    after the current year, the ground floor height is 0 or within
    [2.30, 3.46], one of the three rating words is a column label, the two
    system efficiencies are each 0 or within one of their two ranges, and
    neither the dwelling type rules nor the era rules are violated.  In
    every other case it returns [True]. *)
Theorem filter_by_criteria_false_iff (now_year : Z) (data_row : Series) :
  validation_schema data_row = true →
  (filter_by_criteria now_year data_row = Ok false
   ↔ (num data_row "Year_of_Construction" <= inject_Z now_year)%Q
     ∧ (num data_row "GroundFloorHeight" == 0
        ∨ (2.30 <= num data_row "GroundFloorHeight"
           ∧ num data_row "GroundFloorHeight" <= 3.46))%Q
     ∧ (∃ label, label ∈ allowed_substrings
                 ∧ is_Some (data_row !! label))
     ∧ (num data_row "HSMainSystemEfficiency" == 0
        ∨ (23.07 <= num data_row "HSMainSystemEfficiency"
           ∧ num data_row "HSMainSystemEfficiency" <= 95.90)
        ∨ (100 <= num data_row "HSMainSystemEfficiency"
           ∧ num data_row "HSMainSystemEfficiency" <= 635.34))%Q
     ∧ (num data_row "WHMainSystemEff" == 0
        ∨ (24 <= num data_row "WHMainSystemEff"
           ∧ num data_row "WHMainSystemEff" <= 95.90)
        ∨ (100 <= num data_row "WHMainSystemEff"
           ∧ num data_row "WHMainSystemEff" <= 389.9))%Q
     ∧ category_flag data_row = false
     ∧ era_flag data_row = false)
  ∧ (filter_by_criteria now_year data_row ≠ Ok false →
     filter_by_criteria now_year data_row = Ok true).
Proof.
  intros Hs. rewrite (filter_by_criteria_spec _ _ Hs). split.
  - unfold excluded, global_flag.
    set (year := num data_row "Year_of_Construction").
    set (height := num data_row "GroundFloorHeight").
    set (hs := num data_row "HSMainSystemEfficiency").
    set (wh := num data_row "WHMainSystemEff").
    assert (H1 : Qlt_bool (inject_Z now_year) year = false
                 ↔ (year <= inject_Z now_year)%Q).
    { unfold Qlt_bool. rewrite negb_false_true. apply Qle_bool_iff. }
    assert (H2 : out_of_range data_row
                   (ClosedOrZero 2.30 "GroundFloorHeight" 3.46) = false
                 ↔ (height == 0 ∨ (2.30 <= height ∧ height <= 3.46))%Q).
    { unfold out_of_range. cbn [checked_column]. fold height.
      rewrite negb_false_true. apply in_range_ClosedOrZero. }
    assert (H3 : negb (existsb (contains data_row) allowed_substrings) = false
                 ↔ ∃ label, label ∈ allowed_substrings
                            ∧ is_Some (data_row !! label)).
    { rewrite negb_false_true, existsb_exists. split.
      - intros (label & Hin & Hc). exists label.
        split; [apply list_elem_of_In, Hin|].
        apply contains_lookup in Hc as [v Hv]. rewrite Hv. eauto.
      - intros (label & Hin & [v Hv]). exists label.
        split; [apply list_elem_of_In, Hin|].
        unfold contains. rewrite Hv. reflexivity. }
    assert (H4 : negb (zero_or_two_ranges 23.07 95.90 100 635.34 hs) = false
                 ↔ (hs == 0 ∨ (23.07 <= hs ∧ hs <= 95.90)
                    ∨ (100 <= hs ∧ hs <= 635.34))%Q).
    { rewrite negb_false_true. apply zero_or_two_ranges_iff. }
    assert (H5 : negb (zero_or_two_ranges 24 95.90 100 389.9 wh) = false
                 ↔ (wh == 0 ∨ (24 <= wh ∧ wh <= 95.90)
                    ∨ (100 <= wh ∧ wh <= 389.9))%Q).
    { rewrite negb_false_true. apply zero_or_two_ranges_iff. }
    split.
    + intros [= H]. rewrite !orb_false_iff in H.
      destruct H as [[[[[[Ha Hb] Hc] Hd] He] Hcat] Hera].
      split; [apply H1, Ha|]. split; [apply H2, Hb|].
      split; [apply H3, Hc|]. split; [apply H4, Hd|].
      split; [apply H5, He|]. split; assumption.
    + intros (P1 & P2 & P3 & P4 & P5 & Hcat & Hera).
      apply H1 in P1. apply H2 in P2. apply H3 in P3. apply H4 in P4.
      apply H5 in P5.
      rewrite P1, P2, P3, P4, P5, Hcat, Hera. reflexivity.
  - destruct (excluded now_year data_row); [reflexivity | congruence].
Qed.

Lemma filter_by_criteria_false_iff_witness :
  validation_schema
    (<["Final" := VNum 0]> detached_1970_derived) = true
  ∧ filter_by_criteria 2024 (<["Final" := VNum 0]> detached_1970_derived)
    = Ok false
  ∧ filter_by_criteria 1969 (<["Final" := VNum 0]> detached_1970_derived)
    = Ok true.
Proof.
  assert (Hs : validation_schema
                 (<["Final" := VNum 0]> detached_1970_derived) = true)
    by (vm_compute; reflexivity).
  split; [exact Hs|]. split.
  - apply (proj1 (filter_by_criteria_false_iff 2024 _ Hs)).
    split; [vm_compute; discriminate|].
    split; [right; split; vm_compute; discriminate|].
    split; [exists "Final"; split; [by_evaluation | eexists; reflexivity]|].
    split; [right; left; split; vm_compute; discriminate|].
    split; [right; left; split; vm_compute; discriminate|].
    split; vm_compute; reflexivity.
  - apply (proj2 (filter_by_criteria_false_iff 1969 _ Hs)).
    vm_compute. discriminate.
Defined.

(** X10. For a row of the era [Post] that has the columns the function
    reads: a wall U-value outside [0.14, 1.72], and 0 in particular, makes
    [filter_by_criteria] return [True]; the era clauses leave the flag
    down exactly when door, window, roof and floor U-values are each 0 or
    inside their [Post] range and the wall U-value is inside
    [0.14, 1.72]. *)
Theorem post_era_rules (now_year : Z) (data_row : Series)
  (door window roof floor wall : Q) :
  validation_schema data_row = true →
  data_row !! "ThermalEra" = Some (VStr "Post") →
  data_row !! "UvalueDoor" = Some (VNum door) →
  data_row !! "UValueWindow" = Some (VNum window) →
  data_row !! "UValueRoof" = Some (VNum roof) →
  data_row !! "UValueFloor" = Some (VNum floor) →
  data_row !! "UValueWall" = Some (VNum wall) →
  (¬ (0.14 <= wall ∧ wall <= 1.72)%Q →
   filter_by_criteria now_year data_row = Ok true)
  ∧ (clauses_17_18 data_row false = Ok false
     ↔ ((door == 0 ∨ (0.83 <= door ∧ door <= 3.54))
        ∧ (window == 0 ∨ (0.77 <= window ∧ window <= 4.80))
        ∧ (roof == 0 ∨ (0.11 <= roof ∧ roof <= 0.68))
        ∧ (floor == 0 ∨ (0.11 <= floor ∧ floor <= 1.14))
        ∧ (0.14 <= wall ∧ wall <= 1.72))%Q).
Proof.
  intros Hs Hera Hdoor Hwindow Hroof Hfloor Hwall.
  assert (Hflag : era_flag data_row
                  = negb (in_range (ClosedOrZero 0.83 "UvalueDoor" 3.54) door)
                    || negb (in_range (ClosedOrZero 0.77 "UValueWindow" 4.80)
                               window)
                    || negb (in_range (ClosedOrZero 0.11 "UValueRoof" 0.68)
                               roof)
                    || negb (in_range (ClosedOrZero 0.11 "UValueFloor" 1.14)
                               floor)
                    || negb (in_range (Closed 0.14 "UValueWall" 1.72) wall)).
  { unfold era_flag. rewrite Hera. cbn [eq_str String.eqb Ascii.eqb Bool.eqb].
    unfold post_checks, existsb, out_of_range. cbn [checked_column].
    rewrite (num_lookup _ _ _ Hdoor), (num_lookup _ _ _ Hwindow),
      (num_lookup _ _ _ Hroof), (num_lookup _ _ _ Hfloor),
      (num_lookup _ _ _ Hwall), orb_false_r, !orb_assoc.
    reflexivity. }
  split.
  - intros Hwrong. rewrite (filter_by_criteria_spec _ _ Hs).
    unfold excluded. rewrite Hflag.
    destruct (in_range (Closed 0.14 "UValueWall" 1.72) wall) eqn:Hin.
    + apply in_range_Closed in Hin. contradiction.
    + cbn [negb]. rewrite !orb_true_r. reflexivity.
  - rewrite (clauses_17_18_spec _ _ Hs), Hflag. cbn [orb].
    rewrite <- (in_range_Closed 0.14 "UValueWall" 1.72 wall),
      <- (in_range_ClosedOrZero 0.83 "UvalueDoor" 3.54 door),
      <- (in_range_ClosedOrZero 0.77 "UValueWindow" 4.80 window),
      <- (in_range_ClosedOrZero 0.11 "UValueRoof" 0.68 roof),
      <- (in_range_ClosedOrZero 0.11 "UValueFloor" 1.14 floor).
    destruct (in_range (ClosedOrZero 0.83 "UvalueDoor" 3.54) door),
      (in_range (ClosedOrZero 0.77 "UValueWindow" 4.80) window),
      (in_range (ClosedOrZero 0.11 "UValueRoof" 0.68) roof),
      (in_range (ClosedOrZero 0.11 "UValueFloor" 1.14) floor),
      (in_range (Closed 0.14 "UValueWall" 1.72) wall); cbn;
      split; first [reflexivity | discriminate | tauto | intuition discriminate].
Qed.

Lemma post_era_rules_witness :
  validation_schema post_1990 = true
  ∧ filter_by_criteria 2024 post_1990 = Ok true
  ∧ clauses_17_18 (<["UValueWall" := VNum 0.5]> post_1990) false = Ok false.
Proof.
  assert (Hs : validation_schema post_1990 = true) by (vm_compute; reflexivity).
  split; [exact Hs|]. split.
  - refine (proj1 (post_era_rules 2024 post_1990 3.0 2.8 0.4 0.5 0
                     Hs _ _ _ _ _ _) _);
      [reflexivity.. | intros [Hlo _]; exact (Hlo eq_refl)].
  - refine (proj2 (proj2 (post_era_rules 2024
                            (<["UValueWall" := VNum 0.5]> post_1990)
                            3.0 2.8 0.4 0.5 0.5 _ _ _ _ _ _ _)) _);
      [vm_compute; reflexivity | reflexivity..
      | repeat split; first [right; split; discriminate | discriminate]].
Defined.

Lemma clauses_6_16_numeric (data_row : Series) descr exclude_row :
  forallb (is_num data_row) validation_columns = true →
  data_row !! "DwellingTypeDescr" = Some descr →
  clauses_6_16 data_row exclude_row
  = Ok (exclude_row || category_flag data_row).
Proof.
  intros Hnum Hd. rewrite forallb_forall in Hnum.
  unfold clauses_6_16, category_flag. rewrite (get_Some _ _ _ Hd), Hd, bind_Ok.
  destruct (find _ dwelling_cases) as [[name checks]|] eqn:Hfind.
  - apply find_some in Hfind as [Hin _].
    apply apply_checks_spec, forallb_forall. intros c Hc.
    pose proof dwelling_cases_columns as Hcols.
    rewrite Forall_forall in Hcols.
    specialize (Hcols (name, checks) (proj2 (list_elem_of_In _ _) Hin)).
    cbn [snd] in Hcols. rewrite Forall_forall in Hcols.
    apply Hnum, list_elem_of_In, Hcols, list_elem_of_In, Hc.
  - rewrite orb_false_r. reflexivity.
Qed.

(** X11. [filter_by_criteria] needs the column [ThermalEra] that
    [add_desired_columns] sets: on a row that has every other column it
    reads but no thermal era, as a raw row of the file has, it raises
    [KeyError] for that column, whatever the other cells hold. *)
Theorem filter_by_criteria_needs_cleaning (now_year : Z)
  (data_row : Series) :
  forallb (is_num data_row) validation_columns = true →
  contains data_row "DwellingTypeDescr" = true →
  data_row !! "ThermalEra" = None →
  filter_by_criteria now_year data_row = Raise (KeyError "ThermalEra").
Proof.
  intros Hnum Hd Hera. pose proof Hnum as Hall.
  rewrite forallb_forall in Hall.
  apply contains_lookup in Hd as [descr Hd].
  unfold filter_by_criteria, clause_1, clause_2, clause_4, clause_5.
  rewrite (getnum_num _ "Year_of_Construction")
    by (apply Hall, list_elem_of_In; by_evaluation).
  cbn [mbind result_bind].
  rewrite apply_check_spec
    by (apply Hall, list_elem_of_In; by_evaluation).
  cbn [mbind result_bind].
  rewrite (getnum_num _ "HSMainSystemEfficiency")
    by (apply Hall, list_elem_of_In; by_evaluation).
  cbn [mbind result_bind].
  rewrite (getnum_num _ "WHMainSystemEff")
    by (apply Hall, list_elem_of_In; by_evaluation).
  cbn [mbind result_bind].
  rewrite (clauses_6_16_numeric _ descr _ Hnum Hd). cbn [mbind result_bind].
  unfold clauses_17_18, get. rewrite Hera. reflexivity.
Qed.

Lemma filter_by_criteria_needs_cleaning_witness :
  filter_by_criteria 2024 detached_1970 = Raise (KeyError "ThermalEra").
Proof.
  apply (filter_by_criteria_needs_cleaning 2024 detached_1970);
    [vm_compute; reflexivity | vm_compute; reflexivity | reflexivity].
Defined.

Lemma flag_unless_true ok : flag_unless ok true = true.
Proof. destruct ok; reflexivity. Qed.

Lemma apply_checks_keep_true (data_row : Series) checks flag :
  for_each (apply_check data_row) checks true = Ok flag → flag = true.
Proof.
  induction checks as [|c checks IH]; cbn [for_each]; intros H.
  - congruence.
  - apply bind_Ok_inv in H as (e & He & H). unfold apply_check in He.
    apply bind_Ok_inv in He as (x & _ & He).
    rewrite flag_unless_true in He. injection He as <-. apply IH, H.
Qed.

(** Once clause 3 has raised the flag, no later clause lowers it. *)
Lemma filter_by_criteria_without_rating_label now_year (data_row : Series)
  flag :
  no_rating_label data_row = true →
  filter_by_criteria now_year data_row = Ok flag →
  flag = true.
Proof.
  unfold no_rating_label, filter_by_criteria. intros Hno H.
  apply bind_Ok_inv in H as (e1 & _ & H).
  apply bind_Ok_inv in H as (e2 & _ & H).
  assert (H3 : clause_3 data_row e2 = true).
  { unfold clause_3. apply negb_true_iff in Hno.
    change (existsb (λ allowed_substring, contains data_row allowed_substring)
              allowed_substrings)
      with (existsb (contains data_row) allowed_substrings).
    rewrite Hno. reflexivity. }
  rewrite H3 in H.
  apply bind_Ok_inv in H as (e4 & H4 & H).
  unfold clause_4 in H4. apply bind_Ok_inv in H4 as (x4 & _ & H4).
  rewrite flag_unless_true in H4. injection H4 as <-.
  apply bind_Ok_inv in H as (e5 & H5 & H).
  unfold clause_5 in H5. apply bind_Ok_inv in H5 as (x5 & _ & H5).
  rewrite flag_unless_true in H5. injection H5 as <-.
  apply bind_Ok_inv in H as (e6 & H6 & H).
  assert (He6 : e6 = true).
  { unfold clauses_6_16 in H6. apply bind_Ok_inv in H6 as (descr & _ & H6).
    destruct (find _ dwelling_cases) as [[name checks]|];
      [apply (apply_checks_keep_true _ _ _ H6) | congruence]. }
  subst e6.
  apply bind_Ok_inv in H as (e7 & H7 & H). injection H as <-.
  unfold clauses_17_18 in H7. apply bind_Ok_inv in H7 as (era & _ & H7).
  destruct (eq_str era "Pre");
    [apply (apply_checks_keep_true _ _ _ H7)|].
  apply bind_Ok_inv in H7 as (era' & _ & H7).
  destruct (eq_str era' "Post");
    [apply (apply_checks_keep_true _ _ _ H7) | congruence].
Qed.

(** ** [process_csv_file] once more *)

Lemma no_rating_label_lookups (data_row : Series) :
  no_rating_label data_row = true
  ↔ data_row !! "Final" = None ∧ data_row !! "Existing" = None
    ∧ data_row !! "Provisional" = None.
Proof.
  unfold no_rating_label, allowed_substrings, existsb, contains.
  destruct (data_row !! "Final"), (data_row !! "Existing"),
    (data_row !! "Provisional"); cbn;
    split; first [intros H; discriminate H | intros (? & ? & ?); discriminate
                 | auto].
Qed.

Lemma cleaning_keeps_no_rating_label (data_row cleaned : Series) :
  cleaning_methodology data_row = Ok cleaned →
  no_rating_label data_row = true →
  no_rating_label cleaned = true.
Proof.
  intros Hc. rewrite !no_rating_label_lookups. intros (H1 & H2 & H3).
  rewrite !(cleaning_methodology_frame _ _ Hc) by by_evaluation.
  cbn. auto.
Qed.

Lemma written_rows_all now_year rows :
  all_rows_ok now_year rows = true →
  forallb no_rating_label rows = true →
  written_rows now_year rows = cleaned_rows rows
  ∧ length (cleaned_rows rows) = length rows.
Proof.
  induction rows as [|data_row rows IH]; intros Hok Hno; [auto|].
  cbn [all_rows_ok forallb] in Hok, Hno.
  apply andb_true_iff in Hok as [Hrow Hok], Hno as [Hrow_no Hno].
  destruct (IH Hok Hno) as [IHw IHl].
  destruct (clean_and_flag_Ok _ _ Hrow) as (c & flag & Hclean & Hflag & Hcf).
  assert (flag = true) as ->.
  { apply (filter_by_criteria_without_rating_label now_year c);
      [apply (cleaning_keeps_no_rating_label data_row); assumption
      | exact Hflag]. }
  unfold written_rows, cleaned_rows. cbn [flat_map].
  rewrite Hcf, Hclean.
  fold (written_rows now_year rows). fold (cleaned_rows rows).
  rewrite IHw. split; [reflexivity|]. cbn. rewrite IHl. reflexivity.
Qed.

Lemma contains_typed_line (chunk : list Line) (line : Line) label :
  contains (typed_line chunk line) label = contains (read_cells line) label.
Proof.
  unfold contains, typed_line, read_cells.
  rewrite map_lookup_imap, lookup_fmap.
  destruct (line !! label); reflexivity.
Qed.

(** Every row the reader hands over is a line of the file, typed in the
    chunk it belongs to. *)
Lemma elem_of_typed_rows (chunk_size : nat) (lines : list Line)
  (data_row : Series) :
  (0 < chunk_size)%nat →
  data_row ∈ typed_rows chunk_size lines →
  ∃ chunk line, line ∈ lines ∧ data_row = typed_line chunk line.
Proof.
  intros Hsize. unfold typed_rows.
  pose proof (chunked_concat chunk_size (enumerate lines) Hsize) as Hcat.
  assert (Hsub : ∀ numbered,
            numbered ∈ concat (chunked chunk_size (enumerate lines)) →
            numbered.2 ∈ lines).
  { intros numbered Hin. rewrite Hcat in Hin.
    rewrite <- (enumerate_snd lines). apply list_elem_of_fmap.
    exists numbered. split; [reflexivity | exact Hin]. }
  clear Hcat. revert Hsub.
  induction (chunked chunk_size (enumerate lines)) as [|chunk chunks IH];
    intros Hsub Hin; [apply elem_of_nil in Hin; contradiction|].
  rewrite fmap_cons in Hin. cbn [concat] in Hin, Hsub.
  rewrite fmap_app, elem_of_app in Hin. destruct Hin as [Hin|Hin].
  - unfold typed_chunk in Hin. rewrite <- list_fmap_compose in Hin.
    apply list_elem_of_fmap in Hin as (numbered & -> & Hin).
    exists chunk.*2, numbered.2. split; [|reflexivity].
    apply Hsub, elem_of_app. left. exact Hin.
  - apply IH; [|exact Hin].
    intros numbered Hn. apply Hsub, elem_of_app. right. exact Hn.
Qed.

Lemma typed_rows_length (chunk_size : nat) (lines : list Line) :
  (0 < chunk_size)%nat →
  length (typed_rows chunk_size lines) = length lines.
Proof.
  intros Hsize. unfold typed_rows.
  rewrite length_fmap, <- (length_fmap fst), typed_chunks_fst,
    chunked_concat, enumerate_fst, length_seq by exact Hsize.
  reflexivity.
Qed.

(** X12. On a table in which no column is labelled [Final], [Existing]
    or [Provisional], a well-configured run in which every row goes
    through writes every cleaned row: clause 3 flags each row, no later
    clause lowers the flag, and the flagged rows are the ones kept, so
    the output has as many rows as the input. *)
Theorem nothing_filtered_without_rating_column file_of number_format
  (now_year : Z) (input output : string) (chunk_size : nat) (w : world)
  (lines : list Line) :
  endswith input ".csv" = true →
  endswith output ".csv" = true →
  file_of input ≠ file_of output →
  (0 < chunk_size)%nat →
  files w !! file_of input = Some lines →
  all_rows_ok now_year (typed_rows chunk_size lines) = true →
  forallb (λ line, no_rating_label (read_cells line)) lines = true →
  file_after (process_csv_file file_of number_format now_year input output
                chunk_size w) (file_of output)
  = Some (cleaned_rows (typed_rows chunk_size lines))
  ∧ length (cleaned_rows (typed_rows chunk_size lines)) = length lines.
Proof.
  intros Hin Hout Hne Hsize Hfile Hok Hno.
  destruct (process_csv_file_run file_of number_format now_year input
              output chunk_size w lines)
    as [_ Hafter]; try assumption; [apply (file_of_ne file_of), Hne|].
  assert (Hno' : forallb no_rating_label (typed_rows chunk_size lines)
                 = true).
  { rewrite forallb_forall in Hno. apply forallb_forall.
    intros data_row Hrow. apply list_elem_of_In in Hrow.
    apply elem_of_typed_rows in Hrow as (chunk & line & Hline & ->);
      [|exact Hsize].
    specialize (Hno line (proj1 (list_elem_of_In _ _) Hline)).
    unfold no_rating_label, allowed_substrings, existsb in *.
    rewrite !contains_typed_line. exact Hno. }
  destruct (written_rows_all _ _ Hok Hno') as [Hw Hl].
  rewrite (Hafter Hok), Hw, Hl, typed_rows_length by exact Hsize. auto.
Qed.

Lemma nothing_filtered_without_rating_column_witness :
  file_after
    (process_csv_file plain_path no_digits 2024 "in.csv" "out.csv" 1
       plain_world) "out.csv"
  = Some (cleaned_rows
            (typed_rows 1 [detached_line; detached_line; detached_line]))
  ∧ length (cleaned_rows
              (typed_rows 1 [detached_line; detached_line; detached_line]))
    = 3%nat.
Proof.
  apply (nothing_filtered_without_rating_column plain_path no_digits 2024
           "in.csv" "out.csv" 1 plain_world
           [detached_line; detached_line; detached_line]);
    [vm_compute; reflexivity | vm_compute; reflexivity | discriminate
    | lia | reflexivity | vm_compute; reflexivity | vm_compute; reflexivity].
Defined.

Lemma process_chunks_other_files file_of number_format now_year out chunks :
  ∀ first_write (w : world) file,
    file ≠ file_of out →
    files (process_chunks file_of number_format now_year out chunks
             first_write w).2 !! file
    = files w !! file.
Proof.
  induction chunks as [|chunk rest IH]; intros first_write w file Hne;
    [reflexivity|].
  cbn [process_chunks].
  destruct (apply_rows cleaning_methodology chunk) as [cleaned|e];
    [|reflexivity].
  destruct (ids_where (filter_by_criteria now_year) cleaned) as [items|e];
    [|reflexivity].
  rewrite IH by exact Hne. unfold to_csv. cbn [files].
  apply lookup_insert_ne. congruence.
Qed.

(** X13. Whatever the arguments, the files and the rows are, and whether
    the run returns or raises, [process_csv_file] writes to no file but
    the one its output path names.  The input file is left as it was
    when the two paths name different files, and when they are the same
    path. *)
Theorem only_the_output_file_is_written file_of number_format
  (now_year : Z) (input output : string) (chunk_size : nat) (w : world) :
  (∀ file, file ≠ file_of output →
           files (process_csv_file file_of number_format now_year input
                    output chunk_size w).2 !! file
           = files w !! file)
  ∧ (file_of input ≠ file_of output ∨ input = output →
     files (process_csv_file file_of number_format now_year input output
              chunk_size w).2 !! file_of input
     = files w !! file_of input).
Proof.
  assert (Hother : ∀ file, file ≠ file_of output →
            files (process_csv_file file_of number_format now_year input
                     output chunk_size w).2 !! file
            = files w !! file).
  { intros file Hne. unfold process_csv_file, read_csv.
    destruct (negb (endswith input ".csv") || negb (endswith output ".csv"));
      [reflexivity|].
    destruct (String.eqb input output); [reflexivity|].
    destruct (Nat.eqb chunk_size 0); [reflexivity|].
    destruct (files w !! file_of input) as [lines|]; [|reflexivity].
    rewrite process_chunks_other_files by exact Hne. reflexivity. }
  split; [exact Hother|].
  intros [Hne| ->]; [apply Hother, Hne|].
  unfold process_csv_file.
  destruct (negb (endswith output ".csv") || negb (endswith output ".csv"));
    [reflexivity|].
  rewrite String.eqb_refl. reflexivity.
Qed.

Lemma written_rows_concat now_year (chunks : list DataFrame) :
  concat (map (λ chunk : DataFrame, written_rows now_year chunk.*2) chunks)
  = written_rows now_year (concat chunks).*2.
Proof.
  induction chunks as [|chunk rest IH]; [reflexivity|].
  cbn [map concat]. rewrite IH, fmap_app, written_rows_app. reflexivity.
Qed.

Lemma process_chunks_append_log file_of number_format now_year out chunks :
  ∀ (w : world),
    NoDup (concat chunks).*1 →
    all_rows_ok now_year (concat chunks).*2 = true →
    log (process_chunks file_of number_format now_year out chunks false w).2
    = (log w
       ++ map (λ chunk : DataFrame,
                 ToCsv out ModeA false (written_rows now_year chunk.*2))
            chunks)%list.
Proof.
  induction chunks as [|chunk rest IH]; intros w Hnd Hok.
  - cbn. rewrite app_nil_r. reflexivity.
  - cbn [concat] in Hnd, Hok. rewrite fmap_app in Hnd. rewrite fmap_app in Hok.
    apply NoDup_app in Hnd as (Hnd1 & _ & Hnd2).
    rewrite all_rows_ok_app in Hok. apply andb_true_iff in Hok as [Hok1 Hok2].
    destruct (chunk_ok _ _ Hnd1 Hok1) as (cleaned & items & Hc & Hi & _ & _ & Hw).
    cbn [process_chunks map]. rewrite Hc, Hi, (IH _ Hnd2 Hok2).
    unfold to_csv. cbn [log]. rewrite Hw, <- app_assoc. reflexivity.
Qed.

(** X14. On a well-configured run in which every row goes through, the
    file operations are, in order: one read of the input, one write of
    the first chunk with mode 'w' and a header, and one write per later
    chunk with mode 'a' and no header.  The rows of these writes, put end
    to end, are the rows of the output file. *)
Theorem header_written_once file_of number_format (now_year : Z)
  (input output : string) (chunk_size : nat) (w : world)
  (lines : list Line) :
  endswith input ".csv" = true →
  endswith output ".csv" = true →
  file_of input ≠ file_of output →
  (0 < chunk_size)%nat →
  files w !! file_of input = Some lines →
  all_rows_ok now_year (typed_rows chunk_size lines) = true →
  ∃ first rest,
    log (process_csv_file file_of number_format now_year input output
           chunk_size w).2
    = (log w ++ ReadCsv input chunk_size
               :: ToCsv output ModeW true first
               :: map (ToCsv output ModeA false) rest)%list
    ∧ (first ++ concat rest)%list
      = written_rows now_year (typed_rows chunk_size lines)
    ∧ file_after (process_csv_file file_of number_format now_year input
                    output chunk_size w) (file_of output)
      = Some (first ++ concat rest)%list
    ∧ S (length rest) = length (chunked chunk_size (enumerate lines)).
Proof.
  intros Hin Hout Hne Hsize Hfile Hok.
  destruct (process_csv_file_run file_of number_format now_year input
              output chunk_size w lines)
    as [_ Hafter]; try assumption; [apply (file_of_ne file_of), Hne|].
  specialize (Hafter Hok). revert Hafter Hok.
  unfold process_csv_file, read_csv, typed_rows.
  rewrite Hin, Hout. cbn [negb orb].
  rewrite (proj2 (String.eqb_neq input output)
             (file_of_ne file_of _ _ Hne)).
  destruct chunk_size as [|k]; [lia|]. cbn [Nat.eqb]. rewrite Hfile.
  set (w' := World (files w) (log w ++ [ReadCsv input (S k)])).
  pose proof (chunked_concat (S k) (enumerate lines) Hsize) as Hcat.
  pose proof (chunked_nonempty (S k) (enumerate lines)) as Hne'.
  destruct (chunked (S k) (enumerate lines)) as [|chunk rest]; [congruence|].
  rewrite fmap_cons. intros Hafter Hok.
  assert (Hnd : NoDup (concat (typed_chunk chunk :: (typed_chunk <$> rest))).*1).
  { rewrite <- fmap_cons, typed_chunks_fst, Hcat. apply enumerate_NoDup. }
  pose proof Hok as Hok'.
  cbn [concat] in Hnd, Hok'. rewrite fmap_app in Hnd. rewrite fmap_app in Hok'.
  apply NoDup_app in Hnd as (Hnd1 & _ & Hnd2).
  rewrite all_rows_ok_app in Hok'. apply andb_true_iff in Hok' as [Hok1 Hok2].
  destruct (chunk_ok _ _ Hnd1 Hok1) as (cleaned & items & Hc & Hi & _ & _ & Hw).
  exists (written_rows now_year (typed_chunk chunk).*2),
    (map (λ chunk : DataFrame, written_rows now_year chunk.*2)
       (typed_chunk <$> rest)).
  assert (Hrows : (written_rows now_year (typed_chunk chunk).*2
                   ++ concat (map (λ chunk : DataFrame,
                                     written_rows now_year chunk.*2)
                                (typed_chunk <$> rest)))%list
                  = written_rows now_year
                      (concat (typed_chunk chunk :: (typed_chunk <$> rest))).*2).
  { rewrite written_rows_concat, <- written_rows_app, <- fmap_app.
    reflexivity. }
  split; [|split; [exact Hrows|split]].
  - cbn [process_chunks]. rewrite Hc, Hi.
    rewrite (process_chunks_append_log _ _ _ _ _ _ Hnd2 Hok2).
    unfold to_csv, w'. cbn [log]. rewrite Hw, <- !app_assoc.
    cbn [app]. do 3 f_equal. clear.
    induction rest as [|chunk' rest IH]; [reflexivity|].
    rewrite fmap_cons. cbn [map]. rewrite IH. reflexivity.
  - rewrite Hafter, Hrows. reflexivity.
  - cbn [length]. rewrite length_map, length_fmap. reflexivity.
Qed.

Lemma header_written_once_witness :
  ∃ first rest,
    log (process_csv_file plain_path no_digits 2024 "in.csv" "out.csv" 1
           three_row_world).2
    = (log three_row_world
       ++ ReadCsv "in.csv" 1
          :: ToCsv "out.csv" ModeW true first
          :: map (ToCsv "out.csv" ModeA false) rest)%list
    ∧ (first ++ concat rest)%list
      = written_rows 2024
          (typed_rows 1 [final_line; wide_wall_line; final_line])
    ∧ file_after (process_csv_file plain_path no_digits 2024
                    "in.csv" "out.csv" 1 three_row_world) "out.csv"
      = Some (first ++ concat rest)%list
    ∧ S (length rest)
      = length (chunked 1
                  (enumerate [final_line; wide_wall_line; final_line])).
Proof.
  apply (header_written_once plain_path no_digits 2024 "in.csv" "out.csv" 1
           three_row_world [final_line; wide_wall_line; final_line]);
    [vm_compute; reflexivity | vm_compute; reflexivity | discriminate
    | lia | reflexivity | vm_compute; reflexivity].
Defined.

(** Two spellings of one file pass the test of the function; the input
    file then holds what was written. *)
Lemma only_the_output_file_is_written_witness :
  files (process_csv_file plain_path no_digits 2024 "in.csv" "out.csv" 1000
           two_row_world).2 !! "in.csv"
  = files two_row_world !! "in.csv"
  ∧ plain_path "./in.csv" = plain_path "in.csv"
  ∧ (λ rows : list Series,
       (λ data_row : Series, data_row !! "AgeBand") <$> rows)
      <$> file_after (process_csv_file plain_path no_digits 2024
                        "./in.csv" "in.csv" 1000 two_row_world) "in.csv"
    = Some [Some (VStr "E")].
Proof.
  split; [|split; vm_compute; reflexivity].
  apply (proj2 (only_the_output_file_is_written plain_path no_digits 2024
                  "in.csv" "out.csv" 1000 two_row_world)).
  left. discriminate.
Defined.

(** ** [convert_txt_to_csv] *)

Lemma split_nonempty sep s : split sep s ≠ [].
Proof. destruct s as [|c s]; cbn; [|destruct (N.eqb c sep)]; discriminate. Qed.

Lemma split_cons_eta sep s : split sep s = hd [] (split sep s) :: tl (split sep s).
Proof.
  pose proof (split_nonempty sep s) as H.
  destruct (split sep s); [contradiction | reflexivity].
Qed.

Lemma join_cons sep field fields :
  fields ≠ [] →
  join sep (field :: fields) = (field ++ sep :: join sep fields)%list.
Proof. destruct fields; [contradiction | reflexivity]. Qed.

Lemma join_head_cons sep c field fields :
  join sep ((c :: field) :: fields) = c :: join sep (field :: fields).
Proof. destruct fields; reflexivity. Qed.

Lemma join_split sep s : join sep (split sep s) = s.
Proof.
  induction s as [|c s IH]; [reflexivity|].
  cbn [split]. destruct (N.eqb_spec c sep) as [->|Hne].
  - rewrite join_cons by apply split_nonempty. rewrite IH. reflexivity.
  - rewrite join_head_cons, <- split_cons_eta, IH. reflexivity.
Qed.

Lemma split_no_sep sep s : Forall (λ field, sep ∉ field) (split sep s).
Proof.
  induction s as [|c s IH].
  - repeat constructor. apply not_elem_of_nil.
  - cbn [split]. rewrite (split_cons_eta sep s) in IH.
    apply Forall_cons in IH as [Hhd Htl].
    destruct (N.eqb_spec c sep) as [->|Hne].
    + constructor; [apply not_elem_of_nil|].
      rewrite (split_cons_eta sep s). constructor; assumption.
    + constructor; [|exact Htl].
      rewrite not_elem_of_cons. split; [congruence | exact Hhd].
Qed.

Lemma split_length sep s :
  length (split sep s) = S (count_occ N.eq_dec s sep).
Proof.
  induction s as [|c s IH]; [reflexivity|].
  cbn [split count_occ]. rewrite (split_cons_eta sep s) in IH.
  cbn [length] in IH.
  destruct (N.eqb_spec c sep) as [->|Hne].
  - destruct (N.eq_dec sep sep); [|contradiction].
    cbn [length]. rewrite (split_cons_eta sep s). cbn [length]. lia.
  - destruct (N.eq_dec c sep); [contradiction|]. cbn [length]. lia.
Qed.

(** X15. The fields written for a line are the pieces of the stripped
    line between its tabs: no field contains a tab, joining the fields
    with tabs gives the stripped line back, and there is one field more
    than there are tabs in the stripped line (an empty line gives one
    empty field). *)
Theorem fields_of_line_exact (line : text) :
  join tab (fields_of_line line) = strip line
  ∧ Forall (λ field, tab ∉ field) (fields_of_line line)
  ∧ length (fields_of_line line)
    = S (count_occ N.eq_dec (strip line) tab)
  ∧ fields_of_line [] = [[]].
Proof.
  unfold fields_of_line.
  split; [apply join_split|]. split; [apply split_no_sep|].
  split; [apply split_length | reflexivity].
Qed.

Lemma lstrip_spaces ws s :
  forallb isspace ws = true → lstrip (ws ++ s) = lstrip s.
Proof.
  induction ws as [|c ws IH]; intros H; [reflexivity|].
  cbn [forallb] in H. apply andb_true_iff in H as [Hc Hws].
  cbn [app lstrip]. rewrite Hc. apply IH, Hws.
Qed.

Lemma lstrip_app s ws :
  lstrip s ≠ [] → lstrip (s ++ ws) = (lstrip s ++ ws)%list.
Proof.
  induction s as [|c s IH]; intros H; [contradiction|].
  cbn [app lstrip] in *. destruct (isspace c); [apply IH, H | reflexivity].
Qed.

Lemma forallb_rev {A} (f : A → bool) l :
  forallb f l = true → forallb f (rev l) = true.
Proof.
  rewrite !forallb_forall. intros H x Hx. apply H, in_rev, Hx.
Qed.

Lemma rstrip_spaces s ws :
  forallb isspace ws = true → rstrip (s ++ ws) = rstrip s.
Proof.
  intros H. unfold rstrip. rewrite rev_app_distr, lstrip_spaces;
    [reflexivity | apply forallb_rev, H].
Qed.

Lemma lstrip_all_spaces ws : forallb isspace ws = true → lstrip ws = [].
Proof.
  intros H. rewrite <- (app_nil_r ws), lstrip_spaces by exact H. reflexivity.
Qed.

Lemma lstrip_nil_spaces s : lstrip s = [] → forallb isspace s = true.
Proof.
  induction s as [|c s IH]; [reflexivity|]. cbn [lstrip forallb].
  destruct (isspace c); [exact IH | discriminate].
Qed.

Lemma strip_spaces_after s ws :
  forallb isspace ws = true → strip (s ++ ws) = strip s.
Proof.
  intros H. unfold strip.
  destruct (lstrip s) as [|c s'] eqn:Hs.
  - rewrite lstrip_all_spaces; [reflexivity|].
    rewrite forallb_app, H, (lstrip_nil_spaces _ Hs). reflexivity.
  - rewrite lstrip_app by (rewrite Hs; discriminate).
    rewrite Hs. apply rstrip_spaces, H.
Qed.

Lemma strip_spaces_before ws s :
  forallb isspace ws = true → strip (ws ++ s) = strip s.
Proof. intros H. unfold strip. rewrite lstrip_spaces by exact H. reflexivity. Qed.

(** X16. White space at either end of a line does not reach the fields:
    a line followed or preceded by any run of white space gives the
    fields of the line alone.  Tabs are white space, so the empty cells
    at the end of a line are lost and the row written is shorter. *)
Theorem fields_ignore_outer_white_space (line ws : text) :
  forallb isspace ws = true →
  fields_of_line (line ++ ws) = fields_of_line line
  ∧ fields_of_line (ws ++ line) = fields_of_line line.
Proof.
  intros H. unfold fields_of_line.
  rewrite strip_spaces_after, strip_spaces_before by exact H. auto.
Qed.

Lemma fields_ignore_outer_white_space_witness :
  forallb isspace [tab; tab; 10%N] = true
  ∧ fields_of_line ([97; 9; 98]%N ++ [tab; tab; 10%N])%list
    = fields_of_line [97; 9; 98]%N
  ∧ fields_of_line [97; 9; 98]%N = [[97]; [98]]%N.
Proof.
  split; [reflexivity|]. split; [|reflexivity].
  apply (fields_ignore_outer_white_space [97; 9; 98]%N [tab; tab; 10%N]).
  reflexivity.
Defined.

Lemma convert_lines_map writerow lines :
  convert_lines writerow lines
  = map (λ line, writerow (fields_of_line line)) lines.
Proof.
  unfold convert_lines.
  assert (H : ∀ written,
            foldl (λ written line,
                     written ++ [writerow (fields_of_line line)])%list
              written lines
            = (written
               ++ map (λ line, writerow (fields_of_line line)) lines)%list).
  { induction lines as [|line lines IH]; intros written; cbn [foldl map].
    - rewrite app_nil_r. reflexivity.
    - rewrite IH, <- app_assoc. reflexivity. }
  apply H.
Qed.

(** X17. [convert_txt_to_csv] raises [FileAccessError] only when the
    input path does not end in [.txt] and the output path does not end in
    [.csv] either; one right suffix is enough for it to go on, and when it
    raises, no file is touched. *)
Theorem convert_rejects_only_two_wrong_suffixes
  (file_of : string → string) (writerow : list text → text)
  (input output : string) (fs : gmap string (list text)) :
  ((∃ message,
      (convert_txt_to_csv file_of writerow input output fs).1
      = Raise (FileAccessError message))
   ↔ endswith input ".txt" = false ∧ endswith output ".csv" = false)
  ∧ ((endswith input ".txt" = false ∧ endswith output ".csv" = false) →
     (convert_txt_to_csv file_of writerow input output fs).2 = fs).
Proof.
  unfold convert_txt_to_csv.
  destruct (endswith input ".txt"), (endswith output ".csv"); cbn [orb negb];
    try (split; [split; [|intros [? ?]; discriminate]
                | intros [? ?]; discriminate];
         intros [message H];
         destruct (fs !! file_of input); discriminate H).
  split; [split; [auto | eauto] | reflexivity].
Qed.

Lemma convert_rejects_only_two_wrong_suffixes_witness :
  (convert_txt_to_csv plain_path (join 44) "data.doc" "out.xls"
     text_store).2
  = text_store
  ∧ is_Ok (convert_txt_to_csv plain_path (join 44) "old.csv" "out.csv"
             text_store).1
    = true.
Proof.
  split; [|vm_compute; reflexivity].
  apply (convert_rejects_only_two_wrong_suffixes plain_path (join 44)
           "data.doc" "out.xls" text_store).
  split; vm_compute; reflexivity.
Defined.

(** X18. When [convert_txt_to_csv] passes its suffix test on two paths
    that name different files: if the input file exists, the output file
    ends up with one written row per input line, in order, whatever it
    held before, and every other file, the input included, is unchanged;
    if the input file does not exist, [FileNotFoundError] is raised and
    no file is created or changed. *)
Theorem convert_writes_one_row_per_line
  (file_of : string → string) (writerow : list text → text)
  (input output : string) (fs : gmap string (list text)) :
  endswith input ".txt" || endswith output ".csv" = true →
  file_of input ≠ file_of output →
  (∀ lines,
     fs !! file_of input = Some lines →
     convert_txt_to_csv file_of writerow input output fs
     = (Ok (),
        <[file_of output :=
            map (λ line, writerow (fields_of_line line)) lines]> fs))
  ∧ (fs !! file_of input = None →
     convert_txt_to_csv file_of writerow input output fs
     = (Raise (FileNotFoundError input), fs)).
Proof.
  intros Hsuffix Hne. unfold convert_txt_to_csv. rewrite Hsuffix. cbn [negb].
  split.
  - intros lines Hlines. rewrite Hlines.
    rewrite lookup_insert_ne by congruence. rewrite Hlines. cbn [default].
    rewrite insert_insert_eq, convert_lines_map. reflexivity.
  - intros Hnone. rewrite Hnone. reflexivity.
Qed.

Lemma convert_writes_one_row_per_line_witness :
  convert_txt_to_csv plain_path (join 44) "in.txt" "out.csv" text_store
  = (Ok (),
     <["out.csv" :=
         map (λ line, join 44 (fields_of_line line))
           [[97; 9; 98; 10]; [99; 9; 9; 10]]%N]> text_store).
Proof.
  refine (proj1 (convert_writes_one_row_per_line plain_path (join 44)
                   "in.txt" "out.csv" text_store _ _) _ _);
    [vm_compute; reflexivity | discriminate | reflexivity].
Defined.

(** X19. [convert_txt_to_csv] has no test that the two paths differ:
    called with an existing file for input and a path that names the same
    file for output, the same path in particular, it returns normally and
    leaves that file empty, because opening it for writing truncates it
    before the first line is read. *)
Theorem convert_same_path_empties_the_file
  (file_of : string → string) (writerow : list text → text)
  (input output : string) (fs : gmap string (list text))
  (lines : list text) :
  endswith input ".txt" || endswith output ".csv" = true →
  file_of input = file_of output →
  fs !! file_of input = Some lines →
  convert_txt_to_csv file_of writerow input output fs
  = (Ok (), <[file_of output := []]> fs).
Proof.
  intros Hsuffix Hsame Hlines. unfold convert_txt_to_csv.
  rewrite Hsuffix, Hlines, Hsame. cbn [negb].
  rewrite lookup_insert_eq. cbn [default convert_lines foldl].
  rewrite insert_insert_eq. reflexivity.
Qed.

Lemma convert_same_path_empties_the_file_witness :
  convert_txt_to_csv plain_path (join 44) "in.txt" "in.txt" text_store
  = (Ok (), <["in.txt" := []]> text_store)
  ∧ convert_txt_to_csv plain_path (join 44) "in.txt" "./in.txt" text_store
    = (Ok (), <["in.txt" := []]> text_store).
Proof.
  split.
  - apply (convert_same_path_empties_the_file plain_path (join 44)
             "in.txt" "in.txt" text_store [[97; 9; 98; 10]; [99; 9; 9; 10]]%N);
      [vm_compute; reflexivity | reflexivity | reflexivity].
  - apply (convert_same_path_empties_the_file plain_path (join 44)
             "in.txt" "./in.txt" text_store
             [[97; 9; 98; 10]; [99; 9; 9; 10]]%N);
      [vm_compute; reflexivity | reflexivity | reflexivity].
Defined.

(** ** Cleaning a cleaned row *)

Lemma drop_unwanted_columns_id (data_row : Series) :
  (∀ label, is_dropped label = true → data_row !! label = None) →
  drop_unwanted_columns data_row = data_row.
Proof.
  intros H. apply map_eq. intros label. rewrite drop_unwanted_columns_lookup.
  destruct (is_dropped label) eqn:Hd; [symmetry; apply H, Hd | reflexivity].
Qed.

Lemma getnum_same (x y : Series) label :
  y !! label = x !! label → getnum y label = getnum x label.
Proof. intros H. unfold getnum, get. rewrite H. reflexivity. Qed.

Lemma correct_column_data_stable (x y : Series) :
  correct_column_data x = Ok x →
  (∀ label, label ∈ "NoStoreys" :: upper_floor_heights →
            y !! label = x !! label) →
  correct_column_data y = Ok y.
Proof.
  intros Hx Hsame. unfold correct_column_data in *.
  rewrite (getnum_same x y "NoStoreys") by (apply Hsame; by_evaluation).
  apply bind_Ok_inv in Hx as (raw & Hraw & Hx). rewrite Hraw.
  cbn [mbind result_bind].
  destruct (Qlt_bool raw 4); [|reflexivity].
  unfold upper_floor_heights, ones_where in *.
  rewrite (getnum_same x y "FirstFloorHeight"),
    (getnum_same x y "SecondFloorHeight"),
    (getnum_same x y "ThirdFloorHeight") by (apply Hsame; by_evaluation).
  apply bind_Ok_inv in Hx as (ones & Hones & Hx). rewrite Hones.
  cbn [mbind result_bind]. injection Hx as Hx.
  rewrite insert_id; [reflexivity|].
  rewrite Hsame by by_evaluation. rewrite <- Hx at 1.
  apply lookup_insert_eq.
Qed.

Lemma contains_Forall_lookup (data_row : Series) labels label :
  Forall (λ label, contains data_row label = true) labels →
  label ∈ labels → ∃ v, data_row !! label = Some v.
Proof.
  rewrite Forall_forall. intros H Hin. apply contains_lookup, H, Hin.
Qed.

(** X20. Cleaning is idempotent on rows with every column the pipeline
    reads: the cleaned row goes through [cleaning_methodology] again
    without an exception and comes out unchanged. *)
Theorem cleaning_methodology_idempotent (data_row : Series) :
  raw_schema data_row = true →
  ∃ cleaned,
    cleaning_methodology data_row = Ok cleaned
    ∧ cleaning_methodology cleaned = Ok cleaned.
Proof.
  intros Hraw.
  destruct (cleaning_stages _ Hraw)
    as (r1 & r2 & c & H1 & H2 & H3 & Hclean & _ & _ & Hnum0 & Hr2).
  exists c. split; [exact Hclean|].
  set (r0 := drop_unwanted_columns data_row) in *.
  pose proof (cleaning_methodology_frame _ _ Hclean) as Hframe.
  (* the projection finds nothing to drop *)
  assert (Hdrop : drop_unwanted_columns c = c).
  { apply drop_unwanted_columns_id. intros label Hd.
    rewrite Hframe, Hd; [reflexivity|].
    intros Hin. revert Hd.
    repeat (apply elem_of_cons in Hin as [->|Hin]; [discriminate|]).
    apply elem_of_nil in Hin. contradiction. }
  (* the raw numbers are those of the first pass *)
  assert (Hraw0 : ∀ label,
            label ∈ (derivation_columns ++ validation_columns)%list →
            r0 !! label = Some (VNum (num r0 label)))
    by (intros label Hin; apply is_num_lookup, Hnum0, Hin).
  destruct (find_and_replace_frame _ _ H3) as [Hframe3 _].
  assert (Hframe2 : ∀ label, label ≠ "NoStoreys" →
                             r2 !! label = r1 !! label).
  { intros label Hne.
    apply correct_column_data_shape in H2 as [->|[storeys ->]];
      [reflexivity | apply lookup_insert_ne; congruence]. }
  pose proof (add_desired_columns_spec r0
                (num r0 "Year_of_Construction") (num r0 "WallArea")
                (num r0 "WindowArea") (num r0 "GroundFloorArea(sq m)")
                (num r0 "GroundFloorHeight") (num r0 "FirstFloorHeight")
                (num r0 "SecondFloorHeight") (num r0 "ThirdFloorHeight")
                (Hraw0 "Year_of_Construction" ltac:(by_evaluation))
                (Hraw0 "WallArea" ltac:(by_evaluation))
                (Hraw0 "WindowArea" ltac:(by_evaluation))
                (Hraw0 "GroundFloorArea(sq m)" ltac:(by_evaluation))
                (Hraw0 "GroundFloorHeight" ltac:(by_evaluation))
                (Hraw0 "FirstFloorHeight" ltac:(by_evaluation))
                (Hraw0 "SecondFloorHeight" ltac:(by_evaluation))
                (Hraw0 "ThirdFloorHeight" ltac:(by_evaluation)))
    as Hspec.
  rewrite H1 in Hspec. injection Hspec as Hr1.
  assert (Hc_raw : ∀ label,
            label ∈ ["Year_of_Construction"; "WallArea"; "WindowArea";
                     "GroundFloorArea(sq m)"; "GroundFloorHeight";
                     "FirstFloorHeight"; "SecondFloorHeight";
                     "ThirdFloorHeight"] →
            c !! label = Some (VNum (num r0 label))).
  { intros label Hin.
    assert (Hall : Forall (λ label,
                      (label ∉ ["AgeBand"; "ThermalEra"; "GlazingPercent";
                                "Volume"; "NoStoreys"; "UValueWall";
                                "UValueRoof"])
                      ∧ (label ∈ (derivation_columns
                                  ++ validation_columns)%list))
                     ["Year_of_Construction"; "WallArea"; "WindowArea";
                      "GroundFloorArea(sq m)"; "GroundFloorHeight";
                      "FirstFloorHeight"; "SecondFloorHeight";
                      "ThirdFloorHeight"]) by by_evaluation.
    rewrite Forall_forall in Hall. destruct (Hall _ Hin) as [Hnot Hcol].
    rewrite (Hframe _ Hnot), <- drop_unwanted_columns_lookup.
    apply Hraw0, Hcol. }
  assert (Hc_derived : ∀ label,
            label ∈ ["AgeBand"; "ThermalEra"; "GlazingPercent"; "Volume"] →
            c !! label = r1 !! label).
  { intros label Hin.
    rewrite Hframe3, Hframe2;
      [reflexivity | intros ->; revert Hin; by_evaluation..]. }
  (* the derived columns are recomputed to the same cells *)
  assert (Hadd : add_desired_columns c = Ok c).
  { rewrite (add_desired_columns_spec c _ _ _ _ _ _ _ _
               (Hc_raw "Year_of_Construction" ltac:(by_evaluation))
               (Hc_raw "WallArea" ltac:(by_evaluation))
               (Hc_raw "WindowArea" ltac:(by_evaluation))
               (Hc_raw "GroundFloorArea(sq m)" ltac:(by_evaluation))
               (Hc_raw "GroundFloorHeight" ltac:(by_evaluation))
               (Hc_raw "FirstFloorHeight" ltac:(by_evaluation))
               (Hc_raw "SecondFloorHeight" ltac:(by_evaluation))
               (Hc_raw "ThirdFloorHeight" ltac:(by_evaluation))).
    f_equal.
    rewrite (insert_id c "AgeBand")
      by (rewrite Hc_derived by by_evaluation; rewrite Hr1;
          rewrite !lookup_insert_ne by discriminate; apply lookup_insert_eq).
    rewrite (insert_id c "ThermalEra")
      by (rewrite Hc_derived by by_evaluation; rewrite Hr1;
          rewrite !lookup_insert_ne by discriminate; apply lookup_insert_eq).
    rewrite (insert_id c "GlazingPercent")
      by (rewrite Hc_derived by by_evaluation; rewrite Hr1;
          rewrite !lookup_insert_ne by discriminate; apply lookup_insert_eq).
    apply insert_id.
    rewrite Hc_derived by by_evaluation. rewrite Hr1.
    apply lookup_insert_eq. }
  (* the storey count is settled *)
  assert (Hcorrect : correct_column_data c = Ok c).
  { apply (correct_column_data_stable r2);
      [exact (correct_column_data_twice _ _ H2)|].
    intros label Hin. apply Hframe3; intros ->; revert Hin; by_evaluation. }
  (* no corrected U-value is a placeholder *)
  assert (Hfind : find_and_replace c = Ok c).
  { destruct (contains_Forall_lookup _ _ "AgeBand" Hr2 ltac:(by_evaluation))
      as [band Hband].
    destruct (contains_Forall_lookup _ _ "FirstWallType_Description" Hr2
                ltac:(by_evaluation)) as [descr Hdescr].
    destruct (contains_Forall_lookup _ _ "UValueWall" Hr2
                ltac:(by_evaluation)) as [wall Hwall].
    destruct (contains_Forall_lookup _ _ "UValueRoof" Hr2
                ltac:(by_evaluation)) as [roof Hroof].
    destruct (find_and_replace_twice r2 band descr wall roof
                Hband Hdescr Hwall Hroof) as (replaced & Hfirst & Hagain).
    rewrite H3 in Hfirst. injection Hfirst as <-. exact Hagain. }
  unfold cleaning_methodology. rewrite Hdrop, Hadd. cbn [mbind result_bind].
  rewrite Hcorrect. cbn [mbind result_bind]. rewrite Hfind. reflexivity.
Qed.

Lemma cleaning_methodology_idempotent_witness :
  raw_schema stone_band_A = true
  ∧ ∃ cleaned,
      cleaning_methodology stone_band_A = Ok cleaned
      ∧ cleaning_methodology cleaned = Ok cleaned.
Proof.
  assert (Hraw : raw_schema stone_band_A = true) by (vm_compute; reflexivity).
  split; [exact Hraw|].
  exact (cleaning_methodology_idempotent stone_band_A Hraw).
Defined.
